(** * Verification of the proctoring detection engine

    A shallow embedding of [frontend/js/detection.js] (class
    [AIDetectionSystem]): the per-type hysteresis tracker, the violation
    pathways, the two suspiciousness scorers, the focus state machine and
    the two gaze estimators, followed by the theorems that settle what
    the specification says about them.

    Conventions of the embedding.
    - JavaScript numbers that are only compared and copied (detection
      scores, tracker confidence) are exact rationals [Q]; counters,
      thresholds and millisecond clock readings are integers [Z].
    - Arithmetic on rationals is exact.  Where the source rounds the
      result of binary64 arithmetic or compares it with a threshold (the
      low-confidence boost, the head angle), the statements are about
      the inputs at which rounding error cannot change the outcome.
    - The tables keyed by a type name are finite maps: the names that a
      JavaScript object inherits from [Object.prototype] are not looked
      up as the source does, and the statements that read such a table
      are about the other names ([Obs.plainName]).
    - Numbers produced by a division that the source does not guard
      (aspect ratios, normalised landmark offsets) live in [num], which
      adds the IEEE values Infinity, -Infinity and NaN to [Q].
    - A missing property ([undefined]) is [None]; a call that raises a
      [TypeError] ends in [Thrown].
    - [Date.now()] is an argument [now] of the function that reads it.
    - [console.log], the statistics counters and the canvas overlay are
      left out: no decision of the engine reads them. *)

From Stdlib Require Import ZArith QArith Qround Qabs Qminmax String Ascii List Bool Lia.
From stdpp Require Import gmap strings list.
Import ListNotations.

Close Scope Q_scope.
Local Open Scope string_scope.
Local Open Scope Z_scope.

(** ** JavaScript values *)

Module JS.

(** [a >= b], [a <= b], [a < b], [a > b] on finite numbers. *)
Definition geb (a b : Q) : bool := Qle_bool b a.
Definition leb (a b : Q) : bool := Qle_bool a b.
Definition ltb (a b : Q) : bool := negb (Qle_bool b a).
Definition gtb (a b : Q) : bool := negb (Qle_bool a b).

(** Comparisons with a possibly missing operand: [undefined] converts to
    NaN, and every comparison with NaN is false. *)
Definition ogeb (a : option Q) (b : Q) : bool :=
  match a with Some q => geb q b | None => false end.
Definition oltb (a : option Q) (b : Q) : bool :=
  match a with Some q => ltb q b | None => false end.
Definition ogtb (a : option Q) (b : Q) : bool :=
  match a with Some q => gtb q b | None => false end.

(** [Math.round]: the nearest integer, halves rounded up. *)
Definition round (q : Q) : Z := Qfloor (q + (1 # 2))%Q.

(** Truthiness of an optional integer property ([if (options.x)]). *)
Definition truthyZ (o : option Z) : bool :=
  match o with Some n => negb (n =? 0) | None => false end.

(** [String.prototype.toLowerCase], on the ASCII letters. *)
Definition lower_ascii (c : ascii) : ascii :=
  let n := nat_of_ascii c in
  if (65 <=? n)%nat && (n <=? 90)%nat then ascii_of_nat (n + 32) else c.

Fixpoint toLowerCase (s : string) : string :=
  match s with
  | EmptyString => EmptyString
  | String c s' => String (lower_ascii c) (toLowerCase s')
  end.

(** [s.includes(t)]: [t] occurs in [s] as a substring. *)
Fixpoint includes (s t : string) : bool :=
  String.prefix t s
  || match s with
     | EmptyString => false
     | String _ s' => includes s' t
     end.

(** [terms.some(term => s.includes(term) || term.includes(s))]. *)
Definition matchesAny (terms : list string) (s : string) : bool :=
  existsb (fun term => includes s term || includes term s) terms.

(** How a call ends: normally, or by a thrown exception. *)
Inductive completion := Normal | Thrown.

(** A number that may have gone through an unguarded division: a
    rational, or one of the IEEE values.  Arithmetic is exact on the
    rationals (no rounding, no overflow) and a zero divisor counts as
    +0, which is what the source divides by ([Math.abs] results and
    array-derived heights). *)
Inductive num := Fin (q : Q) | PInf | NInf | NaN.

Definition neg (a : num) : num :=
  match a with
  | Fin q => Fin (- q)%Q
  | PInf => NInf
  | NInf => PInf
  | NaN => NaN
  end.

Definition add (a b : num) : num :=
  match a, b with
  | NaN, _ | _, NaN => NaN
  | Fin p, Fin q => Fin (p + q)%Q
  | PInf, NInf | NInf, PInf => NaN
  | PInf, _ | _, PInf => PInf
  | NInf, _ | _, NInf => NInf
  end.

Definition sub (a b : num) : num := add a (neg b).

(** An infinity of the sign of [a], rescaled by the sign of [q]. *)
Definition scaleInf (a : num) (q : Q) : num :=
  match (q ?= 0)%Q with
  | Eq => NaN
  | Gt => a
  | Lt => neg a
  end.

Definition mul (a b : num) : num :=
  match a, b with
  | NaN, _ | _, NaN => NaN
  | Fin p, Fin q => Fin (p * q)%Q
  | Fin p, inf => scaleInf inf p
  | inf, Fin q => scaleInf inf q
  | PInf, PInf | NInf, NInf => PInf
  | PInf, NInf | NInf, PInf => NInf
  end.

Definition div (a b : num) : num :=
  match a, b with
  | NaN, _ | _, NaN => NaN
  | Fin p, Fin q =>
      if Qeq_bool q 0 then scaleInf PInf p else Fin (p / q)%Q
  | Fin _, _ => Fin 0
  | inf, Fin q => if Qle_bool 0 q then inf else neg inf
  | _, _ => NaN
  end.

Definition abs (a : num) : num :=
  match a with
  | Fin q => Fin (Qabs q)
  | PInf | NInf => PInf
  | NaN => NaN
  end.

(** [a < b]; false as soon as an operand is NaN. *)
Definition lt (a b : num) : bool :=
  match a, b with
  | Fin p, Fin q => ltb p q
  | NInf, Fin _ | NInf, PInf | Fin _, PInf => true
  | _, _ => false
  end.

Definition le (a b : num) : bool :=
  match a, b with
  | Fin p, Fin q => leb p q
  | NInf, Fin _ | NInf, PInf | Fin _, PInf | PInf, PInf | NInf, NInf => true
  | _, _ => false
  end.

Definition gt (a b : num) : bool := lt b a.
Definition ge (a b : num) : bool := le b a.

End JS.

(** ** Data model *)

Inductive Severity := low | medium | high.

(** The text of a violation, by template; the formatted numbers are not
    rendered. *)
Inductive Message :=
| MsgStateful (objectType : string)
| MsgDirectMobile (className : string)
| MsgMisclassifiedMobile (className : string)
| MsgPersonWithObject
| MsgHighlySuspicious (className : string)
| MsgConsecutiveSuspicious (className : string)
| MsgReliableMobile (className : string)
| MsgObjectHeld
| MsgHiddenObject
| MsgUnknownObject (className : string)
| MsgOtherObject (className : string)
| MsgMultipleFaces (n : nat)
| MsgNoFace
| MsgLookingAway
| MsgGazeAway.

(** What [triggerViolation] hands to the registered callback. *)
Record Violation := mkViolation {
  type : string;
  message : Message;
  severity : Severity
}.

(** A COCO-SSD record.  [bbox] is the array [[x, y, width, height]];
    [boundingBox] is the alternative format [extractBoundingBox] accepts. *)
Record Prediction := mkPrediction {
  class : option string;
  score : option Q;
  bbox : option (Q * Q * Q * Q);
  boundingBox : option (Q * Q * Q * Q)
}.

(** ** Per-type hysteresis tracker *)

Module Tracker.

Record ObjectTrackState := mkState {
  consecutiveDetections : Z;
  missedFrames : Z;
  lastDetectionTime : option Z;
  confidence : Q
}.

(** [this.objectTracker].  [trackedObjects] is a JavaScript [Map]: its
    entries are kept in insertion order, which is the order in which
    [updateObjectTracking] visits the types. [gracePeriod] and
    [violationThresholds] are plain objects keyed by type name, the key
    ["default"] included. *)
Record ObjectTracker := mkTracker {
  trackedObjects : list (string * ObjectTrackState);
  gracePeriod : gmap string Z;
  violationThresholds : gmap string Z
}.

Definition thresholds_high : Q := 8 # 10.
Definition thresholds_medium : Q := 5 # 10.
Definition thresholds_low : Q := 2 # 10.

Definition freshState : ObjectTrackState :=
  mkState 0 0 None 0%Q.

(** [Map.prototype.has], [get] and [set]. *)
Definition has (k : string) (m : list (string * ObjectTrackState)) : bool :=
  existsb (fun e => String.eqb (fst e) k) m.

Fixpoint get (k : string) (m : list (string * ObjectTrackState))
  : option ObjectTrackState :=
  match m with
  | [] => None
  | (k', v) :: m' => if String.eqb k' k then Some v else get k m'
  end.

Fixpoint set (k : string) (v : ObjectTrackState)
         (m : list (string * ObjectTrackState))
  : list (string * ObjectTrackState) :=
  match m with
  | [] => [(k, v)]
  | (k', v') :: m' =>
      if String.eqb k' k then (k, v) :: m' else (k', v') :: set k v m'
  end.

(** The constructor's tracker, after [initializeObjectTracking]. *)
Definition initial : ObjectTracker :=
  mkTracker
    (set "book" freshState (set "mobile" freshState []))
    (<["mobile" := 3]> (<["book" := 4]> (<["default" := 2]> ∅)))
    (<["mobile" := 3]> (<["book" := 4]> (<["default" := 3]> ∅))).

(** [table[objectType] || table.default]: a missing or zero entry falls
    back to the default.  The table is a finite map, which differs from
    the plain object of the source in two cases.  A name that every
    object inherits from [Object.prototype] (["constructor"],
    ["toString"], ["__proto__"] and the others of [Obs.inheritedNames])
    and that has no entry of its own reads in the source as the
    inherited function or object, with which every comparison is false;
    here it reads as missing.  A table without the entry ["default"]
    yields [undefined] in the source and 0 here; nothing in the source
    removes that entry.  The statements that read a table are about
    plain names ([Obs.plainName]) and tables with their default entry. *)
Definition orDefault (table : gmap string Z) (objectType : string) : Z :=
  match table !! objectType with
  | Some n => if n =? 0 then default 0 (table !! "default") else n
  | None => default 0 (table !! "default")
  end.

Record Options := mkOptions {
  opt_gracePeriod : option Z;
  opt_violationThreshold : option Z
}.

(** The source ignores an assignment of a number to the key
    ["__proto__"], which is stored here: what is said of the stored
    overrides is about plain names. *)
Definition registerObjectType (objectType : string) (options : Options)
           (t : ObjectTracker) : ObjectTracker :=
  if negb (has objectType (trackedObjects t)) then
    mkTracker
      (set objectType freshState (trackedObjects t))
      (if JS.truthyZ (opt_gracePeriod options)
       then <[objectType := default 0 (opt_gracePeriod options)]> (gracePeriod t)
       else gracePeriod t)
      (if JS.truthyZ (opt_violationThreshold options)
       then <[objectType := default 0 (opt_violationThreshold options)]>
              (violationThresholds t)
       else violationThresholds t)
  else t.

(** [searchMap[objectType] || [objectType]].  For a name inherited from
    [Object.prototype] the source finds the inherited function, on which
    [searchTerms.some] throws when the first record is visited; here
    such a name is its own search term.  The statements about searches
    are about plain names. *)
Definition getSearchTermsForObjectType (objectType : string) : list string :=
  if String.eqb objectType "mobile" then
    ["cell phone"; "mobile phone"; "phone"; "smartphone"]
  else if String.eqb objectType "book" then
    ["book"; "notebook"; "paper"; "magazine"; "journal"; "textbook"]
  else if String.eqb objectType "remote" then ["remote"; "tv remote"]
  else if String.eqb objectType "cup" then ["cup"; "mug"; "bottle"]
  else [objectType].

(** [predictions.find(...)]: the first record whose lower-cased class
    matches a search term.  The callback dereferences [prediction.class],
    so a record without a class that is reached before a match makes the
    call throw: the outer [None]. *)
Fixpoint findObjectInPredictions (predictions : list Prediction)
         (objectType : string) : option (option Prediction) :=
  match predictions with
  | [] => Some None
  | p :: rest =>
      match class p with
      | None => None
      | Some c =>
          if JS.matchesAny (getSearchTermsForObjectType objectType)
                           (JS.toLowerCase c)
          then Some (Some p)
          else findObjectInPredictions rest objectType
      end
  end.

(** The three handlers below receive the state record of the type: the
    source fetches it with [trackedObjects.get(objectType)] and mutates it
    in place, and it is the record the loop is visiting. *)
Definition handleObjectDetected (detection : Prediction) (currentTime : Z)
           (state : ObjectTrackState) : ObjectTrackState :=
  match score detection with
  | Some c =>
      if JS.geb c thresholds_high then
        mkState (consecutiveDetections state + 1) 0 (Some currentTime) c
      else if JS.geb c thresholds_medium then
        mkState (consecutiveDetections state + 1) 0 (Some currentTime) c
      else if JS.geb c thresholds_low then
        mkState (consecutiveDetections state) 0 (Some currentTime) c
      else state
  | None => state
  end.

Definition handleObjectMissed (t : ObjectTracker) (objectType : string)
           (state : ObjectTrackState) : ObjectTrackState :=
  let grace := orDefault (gracePeriod t) objectType in
  let missed := missedFrames state + 1 in
  if grace <? missed then
    mkState 0 missed (lastDetectionTime state) 0%Q
  else
    mkState (consecutiveDetections state) missed
            (lastDetectionTime state) (confidence state).

(** [Math.floor(threshold / 2)] is [threshold / 2] on [Z]. *)
Definition checkObjectViolation (t : ObjectTracker) (objectType : string)
           (state : ObjectTrackState)
  : ObjectTrackState * list Violation :=
  let threshold := orDefault (violationThresholds t) objectType in
  if (threshold <=? consecutiveDetections state)
     && JS.geb (confidence state) thresholds_medium
  then
    let sev :=
      if JS.geb (confidence state) thresholds_high
         || (threshold + 2 <=? consecutiveDetections state)
      then high else medium in
    (mkState (threshold / 2) (missedFrames state)
             (lastDetectionTime state) (confidence state),
     [mkViolation (String.append objectType "_detected_stateful")
                  (MsgStateful objectType) sev])
  else (state, []).

(** One type's share of a tick, once the search has returned. *)
Definition trackType (t : ObjectTracker) (objectType : string)
           (found : option Prediction) (currentTime : Z)
           (state : ObjectTrackState)
  : ObjectTrackState * list Violation :=
  checkObjectViolation t objectType
    (match found with
     | Some detection => handleObjectDetected detection currentTime state
     | None => handleObjectMissed t objectType state
     end).

(** The [for ... of this.objectTracker.trackedObjects] loop.  A throw
    inside the search ends the loop: the types already visited keep
    their new state, the others are untouched. *)
Fixpoint trackLoop (t : ObjectTracker) (predictions : list Prediction)
         (currentTime : Z) (entries : list (string * ObjectTrackState))
  : JS.completion * list (string * ObjectTrackState) * list Violation :=
  match entries with
  | [] => (JS.Normal, [], [])
  | (objectType, state) :: rest =>
      match findObjectInPredictions predictions objectType with
      | None => (JS.Thrown, entries, [])
      | Some found =>
          let '(state', vs) :=
            trackType t objectType found currentTime state in
          let '(c, rest', vs') :=
            trackLoop t predictions currentTime rest in
          (c, (objectType, state') :: rest', (vs ++ vs')%list)
      end
  end.

Definition updateObjectTracking (predictions : list Prediction)
           (currentTime : Z) (t : ObjectTracker)
  : JS.completion * ObjectTracker * list Violation :=
  let '(c, entries, vs) :=
    trackLoop t predictions currentTime (trackedObjects t) in
  (c, mkTracker entries (gracePeriod t) (violationThresholds t), vs).

End Tracker.

(** ** Suspiciousness scorers *)

Module Scorer.

(** An entry of [this.detectedHands]. *)
Record Hand := mkHand {
  x : Q;
  y : Q;
  width : Q;
  height : Q;
  label : string;
  confidence : Q
}.

Definition extractBoundingBox (p : Prediction) : option (Q * Q * Q * Q) :=
  match bbox p with
  | Some b => Some b
  | None => boundingBox p
  end.

Definition between (a : JS.num) (lo hi : Q) : bool :=
  JS.ge a (JS.Fin lo) && JS.le a (JS.Fin hi).

Definition analyzePhoneShape (aspectRatio : JS.num) : Z :=
  if between aspectRatio (4 # 10) (6 # 10) then 50
  else if between aspectRatio (16 # 10) (25 # 10) then 50
  else if between aspectRatio (3 # 10) (7 # 10)
          || between aspectRatio (14 # 10) 3
  then 25
  else 0.

(** The loop over the hands returns at the first hand whose centre is
    closer to the object's centre than [maxDistance].  The source
    compares [Math.sqrt(dx^2 + dy^2) < maxDistance]; squaring both sides
    is exact when [maxDistance] is positive, and the test is false
    otherwise. *)
Fixpoint analyzeHandContext (detectedHands : list Hand)
         (ox oy owidth oheight : Q) : Z :=
  match detectedHands with
  | [] => 0
  | hand :: rest =>
      let objectCenterX := (ox + owidth / 2)%Q in
      let objectCenterY := (oy + oheight / 2)%Q in
      let handCenterX := (x hand + width hand / 2)%Q in
      let handCenterY := (y hand + height hand / 2)%Q in
      let dx := (objectCenterX - handCenterX)%Q in
      let dy := (objectCenterY - handCenterY)%Q in
      let maxDistance :=
        (Qmax (width hand) (height hand) / 2 + Qmax owidth oheight / 2)%Q in
      if JS.gtb maxDistance 0
         && JS.ltb (dx * dx + dy * dy)%Q (maxDistance * maxDistance)%Q
      then 50 + JS.round (confidence hand * 20)%Q
      else analyzeHandContext rest ox oy owidth oheight
  end.

Definition analyzePhoneSize (owidth oheight : Q) : Z :=
  let objectSize := Qmax owidth oheight in
  if JS.geb objectSize 30 && JS.leb objectSize 200 then 25
  else if JS.gtb objectSize 140 && JS.ltb objectSize 300 then 10
  else 0.

(** The mobile scorer.  It dereferences [prediction.class] first, so a
    record without a class makes it throw ([None]). *)
Definition calculateSuspiciousnessScore (detectedHands : list Hand)
           (prediction : Prediction) : option Z :=
  match class prediction with
  | None => None
  | Some c =>
      let className := JS.toLowerCase c in
      match extractBoundingBox prediction with
      | None => Some 0
      | Some (bx, by_, bwidth, bheight) =>
          let classification :=
            if JS.includes className "phone" || JS.includes className "cell"
            then 100
            else if existsb (fun item => JS.includes className item)
                            ["remote"; "book"; "bottle"; "cup"]
            then 25
            else 0 in
          let aspectRatio := JS.div (JS.Fin bwidth) (JS.Fin bheight) in
          let shapeScore := analyzePhoneShape aspectRatio in
          let contextScore :=
            analyzeHandContext detectedHands bx by_ bwidth bheight in
          let sizeScore := analyzePhoneSize bwidth bheight in
          Some (classification + shapeScore + contextScore + sizeScore)
      end
  end.

(** An entry of [this.suspiciousItemsCategories]. *)
Record Category := mkCategory {
  categoryName : string;
  items : list string;
  baseScore : Z;
  cat_violationType : string;
  cat_severity : Severity
}.

(** The table [initializeSuspiciousCategories] installs, in key order. *)
Definition initializeSuspiciousCategories : list Category :=
  [ mkCategory "booksAndPapers"
      ["book"; "notebook"; "paper"; "magazine"; "journal"; "textbook"]
      80 "books_notes_detected" high;
    mkCategory "electronicDevices"
      ["cell phone"; "mobile phone"; "phone"; "smartphone"; "tv"; "remote";
       "laptop"; "mouse"; "keyboard"; "tablet"; "ipad"]
      100 "electronic_device_detected" high;
    mkCategory "writingMaterials"
      ["pencil"; "pen"; "marker"; "highlighter"; "eraser"]
      60 "writing_materials_detected" medium;
    mkCategory "otherSuspicious"
      ["cup"; "bottle"; "bag"; "backpack"; "wallet"; "purse"; "calculator"]
      50 "suspicious_item_detected" medium ].

(** [category === name], where [category] may be [null]. *)
Definition isCategory (category : option string) (name : string) : bool :=
  match category with
  | Some c => String.eqb c name
  | None => false
  end.

Definition analyzeObjectShape (aspectRatio : JS.num)
           (category : option string) : Z :=
  if isCategory category "booksAndPapers" then
    if between aspectRatio (6 # 10) (8 # 10)
       || between aspectRatio (12 # 10) (17 # 10)
    then 30 else 0
  else if isCategory category "electronicDevices" then
    analyzePhoneShape aspectRatio
  else if between aspectRatio (3 # 10) 3 then 15 else 0.

Definition analyzeObjectSize (owidth oheight : Q)
           (category : option string) : Z :=
  let objectSize := Qmax owidth oheight in
  if isCategory category "booksAndPapers" then
    if JS.geb objectSize 50 && JS.leb objectSize 300 then 25 else 0
  else if isCategory category "electronicDevices" then
    analyzePhoneSize owidth oheight
  else if JS.geb objectSize 20 && JS.leb objectSize 200 then 15 else 0.

(** What [analyzeSuspiciousObject] returns ([suspiciousnessScore] repeats
    [totalScore]). *)
Record SuspiciousnessData := mkData {
  totalScore : Z;
  violationType : string;
  data_severity : Severity;
  detectedCategory : option string
}.

(** The first category with an item that contains, or is contained in,
    the class name. *)
Definition findCategory (categories : list Category) (className : string)
  : option Category :=
  List.find
    (fun c => JS.matchesAny (map JS.toLowerCase (items c)) className)
    categories.

(** The points of the category, shape, hand-context and size terms. *)
Definition termsScore (categories : list Category)
           (detectedHands : list Hand) (prediction : Prediction)
           (className : string) : Z :=
  let cat := findCategory categories className in
  let detected := option_map categoryName cat in
  let categoryScore :=
    match cat with Some c => baseScore c | None => 0 end in
  match extractBoundingBox prediction with
  | Some (bx, by_, bwidth, bheight) =>
      if JS.gtb bwidth 0 && JS.gtb bheight 0 then
        let aspectRatio := JS.Fin (bwidth / bheight)%Q in
        categoryScore + analyzeObjectShape aspectRatio detected
        + analyzeHandContext detectedHands bx by_ bwidth bheight
        + analyzeObjectSize bwidth bheight detected
      else categoryScore
  | None => categoryScore
  end.

(** [prediction.score && typeof prediction.score === 'number' &&
    prediction.score < 0.6 && totalScore > 0]. *)
Definition boostApplies (prediction : Prediction) (total : Z) : bool :=
  match score prediction with
  | Some s => negb (Qeq_bool s 0) && JS.ltb s (6 # 10) && (0 <? total)
  | None => false
  end.

(** [Math.round((0.6 - prediction.score) * 50)], on the exact product.
    The source computes the product in binary64, which can fall on the
    other side of a half: at the score 0.55 the exact product is 2.5 and
    rounds to 3, the binary64 product is just below 2.5 and rounds to 2.
    [Obs.boostSettled] marks the scores at which the two agree. *)
Definition confidenceBoost (prediction : Prediction) : Z :=
  match score prediction with
  | Some s => JS.round (((6 # 10) - s) * 50)%Q
  | None => 0
  end.

(** The category scorer, on the installed table. *)
Definition analyzeSuspiciousObject (categories : list Category)
           (detectedHands : list Hand) (prediction : Prediction)
  : SuspiciousnessData :=
  let className :=
    match class prediction with
    | Some c => JS.toLowerCase c
    | None => ""
    end in
  if String.eqb className "" then
    mkData 0 "suspicious_item_detected" medium None
  else
    let cat := findCategory categories className in
    let total := termsScore categories detectedHands prediction className in
    let total' :=
      if boostApplies prediction total
      then total + confidenceBoost prediction
      else total in
    mkData total'
           (match cat with
            | Some c => cat_violationType c
            | None => "suspicious_item_detected"
            end)
           (match cat with Some c => cat_severity c | None => medium end)
           (option_map categoryName cat).

End Scorer.

(** ** The object pipeline of one engine instance *)

Module Engine.

Import Scorer.

Record Pathway := mkPathway { count : Z; threshold : Z }.

(** [this.violationPathways]. *)
Record ViolationPathways := mkPathways {
  directMobile : Pathway;
  misclassifiedObject : Pathway;
  personWithObject : Pathway;
  highSuspiciousness : Pathway
}.

(** The mutable part of [this.enhancedViolationSystem]. *)
Record EnhancedViolationSystem := mkEnhanced {
  lastSuspiciousObjectTime : option Z;
  consecutiveSuspiciousFrames : Z
}.

Definition misclassifiedObjectThreshold : Z := 100.
Definition personWithObjectThreshold : Z := 75.
Definition suspiciousObjectTimeLimit : Z := 3000.
Definition requiredSuspiciousFrames : Z := 5.

(** The mutable part of [this.misclassifiedDetection]. *)
Record MisclassifiedDetection := mkMisclassified {
  personOnlyFrames : Z;
  unknownObjectFrames : Z;
  lastViolationTime : Z
}.

Definition personOnlyThreshold : Z := 8.
Definition unknownObjectThreshold : Z := 5.
Definition violationCooldown : Z := 10000.

Definition requiredConsecutiveDetections : Z := 3.
Definition allowedMissedFrames : Z := 2.
Definition suspiciousnessThreshold : Z := 120.

(** An element of [mobileDetections]: a prediction whose class has been
    read, spread together with the fields the mobile check adds. *)
Record Detection := mkDetection {
  det_class : string;
  det_score : option Q;
  confidenceLevel : string;
  suspiciousnessScore : Z;
  detectionMethod : option string
}.

(** The fields of [this] the object pipeline reads or writes.  [emitted]
    is what the violation callback has received so far, oldest first. *)
Record State := mkEngine {
  violationPathways : ViolationPathways;
  enhancedViolationSystem : EnhancedViolationSystem;
  phoneDetectedCount : Z;
  phoneMissedCount : Z;
  lastPersonDetection : option Prediction;
  detectedHands : list Hand;
  misclassifiedDetection : MisclassifiedDetection;
  suspiciousItemsCategories : option (list Category);
  objectTracker : Tracker.ObjectTracker;
  frameCounter : Z;
  emitted : list Violation
}.

Definition set_violationPathways (v : ViolationPathways) (s : State) :=
  mkEngine v (enhancedViolationSystem s) (phoneDetectedCount s)
    (phoneMissedCount s) (lastPersonDetection s) (detectedHands s)
    (misclassifiedDetection s) (suspiciousItemsCategories s)
    (objectTracker s) (frameCounter s) (emitted s).

Definition set_enhancedViolationSystem (v : EnhancedViolationSystem)
           (s : State) :=
  mkEngine (violationPathways s) v (phoneDetectedCount s)
    (phoneMissedCount s) (lastPersonDetection s) (detectedHands s)
    (misclassifiedDetection s) (suspiciousItemsCategories s)
    (objectTracker s) (frameCounter s) (emitted s).

Definition set_phoneCounts (detected missed : Z) (s : State) :=
  mkEngine (violationPathways s) (enhancedViolationSystem s) detected
    missed (lastPersonDetection s) (detectedHands s)
    (misclassifiedDetection s) (suspiciousItemsCategories s)
    (objectTracker s) (frameCounter s) (emitted s).

Definition set_lastPersonDetection (v : option Prediction) (s : State) :=
  mkEngine (violationPathways s) (enhancedViolationSystem s)
    (phoneDetectedCount s) (phoneMissedCount s) v (detectedHands s)
    (misclassifiedDetection s) (suspiciousItemsCategories s)
    (objectTracker s) (frameCounter s) (emitted s).

Definition set_misclassifiedDetection (v : MisclassifiedDetection)
           (s : State) :=
  mkEngine (violationPathways s) (enhancedViolationSystem s)
    (phoneDetectedCount s) (phoneMissedCount s) (lastPersonDetection s)
    (detectedHands s) v (suspiciousItemsCategories s)
    (objectTracker s) (frameCounter s) (emitted s).

Definition set_suspiciousItemsCategories (v : option (list Category))
           (s : State) :=
  mkEngine (violationPathways s) (enhancedViolationSystem s)
    (phoneDetectedCount s) (phoneMissedCount s) (lastPersonDetection s)
    (detectedHands s) (misclassifiedDetection s) v
    (objectTracker s) (frameCounter s) (emitted s).

Definition set_objectTracker (v : Tracker.ObjectTracker) (s : State) :=
  mkEngine (violationPathways s) (enhancedViolationSystem s)
    (phoneDetectedCount s) (phoneMissedCount s) (lastPersonDetection s)
    (detectedHands s) (misclassifiedDetection s)
    (suspiciousItemsCategories s) v (frameCounter s) (emitted s).

Definition set_frameCounter (v : Z) (s : State) :=
  mkEngine (violationPathways s) (enhancedViolationSystem s)
    (phoneDetectedCount s) (phoneMissedCount s) (lastPersonDetection s)
    (detectedHands s) (misclassifiedDetection s)
    (suspiciousItemsCategories s) (objectTracker s) v (emitted s).

Definition set_emitted (v : list Violation) (s : State) :=
  mkEngine (violationPathways s) (enhancedViolationSystem s)
    (phoneDetectedCount s) (phoneMissedCount s) (lastPersonDetection s)
    (detectedHands s) (misclassifiedDetection s)
    (suspiciousItemsCategories s) (objectTracker s) (frameCounter s) v.

(** The state the constructor leaves, for a given hand list. *)
Definition initial (hands : list Hand) : State :=
  mkEngine
    (mkPathways (mkPathway 0 3) (mkPathway 0 2)
                (mkPathway 0 4) (mkPathway 0 1))
    (mkEnhanced None 0)
    0 0 None hands
    (mkMisclassified 0 0 0)
    None
    Tracker.initial
    0 [].

Definition triggerViolation (v : Violation) (s : State) : State :=
  set_emitted (emitted s ++ [v])%list s.

Definition triggerViolations (vs : list Violation) (s : State) : State :=
  set_emitted (emitted s ++ vs)%list s.

(** *** Violation pathways *)

Definition resetCount (p : Pathway) : Pathway := mkPathway 0 (threshold p).
Definition increment (p : Pathway) : Pathway :=
  mkPathway (count p + 1) (threshold p).
Definition reached (p : Pathway) : bool := threshold p <=? count p.

Definition resetAllPathways (s : State) : State :=
  let v := violationPathways s in
  set_violationPathways
    (mkPathways (resetCount (directMobile v))
                (resetCount (misclassifiedObject v))
                (resetCount (personWithObject v))
                (resetCount (highSuspiciousness v))) s.

(** [detection.class || 'unknown']: the empty string is falsy. *)
Definition classOrUnknown (detection : Detection) : string :=
  if String.eqb (det_class detection) "" then "unknown"
  else det_class detection.

(** Every kind of enhanced violation reaches the callback with the type
    ['mobile_phone_detected']; the kind shows in the message. *)
Definition triggerEnhancedViolation (violationType : string)
           (detection : Detection) (sev : Severity) (s : State) : State :=
  let className := classOrUnknown detection in
  let msg :=
    if String.eqb violationType "direct_mobile_detection"
    then MsgDirectMobile className
    else if String.eqb violationType "misclassified_mobile_object"
    then MsgMisclassifiedMobile className
    else if String.eqb violationType "person_with_suspicious_object"
    then MsgPersonWithObject
    else if String.eqb violationType "highly_suspicious_object"
    then MsgHighlySuspicious className
    else MsgConsecutiveSuspicious className in
  triggerViolation (mkViolation "mobile_phone_detected" msg sev) s.

Definition processViolationPathways (detection : Detection) (s : State)
  : State :=
  let className := JS.toLowerCase (det_class detection) in
  let points := suspiciousnessScore detection in
  let v := violationPathways s in
  if JS.includes className "phone" || JS.includes className "cell" then
    let p := increment (directMobile v) in
    let s1 :=
      set_violationPathways
        (mkPathways p (misclassifiedObject v) (personWithObject v)
                    (highSuspiciousness v)) s in
    if reached p then
      resetAllPathways
        (triggerEnhancedViolation "direct_mobile_detection" detection high s1)
    else s1
  else if misclassifiedObjectThreshold <=? points then
    let p := increment (misclassifiedObject v) in
    let s1 :=
      set_violationPathways
        (mkPathways (directMobile v) p (personWithObject v)
                    (highSuspiciousness v)) s in
    if reached p then
      resetAllPathways
        (triggerEnhancedViolation "misclassified_mobile_object" detection
                                  high s1)
    else s1
  else if String.eqb className "person"
          && (personWithObjectThreshold <=? points) then
    let p := increment (personWithObject v) in
    let s1 :=
      set_violationPathways
        (mkPathways (directMobile v) (misclassifiedObject v) p
                    (highSuspiciousness v)) s in
    if reached p then
      resetAllPathways
        (triggerEnhancedViolation "person_with_suspicious_object" detection
                                  medium s1)
    else s1
  else if 150 <=? points then
    let p := increment (highSuspiciousness v) in
    let s1 :=
      set_violationPathways
        (mkPathways (directMobile v) (misclassifiedObject v)
                    (personWithObject v) p) s in
    if reached p then
      resetAllPathways
        (triggerEnhancedViolation "highly_suspicious_object" detection
                                  high s1)
    else s1
  else
    let e := enhancedViolationSystem s in
    if 50 <=? points then
      let frames := consecutiveSuspiciousFrames e + 1 in
      let s1 :=
        set_enhancedViolationSystem
          (mkEnhanced (lastSuspiciousObjectTime e) frames) s in
      if requiredSuspiciousFrames <=? frames then
        set_enhancedViolationSystem
          (mkEnhanced (lastSuspiciousObjectTime e) 0)
          (triggerEnhancedViolation "consecutive_suspicious_behavior"
                                    detection medium s1)
      else s1
    else
      set_enhancedViolationSystem
        (mkEnhanced (lastSuspiciousObjectTime e) 0) s.

Definition resetSuspiciousObjectTimer (s : State) : State :=
  let e := enhancedViolationSystem s in
  match lastSuspiciousObjectTime e with
  | Some started =>
      if started =? 0 then s
      else set_enhancedViolationSystem
             (mkEnhanced None (consecutiveSuspiciousFrames e)) s
  | None => s
  end.

(** [!lastSuspiciousObjectTime] holds for [null] and for the reading 0. *)
Definition updateSuspiciousObjectTimer (currentTime : Z) (s : State)
  : State :=
  let e := enhancedViolationSystem s in
  match lastSuspiciousObjectTime e with
  | Some started =>
      if started =? 0 then
        set_enhancedViolationSystem
          (mkEnhanced (Some currentTime) (consecutiveSuspiciousFrames e)) s
      else if suspiciousObjectTimeLimit <=? currentTime - started then
        resetSuspiciousObjectTimer
          (triggerViolation
             (mkViolation "mobile_phone_detected" MsgObjectHeld medium) s)
      else s
  | None =>
      set_enhancedViolationSystem
        (mkEnhanced (Some currentTime) (consecutiveSuspiciousFrames e)) s
  end.

(** *** Calls that may throw

    A computation on the engine state that ends normally with a value
    or by a throw.  Either way the state reached so far is kept: a
    JavaScript exception undoes nothing. *)

Inductive outcome (A : Type) :=
| Returned (a : A)
| Threw.
Arguments Returned {A} a.
Arguments Threw {A}.

Definition M (A : Type) : Type := State -> outcome A * State.

Definition ret {A} (a : A) : M A := fun s => (Returned a, s).
Definition throw {A} : M A := fun s => (Threw, s).
Definition bind {A B} (m : M A) (k : A -> M B) : M B :=
  fun s =>
    match m s with
    | (Returned a, s') => k a s'
    | (Threw, s') => (Threw, s')
    end.
Definition gets {A} (f : State -> A) : M A := fun s => (Returned (f s), s).
Definition modify (f : State -> State) : M unit :=
  fun s => (Returned tt, f s).
Definition ofOption {A} (o : option A) : M A :=
  match o with Some a => ret a | None => throw end.

Notation "'let!' x ':=' m 'in' k" := (bind m (fun x => k))
  (at level 10, x name, m at level 100, k at level 200).
Notation "'run!' m 'in' k" := (bind m (fun _ => k))
  (at level 10, m at level 100, k at level 200).

(** [try { body } catch (error) { console.warn(...) }]. *)
Definition tryCatch (body : M unit) (s : State) : State := snd (body s).

(** *** Mobile phone check *)

Definition mobileKeywords : list string :=
  ["cell phone"; "mobile phone"; "phone"; "smartphone"; "iphone"; "android"].

Definition mobilePhone_high : Q := 60 # 100.
Definition mobilePhone_medium : Q := 45 # 100.
Definition mobilePhone_low : Q := 30 # 100.

(** Phase 1 of [checkMobilePhoneDetections].  The callback starts with
    [prediction.class.toLowerCase()]: the first record without a class
    throws, out of the [forEach] and out of the function. *)
Fixpoint directMobileDetections (predictions : list Prediction)
  : option (list Detection) :=
  match predictions with
  | [] => Some []
  | p :: rest =>
      match class p with
      | None => None
      | Some c =>
          let className := JS.toLowerCase c in
          let here :=
            if JS.matchesAny mobileKeywords className then
              if JS.ogeb (score p) mobilePhone_high then
                [mkDetection c (score p) "high" 100 None]
              else if JS.ogeb (score p) mobilePhone_medium then
                [mkDetection c (score p) "medium" 100 None]
              else if JS.ogeb (score p) mobilePhone_low then
                [mkDetection c (score p) "low" 100 None]
              else []
            else [] in
          option_map (fun more => here ++ more)%list
                     (directMobileDetections rest)
      end
  end.

(** [predictions.find(pred => pred.class.toLowerCase() === 'person' &&
    pred.score > 0.5)]. *)
Fixpoint findPerson (predictions : list Prediction)
  : option (option Prediction) :=
  match predictions with
  | [] => Some None
  | p :: rest =>
      match class p with
      | None => None
      | Some c =>
          if String.eqb (JS.toLowerCase c) "person"
             && JS.ogtb (score p) (5 # 10)
          then Some (Some p)
          else findPerson rest
      end
  end.

Definition updatePersonContext (predictions : list Prediction) : M unit :=
  let! found := ofOption (findPerson predictions) in
  match found with
  | Some person => modify (set_lastPersonDetection (Some person))
  | None => ret tt
  end.

Fixpoint advancedDetections (hands : list Hand)
         (predictions : list Prediction) : option (list Detection) :=
  match predictions with
  | [] => Some []
  | p :: rest =>
      match calculateSuspiciousnessScore hands p, class p with
      | Some points, Some c =>
          let here :=
            if suspiciousnessThreshold <=? points then
              [mkDetection c (score p) "advanced" points
                           (Some "advanced-analysis")]
            else [] in
          option_map (fun more => here ++ more)%list
                     (advancedDetections hands rest)
      | _, _ => None
      end
  end.

Definition performAdvancedMobileAnalysis (predictions : list Prediction)
  : M (list Detection) :=
  run! updatePersonContext predictions in
  let! hands := gets detectedHands in
  ofOption (advancedDetections hands predictions).

(** [this.advancedMobileDetection.enabled] is [true] and never written. *)
Definition checkMobilePhoneDetections (predictions : list Prediction)
  : M (list Detection) :=
  let! direct := ofOption (directMobileDetections predictions) in
  let! advanced := performAdvancedMobileAnalysis predictions in
  ret (direct ++ advanced)%list.

Definition isDirect (d : Detection) : bool :=
  match detectionMethod d with
  | Some m => negb (String.eqb m "advanced-analysis")
  | None => true
  end.

(** [reduce((best, current) => current.score > best.score ? current :
    best)], started on the first element. *)
Definition betterScore (best current : Detection) : Detection :=
  match det_score current, det_score best with
  | Some c, Some b => if JS.gtb c b then current else best
  | _, _ => best
  end.

Definition processConsecutiveMobileDetections
           (mobileDetections : list Detection) (currentTime : Z)
           (s : State) : State :=
  match mobileDetections with
  | _ :: _ =>
      let s1 :=
        fold_left (fun acc d => processViolationPathways d acc)
                  mobileDetections s in
      let s2 :=
        match List.filter isDirect mobileDetections with
        | first :: others =>
            let detected := phoneDetectedCount s1 + 1 in
            if requiredConsecutiveDetections <=? detected then
              let bestDetection := fold_left betterScore others first in
              set_phoneCounts 0 0
                (triggerViolation
                   (mkViolation "mobile_phone_detected"
                      (MsgReliableMobile (det_class bestDetection))
                      (if String.eqb (confidenceLevel bestDetection) "high"
                       then high else medium))
                   (set_phoneCounts detected 0 s1))
            else set_phoneCounts detected 0 s1
        | [] => s1
        end in
      updateSuspiciousObjectTimer currentTime s2
  | [] =>
      let missed := phoneMissedCount s + 1 in
      let s1 :=
        if allowedMissedFrames <? missed
        then set_phoneCounts 0 0 s
        else set_phoneCounts (phoneDetectedCount s) missed s in
      resetSuspiciousObjectTimer s1
  end.

(** *** Misclassified-object heuristic and the category scan *)

Definition commonSafeObjects : list string :=
  ["person"; "chair"; "desk"; "wall"; "window"; "door"].

(** [isKnownObject] on an installed table. *)
Definition isKnownObject (categories : list Category) (className : string)
  : bool :=
  JS.matchesAny (map JS.toLowerCase (flat_map items categories)) className
  || existsb (String.eqb className) commonSafeObjects.

(** [predictions.filter(p => p.class.toLowerCase() === 'person')] and
    its complement, each with the lower-cased class; a record without a
    class throws. *)
Fixpoint lowerClasses (predictions : list Prediction)
  : option (list (string * Prediction)) :=
  match predictions with
  | [] => Some []
  | p :: rest =>
      match class p with
      | None => None
      | Some c =>
          option_map (cons (JS.toLowerCase c, p)) (lowerClasses rest)
      end
  end.

Definition isPerson (e : string * Prediction) : bool :=
  String.eqb (fst e) "person".

(** Scenario 1: the person-only counter. *)
Definition personOnlyStep (personDetections otherDetections
                           : list (string * Prediction))
           (currentTime : Z) (s : State) : State :=
  let m := misclassifiedDetection s in
  match personDetections, otherDetections with
  | _ :: _, [] =>
      if existsb (fun e => JS.ogeb (score (snd e)) (7 # 10)) personDetections
      then
        let frames := personOnlyFrames m + 1 in
        let s1 :=
          set_misclassifiedDetection
            (mkMisclassified frames (unknownObjectFrames m)
                             (lastViolationTime m)) s in
        if personOnlyThreshold <=? frames then
          if violationCooldown <=? currentTime - lastViolationTime m then
            set_misclassifiedDetection
              (mkMisclassified 0 (unknownObjectFrames m) currentTime)
              (triggerViolation
                 (mkViolation "misclassified_object_detected"
                              MsgHiddenObject medium) s1)
          else s1
        else s1
      else
        set_misclassifiedDetection
          (mkMisclassified (Z.max 0 (personOnlyFrames m - 1))
                           (unknownObjectFrames m) (lastViolationTime m)) s
  | _, _ =>
      set_misclassifiedDetection
        (mkMisclassified 0 (unknownObjectFrames m) (lastViolationTime m)) s
  end.

(** Scenario 2: the unknown-object counter, given the filtered list. *)
Definition unknownObjectStep (unknownObjects : list (string * Prediction))
           (s : State) : State :=
  let m := misclassifiedDetection s in
  match unknownObjects with
  | unknownObj :: _ =>
      let frames := unknownObjectFrames m + 1 in
      let s1 :=
        set_misclassifiedDetection
          (mkMisclassified (personOnlyFrames m) frames
                           (lastViolationTime m)) s in
      if unknownObjectThreshold <=? frames then
        set_misclassifiedDetection
          (mkMisclassified (personOnlyFrames m) 0 (lastViolationTime m))
          (triggerViolation
             (mkViolation "unknown_object_detected"
                (MsgUnknownObject (default "" (class (snd unknownObj))))
                medium) s1)
      else s1
  | [] =>
      set_misclassifiedDetection
        (mkMisclassified (personOnlyFrames m) 0 (lastViolationTime m)) s
  end.

(** [isKnownObject] reads [Object.values(this.suspiciousItemsCategories)]:
    while the table is not installed, the first call throws.  The filter
    calls it once per non-person record. *)
Definition checkMisclassifiedObjects (predictions : list Prediction)
           (currentTime : Z) : M unit :=
  let! classed := ofOption (lowerClasses predictions) in
  let personDetections := List.filter isPerson classed in
  let otherDetections := List.filter (fun e => negb (isPerson e)) classed in
  run! modify (personOnlyStep personDetections otherDetections currentTime)
  in
  let! table := gets suspiciousItemsCategories in
  match otherDetections, table with
  | [], _ => modify (unknownObjectStep [])
  | _ :: _, None => throw
  | _ :: _, Some categories =>
      modify
        (unknownObjectStep
           (List.filter
              (fun e => negb (isKnownObject categories (fst e))
                        && JS.oltb (score (snd e)) (6 # 10))
              otherDetections))
  end.

(** The per-record body of the scan: [analyzeSuspiciousObject] installs
    the category table when it is missing, and never throws. *)
Definition scanRecord (prediction : Prediction) (s : State)
  : State * list (Prediction * SuspiciousnessData) :=
  let s1 :=
    match suspiciousItemsCategories s with
    | Some _ => s
    | None =>
        set_suspiciousItemsCategories (Some initializeSuspiciousCategories) s
    end in
  let data :=
    analyzeSuspiciousObject
      (default [] (suspiciousItemsCategories s1)) (detectedHands s1)
      prediction in
  (s1, if 70 <=? totalScore data then [(prediction, data)] else []).

Fixpoint scanRecords (predictions : list Prediction) (s : State)
  : State * list (Prediction * SuspiciousnessData) :=
  match predictions with
  | [] => (s, [])
  | p :: rest =>
      let '(s1, here) := scanRecord p s in
      let '(s2, more) := scanRecords rest s1 in
      (s2, (here ++ more)%list)
  end.

Definition checkOtherSuspiciousObjects (predictions : list Prediction)
           (currentTime : Z)
  : M (list (Prediction * SuspiciousnessData)) :=
  match predictions with
  | [] => ret []
  | _ :: _ =>
      run! checkMisclassifiedObjects predictions currentTime in
      fun s =>
        let '(s', found) := scanRecords predictions s in
        (Returned found, s')
  end.

Definition processOtherObjects
           (suspiciousObjects : list (Prediction * SuspiciousnessData))
           (s : State) : State :=
  triggerViolations
    (map (fun obj =>
            mkViolation (violationType (snd obj))
                        (MsgOtherObject (default "" (class (fst obj))))
                        (data_severity (snd obj)))
         suspiciousObjects) s.

(** *** The tick *)

Definition updateObjectTracking (predictions : list Prediction)
           (currentTime : Z) : M unit :=
  fun s =>
    let '(c, tracker, vs) :=
      Tracker.updateObjectTracking predictions currentTime (objectTracker s)
    in
    let s1 := triggerViolations vs (set_objectTracker tracker s) in
    match c with
    | JS.Normal => (Returned tt, set_frameCounter (frameCounter s1 + 1) s1)
    | JS.Thrown => (Threw, s1)
    end.

(** [detectObjectsWithAI], from the point where [predictions] has been
    received: the five steps run inside one [try], whose [catch] only
    logs. *)
Definition detectObjectsWithAI (predictions : list Prediction)
           (currentTime : Z) (s : State) : State :=
  tryCatch
    (let! mobileDetections := checkMobilePhoneDetections predictions in
     run! modify (processConsecutiveMobileDetections mobileDetections
                                                      currentTime) in
     let! categorizedObjects :=
       checkOtherSuspiciousObjects predictions currentTime in
     run! modify (processOtherObjects categorizedObjects) in
     updateObjectTracking predictions currentTime)
    s.

End Engine.

(** ** Focus state machine and gaze estimators *)

Module Focus.

(** A face-mesh point.  A coordinate that is not a number reads as NaN. *)
Record Landmark := mkLandmark { x : JS.num; y : JS.num }.

(** A landmark array; [None] is a hole ([undefined] or [null] entry),
    and so is every index past the end. *)
Definition Landmarks := list (option Landmark).

Record Face := mkFace { landmarks : option Landmarks }.

(** [landmarks[i]] followed by a property read: [None] when the read
    throws. *)
Definition at_ (l : Landmarks) (i : nat) : option Landmark :=
  match l !! i with
  | Some (Some p) => Some p
  | _ => None
  end.

Definition half (a : JS.num) : JS.num := JS.div a (JS.Fin 2).

(** The body of the [try] in [calculateHeadAngle], after the length
    guard; [None] when a property read throws.  The arithmetic is exact,
    where binary64 rounds each operation: a finite estimate within
    rounding error of the threshold can fall on the other side of it in
    the source.  The statements below use the estimate at a division by
    zero, on landmarks without numbers, or at values far from the
    threshold. *)
Definition headAngleOf (l : Landmarks) : option JS.num :=
  match at_ l 1, at_ l 33, at_ l 263, at_ l 61, at_ l 291 with
  | Some noseTip, Some leftEye, Some rightEye, Some _, Some _ =>
      let eyeCenterX := half (JS.add (x leftEye) (x rightEye)) in
      let faceWidth := JS.abs (JS.sub (x rightEye) (x leftEye)) in
      let noseOffset := JS.sub (x noseTip) eyeCenterX in
      Some (JS.mul (JS.div noseOffset faceWidth) (JS.Fin 90))
  | _, _, _, _, _ => None
  end.

Definition calculateHeadAngle (face : Face) : JS.num :=
  match landmarks face with
  | None => JS.Fin 0
  | Some l =>
      if (length l <? 468)%nat then JS.Fin 0
      else match headAngleOf l with
           | Some angle => angle
           | None => JS.Fin 0
           end
  end.

Record GazeDirection := mkGaze {
  lookingAtScreen : bool;
  gazeOffsetX : option JS.num;
  gazeOffsetY : option JS.num
}.

Definition yawThreshold : Q := 15 # 100.
Definition pitchThreshold : Q := 12 # 100.
Definition deadZoneX : Q := 8 # 100.
Definition deadZoneY : Q := 6 # 100.

(** The body of the [try] in [analyzeGazeDirection]. *)
Definition gazeOf (l : Landmarks) : option GazeDirection :=
  match at_ l 33, at_ l 263, at_ l 1, at_ l 130, at_ l 359 with
  | Some leftEye, Some rightEye, Some noseTip,
    Some leftEyeOuter, Some rightEyeOuter =>
      let eyeCenterX := half (JS.add (x leftEye) (x rightEye)) in
      let eyeCenterY := half (JS.add (y leftEye) (y rightEye)) in
      let faceWidth :=
        JS.abs (JS.sub (x leftEyeOuter) (x rightEyeOuter)) in
      let noseToEyeX := JS.abs (JS.sub eyeCenterX (x noseTip)) in
      let noseToEyeY := JS.abs (JS.sub eyeCenterY (y noseTip)) in
      let normalizedOffsetX := JS.div noseToEyeX faceWidth in
      let normalizedOffsetY := JS.div noseToEyeY faceWidth in
      let withinDeadZone :=
        JS.lt normalizedOffsetX (JS.Fin deadZoneX)
        && JS.lt normalizedOffsetY (JS.Fin deadZoneY) in
      let withinThreshold :=
        JS.lt normalizedOffsetX (JS.Fin yawThreshold)
        && JS.lt normalizedOffsetY (JS.Fin pitchThreshold) in
      Some (mkGaze (withinDeadZone || withinThreshold)
                   (Some normalizedOffsetX) (Some normalizedOffsetY))
  | _, _, _, _, _ => None
  end.

Definition analyzeGazeDirection (l : Landmarks) : GazeDirection :=
  match gazeOf l with
  | Some g => g
  | None => mkGaze true None None
  end.

(** The focus fields of [this]. *)
Record State := mkFocus {
  lookingAwayStartTime : option Z;
  noFaceStartTime : option Z;
  isCurrentlyLookingAway : bool;
  isCurrentlyNoFace : bool;
  showFocusWarning : bool;
  focusWarningType : option string;
  lastFaceDetection : Z
}.

Definition lookingAwayThreshold : Z := 5000.
Definition noFaceThreshold : Z := 10000.
Definition headAngleThreshold : Q := 25.

(** The constructor's focus fields; [created] is its [Date.now()]. *)
Definition initial (created : Z) : State :=
  mkFocus None None false false false None created.

Definition hideFocusWarning (s : State) : State :=
  if showFocusWarning s then
    mkFocus (lookingAwayStartTime s) (noFaceStartTime s)
            (isCurrentlyLookingAway s) (isCurrentlyNoFace s)
            false None (lastFaceDetection s)
  else s.

Definition resetNoFaceTimer (s : State) : State :=
  if isCurrentlyNoFace s then
    hideFocusWarning
      (mkFocus (lookingAwayStartTime s) None
               (isCurrentlyLookingAway s) false
               (showFocusWarning s) (focusWarningType s)
               (lastFaceDetection s))
  else s.

Definition resetLookingAwayTimer (s : State) : State :=
  if isCurrentlyLookingAway s then
    hideFocusWarning
      (mkFocus None (noFaceStartTime s)
               false (isCurrentlyNoFace s)
               (showFocusWarning s) (focusWarningType s)
               (lastFaceDetection s))
  else s.

(** A timer start that is [null] reads as 0 in a subtraction. *)
Definition elapsed (currentTime : Z) (start : option Z) : Z :=
  currentTime - default 0 start.

Definition handleNoFaceDetection (currentTime : Z) (s : State)
  : State * list Violation :=
  let '(s1, vs) :=
    if negb (isCurrentlyNoFace s) then
      (mkFocus (lookingAwayStartTime s) (Some currentTime)
               (isCurrentlyLookingAway s) true
               (showFocusWarning s) (focusWarningType s)
               (lastFaceDetection s), [])
    else if noFaceThreshold <=? elapsed currentTime (noFaceStartTime s) then
      (mkFocus (lookingAwayStartTime s) (Some currentTime)
               (isCurrentlyLookingAway s) (isCurrentlyNoFace s)
               true (Some "no_face")
               (lastFaceDetection s),
       [mkViolation "no_face" MsgNoFace high])
    else (s, []) in
  (resetLookingAwayTimer s1, vs).

Definition handleLookingAwayDetection (currentTime : Z) (s : State)
  : State * list Violation :=
  if negb (isCurrentlyLookingAway s) then
    (mkFocus (Some currentTime) (noFaceStartTime s)
             true (isCurrentlyNoFace s)
             (showFocusWarning s) (focusWarningType s)
             (lastFaceDetection s), [])
  else if lookingAwayThreshold
          <=? elapsed currentTime (lookingAwayStartTime s) then
    (mkFocus (Some currentTime) (noFaceStartTime s)
             (isCurrentlyLookingAway s) (isCurrentlyNoFace s)
             true (Some "looking_away")
             (lastFaceDetection s),
     [mkViolation "looking_away" MsgLookingAway medium])
  else (s, []).

Definition set_lastFaceDetection (t : Z) (s : State) : State :=
  mkFocus (lookingAwayStartTime s) (noFaceStartTime s)
          (isCurrentlyLookingAway s) (isCurrentlyNoFace s)
          (showFocusWarning s) (focusWarningType s) t.

Definition handleSingleFaceDetection (face : Face) (currentTime : Z)
           (s : State) : State * list Violation :=
  let s1 := resetNoFaceTimer s in
  let headAngle := calculateHeadAngle face in
  let '(s2, vs) :=
    if JS.gt (JS.abs headAngle) (JS.Fin headAngleThreshold) then
      handleLookingAwayDetection currentTime s1
    else (hideFocusWarning (resetLookingAwayTimer s1), []) in
  (set_lastFaceDetection currentTime s2, vs).

Definition processFocusDetection (faces : list Face) (currentTime : Z)
           (s : State) : State * list Violation :=
  match faces with
  | _ :: _ :: _ =>
      (hideFocusWarning (resetLookingAwayTimer (resetNoFaceTimer s)),
       [mkViolation "multiple_faces" (MsgMultipleFaces (length faces)) high])
  | [] => handleNoFaceDetection currentTime s
  | [face] => handleSingleFaceDetection face currentTime s
  end.

(** The gaze tracker's fields.  [consecutiveLookingAwayFrames] is taken
    as a number: the hand-detection callback assigns it 0. *)
Record GazeState := mkGazeState {
  consecutiveLookingAwayFrames : Z;
  gazeViolationCooldown : option Z
}.

Definition cooldownOver (currentTime : Z) (last : option Z) : bool :=
  match last with
  | Some t => (t =? 0) || (15000 <? currentTime - t)
  | None => true
  end.

(** The [onResults] callback of [detectGazeWithMediaPipe];
    [multiFaceLandmarks] is [None] when the result carries none. *)
Definition onGazeResults (multiFaceLandmarks : option (list Landmarks))
           (currentTime : Z) (g : GazeState)
  : GazeState * list Violation :=
  match multiFaceLandmarks with
  | Some (l :: _) =>
      let gazeDirection := analyzeGazeDirection l in
      if negb (lookingAtScreen gazeDirection) then
        let frames := consecutiveLookingAwayFrames g + 1 in
        if 35 <=? frames then
          if cooldownOver currentTime (gazeViolationCooldown g) then
            (mkGazeState 25 (Some currentTime),
             [mkViolation "focus_lost" MsgGazeAway medium])
          else (mkGazeState frames (gazeViolationCooldown g), [])
        else (mkGazeState frames (gazeViolationCooldown g), [])
      else if 0 <? consecutiveLookingAwayFrames g then
        (mkGazeState 0 (gazeViolationCooldown g), [])
      else (g, [])
  | _ => (g, [])
  end.

End Focus.

(** ** Runs and observations used in the statements *)

Module Run.

(** Successive calls of [updateObjectTracking], one per tick; the
    violations of all ticks, oldest first. *)
Fixpoint tracker (ticks : list (list Prediction * Z))
         (t : Tracker.ObjectTracker)
  : Tracker.ObjectTracker * list Violation :=
  match ticks with
  | [] => (t, [])
  | (predictions, currentTime) :: rest =>
      let '(_, t1, vs) :=
        Tracker.updateObjectTracking predictions currentTime t in
      let '(t2, vs') := tracker rest t1 in
      (t2, (vs ++ vs')%list)
  end.

(** The violations of a given type. *)
Definition ofType (name : string) (vs : list Violation) : list Violation :=
  List.filter (fun v => String.eqb (type v) name) vs.

(** [n] consecutive ticks on which the search for [objectType] finds
    nothing. *)
Fixpoint misses (n : nat) (t : Tracker.ObjectTracker) (objectType : string)
         (currentTime : Z) (state : Tracker.ObjectTrackState)
  : Tracker.ObjectTrackState :=
  match n with
  | O => state
  | S n' =>
      misses n' t objectType currentTime
             (fst (Tracker.trackType t objectType None currentTime state))
  end.

(** A tracker holding the two built-in types, with the constructor's
    grace periods and thresholds. *)
Definition builtin (mobile book : Tracker.ObjectTrackState)
  : Tracker.ObjectTracker :=
  Tracker.mkTracker [("mobile", mobile); ("book", book)]
                    (Tracker.gracePeriod Tracker.initial)
                    (Tracker.violationThresholds Tracker.initial).

(** A record as the scenarios write it: a class and a score only. *)
Definition record (className : string) (s : Q) : Prediction :=
  mkPrediction (Some className) (Some s) None None.

(** A stream of scored detections through the pathways. *)
Definition detections (ds : list Engine.Detection) (s : Engine.State)
  : Engine.State :=
  fold_left (fun acc d => Engine.processViolationPathways d acc) ds s.

(** Successive object ticks of the engine. *)
Definition ticks (l : list (list Prediction * Z)) (s : Engine.State)
  : Engine.State :=
  fold_left (fun acc tick => Engine.detectObjectsWithAI (fst tick) (snd tick) acc)
            l s.

(** The violations pathway 1 has fired. *)
Definition isDirectFiring (v : Violation) : bool :=
  match message v with
  | MsgDirectMobile _ => true
  | _ => false
  end.

Definition directFirings (s : Engine.State) : list Violation :=
  List.filter isDirectFiring (Engine.emitted s).

(** The counters of the four pathways, in priority order. *)
Definition counts (s : Engine.State) : list Z :=
  let v := Engine.violationPathways s in
  [Engine.count (Engine.directMobile v);
   Engine.count (Engine.misclassifiedObject v);
   Engine.count (Engine.personWithObject v);
   Engine.count (Engine.highSuspiciousness v)].

(** The counter of the sustained-moderate rule. *)
Definition sustained (s : Engine.State) : Z :=
  Engine.consecutiveSuspiciousFrames (Engine.enhancedViolationSystem s).

(** Successive focus ticks that see no face, at the given clock
    readings: the readings at which a violation was emitted. *)
Fixpoint noFaceEmissions (times : list Z) (s : Focus.State) : list Z :=
  match times with
  | [] => []
  | t :: rest =>
      let '(s', vs) := Focus.processFocusDetection [] t s in
      match vs with
      | [] => noFaceEmissions rest s'
      | _ :: _ => t :: noFaceEmissions rest s'
      end
  end.

(** A mesh of 468 points none of which carries a numeric coordinate,
    and a mesh of 468 points that all coincide. *)
Definition blankMesh : Focus.Landmarks :=
  repeat (Some (Focus.mkLandmark JS.NaN JS.NaN)) 468.

Definition collapsedMesh : Focus.Landmarks :=
  repeat (Some (Focus.mkLandmark (JS.Fin (1 # 2)) (JS.Fin (1 # 2)))) 468.

(** [n] successive gaze results showing the same mesh. *)
Fixpoint gazeTicks (n : nat) (mesh : Focus.Landmarks) (currentTime : Z)
         (g : Focus.GazeState) : Focus.GazeState * list Violation :=
  match n with
  | O => (g, [])
  | S n' =>
      let '(g1, vs) := Focus.onGazeResults (Some [mesh]) currentTime g in
      let '(g2, vs') := gazeTicks n' mesh currentTime g1 in
      (g2, (vs ++ vs')%list)
  end.

(** The first element, if any, is at least [bound]. *)
Definition startsAfter (bound : Z) (l : list Z) : Prop :=
  match l with
  | [] => True
  | a :: _ => bound <= a
  end.

(** Each element is at least [gap] after the one before it. *)
Fixpoint spaced (gap : Z) (l : list Z) : Prop :=
  match l with
  | [] => True
  | a :: rest => startsAfter (a + gap) rest /\ spaced gap rest
  end.

End Run.

(** ** Tracking status *)

Module Status.

(** The text [getObjectStatus] returns, by template. *)
Inductive ObjectStatus :=
| ViolationReady (detections threshold : Z)
| Tracking (detections threshold : Z)
| GracePeriod (missed grace : Z)
| Inactive.

Definition getObjectStatus (t : Tracker.ObjectTracker) (objectType : string)
           (state : Tracker.ObjectTrackState) : ObjectStatus :=
  let threshold :=
    Tracker.orDefault (Tracker.violationThresholds t) objectType in
  let grace := Tracker.orDefault (Tracker.gracePeriod t) objectType in
  if threshold <=? Tracker.consecutiveDetections state then
    ViolationReady (Tracker.consecutiveDetections state) threshold
  else if 0 <? Tracker.consecutiveDetections state then
    Tracking (Tracker.consecutiveDetections state) threshold
  else if (0 <? Tracker.missedFrames state)
          && (Tracker.missedFrames state <=? grace) then
    GracePeriod (Tracker.missedFrames state) grace
  else Inactive.

(** An entry of the object [getTrackingStatus] returns.  [lastSeen] is
    [None] for the text ['Never'], which a [null] or zero time gives.
    The object is given as the list of its entries, one per tracked type;
    the order in which JavaScript enumerates them is not modelled. *)
Record Entry := mkEntry {
  isActive : bool;
  consecutiveDetections : Z;
  missedFrames : Z;
  lastSeen : option Z;
  status : ObjectStatus
}.

Definition getTrackingStatus (t : Tracker.ObjectTracker)
  : list (string * Entry) :=
  map (fun e =>
         let state := snd e in
         (fst e,
          mkEntry (0 <? Tracker.consecutiveDetections state)
                  (Tracker.consecutiveDetections state)
                  (Tracker.missedFrames state)
                  (match Tracker.lastDetectionTime state with
                   | Some time => if time =? 0 then None else Some time
                   | None => None
                   end)
                  (getObjectStatus t (fst e) state)))
      (Tracker.trackedObjects t).

End Status.

(** ** The detection loop *)

Module Loop.

(** The fields the interval callback of [startAIDetectionLoop] reads;
    [hasVideoElement] is the truthiness of [this.videoElement]. *)
Record State := mkLoop {
  isDetecting : bool;
  hasVideoElement : bool;
  frameSkipCount : Z
}.

Definition maxFrameSkip : Z := 3.

(** The constructor's fields. *)
Definition initial : State := mkLoop false false 0.

(** [startDetection(videoElement)] on these fields; the argument is the
    truthiness of the element, the flag is the value returned. *)
Definition startDetection (videoElement : bool) (s : State) : State * bool :=
  if videoElement then (mkLoop true true (frameSkipCount s), true)
  else (s, false).

Definition stopDetection (s : State) : State :=
  mkLoop false (hasVideoElement s) 0.

(** One firing of the 1000 ms interval of [startAIDetectionLoop]; the
    flag tells whether it goes on to call [runAIDetection]. *)
Definition intervalTick (s : State) : State * bool :=
  if negb (isDetecting s) || negb (hasVideoElement s) then (s, false)
  else
    let n := frameSkipCount s + 1 in
    if n <? maxFrameSkip
    then (mkLoop (isDetecting s) (hasVideoElement s) n, false)
    else (mkLoop (isDetecting s) (hasVideoElement s) 0, true).

(** What the [onResults] callback of the hands model does to the gaze
    fields: it assigns 0 to [consecutiveLookingAwayFrames] on every
    result. *)
Definition onHandsResults (g : Focus.GazeState) : Focus.GazeState :=
  Focus.mkGazeState 0 (Focus.gazeViolationCooldown g).

(** The gaze step and the hands step of one [runAIDetection], each model
    delivering one result: [detectGazeWithMediaPipe] is awaited before
    [detectHandsWithMediaPipe] is called. *)
Definition gazeThenHands (multiFaceLandmarks : option (list Focus.Landmarks))
           (currentTime : Z) (g : Focus.GazeState)
  : Focus.GazeState * list Violation :=
  let '(g1, vs) := Focus.onGazeResults multiFaceLandmarks currentTime g in
  (onHandsResults g1, vs).

End Loop.

(** ** The session's scores *)

Module Session.

(** [sessionData], as far as [handleViolation] of the interview session
    (main.js) writes it. *)
Record SessionData := mkSession {
  integrityScore : Z;
  violationScore : Z;
  violationCount : Z
}.

(** The state a new session starts in. *)
Definition initial : SessionData := mkSession 100 0 0.

(** The [confidence] field [triggerViolation] puts into the object it
    hands to the callback. *)
Definition confidenceOf (useBasicDetection : bool) : Q :=
  if useBasicDetection then 6 # 10 else 9 # 10.

(** The integrity penalty and the violation points of a severity.  The
    engine emits the three severities below; the branches for 'critical'
    and for other values are not reached from it. *)
Definition basePenalty (sev : Severity) : Z * Z :=
  match sev with
  | high => (10, 20)
  | medium => (7, 15)
  | low => (3, 5)
  end.

(** [if (violation.confidence && violation.confidence > 0)] scales both
    numbers by [Math.min(confidence, 1.0)] and rounds them. *)
Definition scaled (confidence : option Q) (n : Z) : Z :=
  match confidence with
  | Some c =>
      if negb (Qeq_bool c 0) && JS.gtb c 0
      then JS.round (inject_Z n * Qmin c 1)%Q
      else n
  | None => n
  end.

Definition integrityPenalty (v : Violation) (confidence : option Q) : Z :=
  scaled confidence (fst (basePenalty (severity v))).

Definition violationPoints (v : Violation) (confidence : option Q) : Z :=
  scaled confidence (snd (basePenalty (severity v))).

(** The second [handleViolation] of the class, which is the one in
    force; the violation and its [confidence] field are given apart. *)
Definition handleViolation (v : Violation) (confidence : option Q)
           (d : SessionData) : SessionData :=
  mkSession (Z.max 0 (integrityScore d - integrityPenalty v confidence))
            (violationScore d + violationPoints v confidence)
            (violationCount d + 1).

(** The callback invoked once per violation of a list, in order. *)
Definition deliver (vs : list (Violation * option Q)) (d : SessionData)
  : SessionData :=
  fold_left (fun acc r => handleViolation (fst r) (snd r) acc) vs d.

End Session.

(** ** Invariants and runs used in the further statements *)

Module Obs.

(** The class of a record matches a search term of the type, in either
    direction of containment. *)
Definition matches (objectType className : string) : bool :=
  JS.matchesAny (Tracker.getSearchTermsForObjectType objectType)
                (JS.toLowerCase className).

(** The names every JavaScript object inherits from [Object.prototype].
    A lookup [table[name]] with one of them finds the inherited property
    instead of missing, so that the tables keyed by type name (search
    terms, grace periods, thresholds) do not read as the embedding has
    them; the statements below are about the other names. *)
Definition inheritedNames : list string :=
  ["constructor"; "toString"; "toLocaleString"; "valueOf"; "hasOwnProperty";
   "isPrototypeOf"; "propertyIsEnumerable"; "__proto__"; "__defineGetter__";
   "__defineSetter__"; "__lookupGetter__"; "__lookupSetter__"].

Definition plainName (name : string) : bool :=
  negb (existsb (String.eqb name) inheritedNames).


(** A tracked entry in good order: a threshold of at least 1, a count
    that is not negative and stays below the threshold, a number of
    missed frames that is not negative, and a plain type name. *)
Definition entryOk (t : Tracker.ObjectTracker)
           (e : string * Tracker.ObjectTrackState) : Prop :=
  let threshold :=
    Tracker.orDefault (Tracker.violationThresholds t) (fst e) in
  1 <= threshold
  /\ 0 <= Tracker.consecutiveDetections (snd e) < threshold
  /\ 0 <= Tracker.missedFrames (snd e)
  /\ plainName (fst e) = true.

Definition trackedOk (t : Tracker.ObjectTracker) : Prop :=
  Forall (entryOk t) (Tracker.trackedObjects t).

(** The items of the categories whose base score alone reaches the 70
    points at which the category scan reports a record. *)
Definition reportedItems : list string :=
  flat_map Scorer.items
           (List.filter (fun c => 70 <=? Scorer.baseScore c)
                        Scorer.initializeSuspiciousCategories).

(** A pathway counter in range: not negative and below its threshold. *)
Definition pathwayOk (p : Engine.Pathway) : Prop :=
  0 <= Engine.count p < Engine.threshold p.

(** The counters of the object pipeline in range: the four pathways, the
    sustained-moderate counter, the two phone counters, the two counters
    of the misclassified-object heuristic and the tracked types. *)
Definition countersOk (s : Engine.State) : Prop :=
  let v := Engine.violationPathways s in
  let m := Engine.misclassifiedDetection s in
  pathwayOk (Engine.directMobile v)
  /\ pathwayOk (Engine.misclassifiedObject v)
  /\ pathwayOk (Engine.personWithObject v)
  /\ pathwayOk (Engine.highSuspiciousness v)
  /\ 0 <= Engine.consecutiveSuspiciousFrames (Engine.enhancedViolationSystem s)
       < Engine.requiredSuspiciousFrames
  /\ 0 <= Engine.phoneDetectedCount s < Engine.requiredConsecutiveDetections
  /\ 0 <= Engine.phoneMissedCount s <= Engine.allowedMissedFrames
  /\ 0 <= Engine.personOnlyFrames m
  /\ 0 <= Engine.unknownObjectFrames m < Engine.unknownObjectThreshold
  /\ trackedOk (Engine.objectTracker s).

(** What a step has handed to the callback: the violations of [s'] past
    those of [s]. *)
Definition added (s s' : Engine.State) : list Violation :=
  skipn (length (Engine.emitted s)) (Engine.emitted s').

Definition isHidden (v : Violation) : bool :=
  match message v with
  | MsgHiddenObject => true
  | _ => false
  end.

Definition isHeld (v : Violation) : bool :=
  match message v with
  | MsgObjectHeld => true
  | _ => false
  end.

(** Neither of the two. *)
Definition quiet (v : Violation) : bool :=
  negb (isHidden v) && negb (isHeld v).

(** Clock readings that never go back: each is at least the one before
    it, the first at least [bound]. *)
Fixpoint clockFrom (bound : Z) (times : list Z) : Prop :=
  match times with
  | [] => True
  | t :: rest => bound <= t /\ clockFrom t rest
  end.

(** The focus fields agree with each other: a flag is set exactly when
    its timer runs, the two flags are not both set, and a warning is on
    display exactly when a warning type is stored, which is then the type
    of a flag that is set. *)
Definition focusOk (s : Focus.State) : bool :=
  Bool.eqb (Focus.isCurrentlyNoFace s)
           (match Focus.noFaceStartTime s with
            | Some _ => true
            | None => false
            end)
  && Bool.eqb (Focus.isCurrentlyLookingAway s)
              (match Focus.lookingAwayStartTime s with
               | Some _ => true
               | None => false
               end)
  && negb (Focus.isCurrentlyNoFace s && Focus.isCurrentlyLookingAway s)
  && match Focus.focusWarningType s with
     | None => negb (Focus.showFocusWarning s)
     | Some w =>
         Focus.showFocusWarning s
         && ((String.eqb w "no_face" && Focus.isCurrentlyNoFace s)
             || (String.eqb w "looking_away"
                 && Focus.isCurrentlyLookingAway s))
     end.

Definition isNoFace (v : Violation) : bool :=
  match message v with
  | MsgNoFace => true
  | _ => false
  end.

Definition isLookingAway (v : Violation) : bool :=
  match message v with
  | MsgLookingAway => true
  | _ => false
  end.

(** A face of 468 landmarks with the nose tip far to one side of the
    eyes: the head-angle estimate is 135 degrees. *)
Definition turnedFace : Focus.Face :=
  Focus.mkFace
    (Some (map (fun i =>
                  Some (Focus.mkLandmark
                          (JS.Fin (if (i =? 1)%nat then 1
                                   else if (i =? 263)%nat then 1 # 2
                                        else 0))
                          (JS.Fin 0)))
               (seq 0 468))).

(** A face of 468 landmarks seen from the side: both eye points at the
    same x and the nose tip to their right. *)
Definition profileFace : Focus.Face :=
  Focus.mkFace
    (Some (map (fun i =>
                  Some (Focus.mkLandmark
                          (JS.Fin (if (i =? 1)%nat then 1 else 0))
                          (JS.Fin 0)))
               (seq 0 468))).

(** Successive focus ticks: the clock readings of the ticks that emitted
    a violation of the given kind. *)
Fixpoint focusEmissionTimes (kind : Violation -> bool)
         (ticks : list (list Focus.Face * Z)) (s : Focus.State) : list Z :=
  match ticks with
  | [] => []
  | (faces, currentTime) :: rest =>
      let '(s', vs) := Focus.processFocusDetection faces currentTime s in
      if existsb kind vs
      then currentTime :: focusEmissionTimes kind rest s'
      else focusEmissionTimes kind rest s'
  end.

(** A result delivered to one of the two MediaPipe callbacks. *)
Inductive MeshEvent :=
| GazeResults (multiFaceLandmarks : option (list Focus.Landmarks))
              (currentTime : Z)
| HandsResults.

Definition isGazeResults (e : MeshEvent) : bool :=
  match e with
  | GazeResults _ _ => true
  | HandsResults => false
  end.

Definition clockOf (e : MeshEvent) : Z :=
  match e with
  | GazeResults _ currentTime => currentTime
  | HandsResults => 0
  end.

(** Successive results: the clock readings of the gaze results that
    emitted a violation. *)
Fixpoint gazeEmissionTimes (events : list MeshEvent) (g : Focus.GazeState)
  : list Z :=
  match events with
  | [] => []
  | GazeResults multiFaceLandmarks currentTime :: rest =>
      let '(g', vs) :=
        Focus.onGazeResults multiFaceLandmarks currentTime g in
      match vs with
      | [] => gazeEmissionTimes rest g'
      | _ :: _ => currentTime :: gazeEmissionTimes rest g'
      end
  | HandsResults :: rest => gazeEmissionTimes rest (Loop.onHandsResults g)
  end.

(** Successive detection cycles, each a gaze result followed by a hands
    result: the violations of all cycles. *)
Fixpoint gazeCycles
         (cycles : list (option (list Focus.Landmarks) * Z))
         (g : Focus.GazeState) : Focus.GazeState * list Violation :=
  match cycles with
  | [] => (g, [])
  | (multiFaceLandmarks, currentTime) :: rest =>
      let '(g1, vs) := Loop.gazeThenHands multiFaceLandmarks currentTime g in
      let '(g2, vs') := gazeCycles rest g1 in
      (g2, (vs ++ vs')%list)
  end.

(** [n] firings of the detection interval: the state they leave and the
    number of calls of [runAIDetection]. *)
Fixpoint intervalTicks (n : nat) (s : Loop.State) : Loop.State * Z :=
  match n with
  | O => (s, 0)
  | S n' =>
      let '(s1, ran) := Loop.intervalTick s in
      let '(s2, runs) := intervalTicks n' s1 in
      (s2, (if ran then 1 else 0) + runs)
  end.

(** The total of the integrity penalties, and of the violation points,
    of a list of violations with their confidence fields. *)
Definition totalPenalty (vs : list (Violation * option Q)) : Z :=
  fold_right (fun r acc => Session.integrityPenalty (fst r) (snd r) + acc)
             0 vs.

Definition totalPoints (vs : list (Violation * option Q)) : Z :=
  fold_right (fun r acc => Session.violationPoints (fst r) (snd r) + acc)
             0 vs.

(** Successive object ticks of the engine: the clock readings of the
    ticks that handed a violation of the given kind to the callback. *)
Fixpoint emissionTimes (kind : Violation -> bool)
         (ticks : list (list Prediction * Z)) (s : Engine.State) : list Z :=
  match ticks with
  | [] => []
  | (predictions, currentTime) :: rest =>
      let s' := Engine.detectObjectsWithAI predictions currentTime s in
      if existsb kind (added s s')
      then currentTime :: emissionTimes kind rest s'
      else emissionTimes kind rest s'
  end.

End Obs.

(** ** Comparisons *)

Section Comparisons.

Lemma geb_true (a b : Q) : JS.geb a b = true <-> (b <= a)%Q.
Proof. unfold JS.geb. apply Qle_bool_iff. Qed.

Lemma geb_false (a b : Q) : JS.geb a b = false <-> (a < b)%Q.
Proof.
  unfold JS.geb. split; intros H.
  - apply Qnot_le_lt. intros Hle. apply Qle_bool_iff in Hle. congruence.
  - destruct (Qle_bool b a) eqn:E; [|reflexivity].
    apply Qle_bool_iff in E. exfalso. exact (Qlt_not_le _ _ H E).
Qed.

Lemma ltb_true (a b : Q) : JS.ltb a b = true <-> (a < b)%Q.
Proof.
  unfold JS.ltb. rewrite negb_true_iff. apply (geb_false a b).
Qed.


End Comparisons.

(** ** The hysteresis tracker *)

Section TrackerFacts.

Import Tracker.

Lemma threshold_mobile : orDefault (violationThresholds initial) "mobile" = 3.
Proof. vm_compute. reflexivity. Qed.

Lemma threshold_book : orDefault (violationThresholds initial) "book" = 4.
Proof. vm_compute. reflexivity. Qed.

Lemma grace_mobile : orDefault (gracePeriod initial) "mobile" = 3.
Proof. vm_compute. reflexivity. Qed.

Lemma grace_book : orDefault (gracePeriod initial) "book" = 4.
Proof. vm_compute. reflexivity. Qed.

Lemma threshold_other (objectType : string) :
  objectType <> "mobile" -> objectType <> "book" ->
  orDefault (violationThresholds initial) objectType = 3.
Proof.
  intros Hm Hb. unfold orDefault, initial; simpl.
  destruct (decide (objectType = "default")) as [->|Hd].
  - vm_compute. reflexivity.
  - rewrite !lookup_insert_ne by congruence.
    rewrite lookup_empty. vm_compute. reflexivity.
Qed.

Lemma grace_other (objectType : string) :
  objectType <> "mobile" -> objectType <> "book" ->
  orDefault (gracePeriod initial) objectType = 2.
Proof.
  intros Hm Hb. unfold orDefault, initial; simpl.
  destruct (decide (objectType = "default")) as [->|Hd].
  - vm_compute. reflexivity.
  - rewrite !lookup_insert_ne by congruence.
    rewrite lookup_empty. vm_compute. reflexivity.
Qed.

(** The violation check, when it fires. *)
Lemma checkObjectViolation_fires t objectType state :
  let threshold := orDefault (violationThresholds t) objectType in
  threshold <= consecutiveDetections state ->
  (thresholds_medium <= confidence state)%Q ->
  exists sev,
    checkObjectViolation t objectType state
    = (mkState (threshold / 2) (missedFrames state)
               (lastDetectionTime state) (confidence state),
       [mkViolation (String.append objectType "_detected_stateful")
                    (MsgStateful objectType) sev])
    /\ (sev = high <->
        (thresholds_high <= confidence state)%Q
        \/ threshold + 2 <= consecutiveDetections state)
    /\ (sev = high \/ sev = medium).
Proof.
  intros threshold Hc Hq. unfold checkObjectViolation.
  fold threshold.
  apply Z.leb_le in Hc. rewrite Hc.
  apply geb_true in Hq. rewrite Hq. simpl.
  eexists. split; [reflexivity|].
  destruct (JS.geb (confidence state) thresholds_high) eqn:Eh;
    destruct (threshold + 2 <=? consecutiveDetections state) eqn:Ec; simpl.
  - split; [|auto]. split; [|auto]. intros _. left. now apply geb_true.
  - split; [|auto]. split; [|auto]. intros _. left. now apply geb_true.
  - split; [|auto]. split; [|auto]. intros _. right. now apply Z.leb_le.
  - split; [|auto]. split; [discriminate|].
    intros [H|H].
    + apply geb_true in H. congruence.
    + apply Z.leb_le in H. congruence.
Qed.

(** The violation check, when it stays silent. *)
Lemma checkObjectViolation_silent t objectType state :
  consecutiveDetections state < orDefault (violationThresholds t) objectType
  \/ (confidence state < thresholds_medium)%Q ->
  checkObjectViolation t objectType state = (state, []).
Proof.
  intros H. unfold checkObjectViolation.
  destruct H as [H|H].
  - apply Z.leb_gt in H. rewrite H. reflexivity.
  - apply geb_false in H. rewrite H. rewrite andb_false_r. reflexivity.
Qed.

Lemma handleObjectDetected_counts detection currentTime state c :
  score detection = Some c ->
  (thresholds_medium <= c)%Q ->
  handleObjectDetected detection currentTime state
  = mkState (consecutiveDetections state + 1) 0 (Some currentTime) c.
Proof.
  intros Hs Hm. unfold handleObjectDetected. rewrite Hs.
  destruct (JS.geb c thresholds_high); [reflexivity|].
  apply geb_true in Hm. rewrite Hm. reflexivity.
Qed.

Lemma handleObjectDetected_low detection currentTime state c :
  score detection = Some c ->
  (thresholds_low <= c)%Q -> (c < thresholds_medium)%Q ->
  handleObjectDetected detection currentTime state
  = mkState (consecutiveDetections state) 0 (Some currentTime) c.
Proof.
  intros Hs Hl Hm. unfold handleObjectDetected. rewrite Hs.
  assert (Hh : JS.geb c thresholds_high = false).
  { apply geb_false. eapply Qlt_trans; [exact Hm|]. reflexivity. }
  rewrite Hh. apply geb_false in Hm. rewrite Hm.
  apply geb_true in Hl. rewrite Hl. reflexivity.
Qed.

Lemma handleObjectDetected_ignored detection currentTime state :
  (forall c, score detection = Some c -> (c < thresholds_low)%Q) ->
  handleObjectDetected detection currentTime state = state.
Proof.
  intros H. unfold handleObjectDetected.
  destruct (score detection) as [c|]; [|reflexivity].
  specialize (H c eq_refl).
  assert (Hm : (c < thresholds_medium)%Q).
  { eapply Qlt_trans; [exact H|]. reflexivity. }
  assert (Hh : (c < thresholds_high)%Q).
  { eapply Qlt_trans; [exact H|]. reflexivity. }
  apply geb_false in H, Hm, Hh. rewrite H, Hm, Hh. reflexivity.
Qed.

End TrackerFacts.

Section TrackerScenario.

Import Tracker.

Lemma initial_builtin : initial = Run.builtin freshState freshState.
Proof. reflexivity. Qed.

Lemma book_check_not_mobile t state :
  Run.ofType "mobile_detected_stateful"
             (snd (checkObjectViolation t "book" state)) = [].
Proof.
  unfold checkObjectViolation.
  destruct (_ && _); reflexivity.
Qed.

(** A tick of the built-in tracker whose search for a phone returns
    [found]: the mobile entry moves by [trackType], and whatever the
    book entry does, it emits no mobile violation. *)
Lemma builtin_tick predictions currentTime mobile book found :
  findObjectInPredictions predictions "mobile" = Some found ->
  exists c book' vs,
    updateObjectTracking predictions currentTime (Run.builtin mobile book)
    = (c,
       Run.builtin
         (fst (trackType initial "mobile" found currentTime mobile)) book',
       (snd (trackType initial "mobile" found currentTime mobile) ++ vs)%list)
    /\ Run.ofType "mobile_detected_stateful" vs = [].
Proof.
  intros Hf. unfold updateObjectTracking, Run.builtin. cbn [trackedObjects].
  cbn [trackLoop]. rewrite Hf.
  change (trackType (mkTracker _ _ _) "mobile" found currentTime mobile)
    with (trackType initial "mobile" found currentTime mobile).
  destruct (trackType initial "mobile" found currentTime mobile)
    as [mobile' vsm] eqn:Em. cbn [fst snd].
  destruct (findObjectInPredictions predictions "book") as [foundb|].
  - change (trackType (mkTracker _ _ _) "book" foundb currentTime book)
      with (trackType initial "book" foundb currentTime book).
    destruct (trackType initial "book" foundb currentTime book)
      as [book' vsb] eqn:Eb.
    exists JS.Normal, book', vsb. cbn. rewrite app_nil_r. split; [reflexivity|].
    unfold trackType in Eb.
    pose proof (book_check_not_mobile initial
      (match foundb with
       | Some detection => handleObjectDetected detection currentTime book
       | None => handleObjectMissed initial "book" book
       end)) as H.
    rewrite Eb in H. exact H.
  - exists JS.Thrown, book, []. cbn. split; reflexivity.
Qed.

(** A medium-tier detection of a phone, from the mobile entry's view. *)
Lemma mobile_medium_step detection currentTime state c :
  score detection = Some c ->
  (thresholds_medium <= c)%Q -> (c < thresholds_high)%Q ->
  trackType initial "mobile" (Some detection) currentTime state
  = if 3 <=? consecutiveDetections state + 1
    then (mkState 1 0 (Some currentTime) c,
          [mkViolation "mobile_detected_stateful" (MsgStateful "mobile")
                       (if 5 <=? consecutiveDetections state + 1
                        then high else medium)])
    else (mkState (consecutiveDetections state + 1) 0 (Some currentTime) c,
          []).
Proof.
  intros Hs Hm Hh. unfold trackType.
  rewrite (handleObjectDetected_counts _ _ _ _ Hs Hm).
  unfold checkObjectViolation. rewrite threshold_mobile.
  cbn [consecutiveDetections confidence missedFrames lastDetectionTime].
  apply geb_true in Hm. apply geb_false in Hh. rewrite Hm, Hh.
  rewrite andb_true_r. cbn [orb].
  destruct (3 <=? consecutiveDetections state + 1); reflexivity.
Qed.

(** One tick after a partial reset cannot fire again: the count is 1. *)
Lemma mobile_after_reset found currentTime state :
  consecutiveDetections state = 1 ->
  snd (trackType initial "mobile" found currentTime state) = [].
Proof.
  intros Hc. unfold trackType.
  assert (Hlt : forall st, consecutiveDetections st <= 2 ->
                snd (checkObjectViolation initial "mobile" st) = []).
  { intros st Hle. rewrite checkObjectViolation_silent; [reflexivity|].
    left. rewrite threshold_mobile. lia. }
  apply Hlt. destruct found as [d|].
  - unfold handleObjectDetected.
    destruct (score d) as [c|]; [|lia].
    repeat (destruct (JS.geb _ _)); cbn; lia.
  - unfold handleObjectMissed.
    destruct (_ <? _); cbn; lia.
Qed.

End TrackerScenario.

Section TrackerClaims.

Import Tracker.

Lemma three_medium_then_one
      (p1 p2 p3 p4 : list Prediction) (n1 n2 n3 n4 : Z)
      (d1 d2 d3 : Prediction) (c1 c2 c3 : Q) (found4 : option Prediction) :
  findObjectInPredictions p1 "mobile" = Some (Some d1) ->
  findObjectInPredictions p2 "mobile" = Some (Some d2) ->
  findObjectInPredictions p3 "mobile" = Some (Some d3) ->
  findObjectInPredictions p4 "mobile" = Some found4 ->
  score d1 = Some c1 -> score d2 = Some c2 -> score d3 = Some c3 ->
  (thresholds_medium <= c1 /\ c1 < thresholds_high)%Q ->
  (thresholds_medium <= c2 /\ c2 < thresholds_high)%Q ->
  (thresholds_medium <= c3 /\ c3 < thresholds_high)%Q ->
  Run.ofType "mobile_detected_stateful"
    (snd (Run.tracker [(p1, n1); (p2, n2); (p3, n3)] initial)) 
  = [mkViolation "mobile_detected_stateful" (MsgStateful "mobile") medium]
  /\ Run.ofType "mobile_detected_stateful"
    (snd (Run.tracker [(p1, n1); (p2, n2); (p3, n3); (p4, n4)] initial))
  = [mkViolation "mobile_detected_stateful" (MsgStateful "mobile") medium].
Proof.
  intros F1 F2 F3 F4 S1 S2 S3 [L1 H1] [L2 H2] [L3 H3].
  assert (T1 : trackType initial "mobile" (Some d1) n1 freshState
               = (mkState 1 0 (Some n1) c1, [])).
  { rewrite (mobile_medium_step _ _ _ _ S1 L1 H1). reflexivity. }
  assert (T2 : trackType initial "mobile" (Some d2) n2
                         (mkState 1 0 (Some n1) c1)
               = (mkState 2 0 (Some n2) c2, [])).
  { rewrite (mobile_medium_step _ _ _ _ S2 L2 H2). reflexivity. }
  assert (T3 : trackType initial "mobile" (Some d3) n3
                         (mkState 2 0 (Some n2) c2)
               = (mkState 1 0 (Some n3) c3,
                  [mkViolation "mobile_detected_stateful"
                               (MsgStateful "mobile") medium])).
  { rewrite (mobile_medium_step _ _ _ _ S3 L3 H3). reflexivity. }
  pose proof (mobile_after_reset found4 n4 (mkState 1 0 (Some n3) c3)
                                 eq_refl) as T4.
  rewrite initial_builtin. cbn [Run.tracker].
  destruct (builtin_tick p1 n1 freshState freshState _ F1)
    as (k1 & b1 & v1 & E1 & N1).
  rewrite T1 in E1. cbn [fst snd] in E1. rewrite E1.
  destruct (builtin_tick p2 n2 (mkState 1 0 (Some n1) c1) b1 _ F2)
    as (k2 & b2 & v2 & E2 & N2).
  rewrite T2 in E2. cbn [fst snd] in E2. rewrite E2.
  destruct (builtin_tick p3 n3 (mkState 2 0 (Some n2) c2) b2 _ F3)
    as (k3 & b3 & v3 & E3 & N3).
  rewrite T3 in E3. cbn [fst snd] in E3. rewrite E3.
  destruct (builtin_tick p4 n4 (mkState 1 0 (Some n3) c3) b3 _ F4)
    as (k4 & b4 & v4 & E4 & N4).
  rewrite T4 in E4. rewrite E4.
  cbn [fst snd].
  unfold Run.ofType in *.
  rewrite !List.filter_app, N1, N2, N3, N4. split; reflexivity.
Qed.

Ltac qcmp := unfold Qle, Qlt; simpl; lia.

(** C1.  For every tracked type of plain name, in a tracker whose
    threshold table has its default entry, once [consecutiveDetections]
    has reached the type's violation threshold and the stored confidence
    is at least the medium tier (0.5), the check emits exactly one
    violation, of severity high when the confidence is at least the high
    tier (0.8) or the count is at least the threshold plus two and of
    severity medium otherwise, and sets [consecutiveDetections] to the
    floor of half the threshold.  The constructor's thresholds are 3 for
    mobile, 4 for book and 3 for any other type of plain name.  Hence
    three ticks with a medium-confidence phone followed by one more tick,
    whatever it shows, yield exactly one mobile violation from the
    tracker. *)
Theorem tracker_violation_check :
  (forall t objectType state,
      Obs.plainName objectType = true ->
      is_Some (violationThresholds t !! "default") ->
      let threshold := orDefault (violationThresholds t) objectType in
      threshold <= consecutiveDetections state ->
      (thresholds_medium <= confidence state)%Q ->
      exists sev,
        checkObjectViolation t objectType state
        = (mkState (threshold / 2) (missedFrames state)
                   (lastDetectionTime state) (confidence state),
           [mkViolation (String.append objectType "_detected_stateful")
                        (MsgStateful objectType) sev])
        /\ (sev = high <->
            (thresholds_high <= confidence state)%Q
            \/ threshold + 2 <= consecutiveDetections state)
        /\ (sev = high \/ sev = medium))
  /\ (orDefault (violationThresholds initial) "mobile" = 3
      /\ orDefault (violationThresholds initial) "book" = 4
      /\ forall objectType,
          Obs.plainName objectType = true ->
          objectType <> "mobile" -> objectType <> "book" ->
          orDefault (violationThresholds initial) objectType = 3)
  /\ (forall (p1 p2 p3 p4 : list Prediction) (n1 n2 n3 n4 : Z)
             (d1 d2 d3 : Prediction) (c1 c2 c3 : Q)
             (found4 : option Prediction),
          findObjectInPredictions p1 "mobile" = Some (Some d1) ->
          findObjectInPredictions p2 "mobile" = Some (Some d2) ->
          findObjectInPredictions p3 "mobile" = Some (Some d3) ->
          findObjectInPredictions p4 "mobile" = Some found4 ->
          score d1 = Some c1 -> score d2 = Some c2 -> score d3 = Some c3 ->
          (thresholds_medium <= c1 /\ c1 < thresholds_high)%Q ->
          (thresholds_medium <= c2 /\ c2 < thresholds_high)%Q ->
          (thresholds_medium <= c3 /\ c3 < thresholds_high)%Q ->
          Run.ofType "mobile_detected_stateful"
            (snd (Run.tracker [(p1, n1); (p2, n2); (p3, n3)] initial))
          = [mkViolation "mobile_detected_stateful"
                         (MsgStateful "mobile") medium]
          /\ Run.ofType "mobile_detected_stateful"
               (snd (Run.tracker
                       [(p1, n1); (p2, n2); (p3, n3); (p4, n4)] initial))
             = [mkViolation "mobile_detected_stateful"
                            (MsgStateful "mobile") medium]).
Proof.
  split; [|split].
  - intros t objectType state _ _. apply checkObjectViolation_fires.
  - split; [exact threshold_mobile|].
    split; [exact threshold_book|].
    intros objectType _. apply threshold_other.
  - exact three_medium_then_one.
Qed.

Lemma tracker_violation_check_witness :
  (Run.ofType "mobile_detected_stateful"
     (snd (Run.tracker
             [([Run.record "cell phone" (55 # 100)], 1000);
              ([Run.record "cell phone" (60 # 100)], 2000);
              ([Run.record "cell phone" (70 # 100)], 3000);
              ([Run.record "cell phone" (90 # 100)], 4000)] initial))
   = [mkViolation "mobile_detected_stateful" (MsgStateful "mobile") medium])
  /\ orDefault (violationThresholds initial) "remote" = 3
  /\ exists sev,
      checkObjectViolation initial "book" (mkState 4 0 (Some 1000) (6 # 10))
      = (mkState (orDefault (violationThresholds initial) "book" / 2) 0
                 (Some 1000) (6 # 10),
         [mkViolation (String.append "book" "_detected_stateful")
                      (MsgStateful "book") sev])
      /\ (sev = high <->
          (thresholds_high <= 6 # 10)%Q
          \/ orDefault (violationThresholds initial) "book" + 2 <= 4)
      /\ (sev = high \/ sev = medium).
Proof.
  split; [|split].
  - refine (proj2 (proj2 (proj2 tracker_violation_check)
                   [Run.record "cell phone" (55 # 100)]
                   [Run.record "cell phone" (60 # 100)]
                   [Run.record "cell phone" (70 # 100)]
                   [Run.record "cell phone" (90 # 100)]
                   1000 2000 3000 4000
                   (Run.record "cell phone" (55 # 100))
                   (Run.record "cell phone" (60 # 100))
                   (Run.record "cell phone" (70 # 100))
                   (55 # 100)%Q (60 # 100)%Q (70 # 100)%Q
                   (Some (Run.record "cell phone" (90 # 100)))
                   eq_refl eq_refl eq_refl eq_refl
                   eq_refl eq_refl eq_refl _ _ _));
      split; qcmp.
  - refine (proj2 (proj2 (proj1 (proj2 tracker_violation_check)))
                  "remote" eq_refl _ _); discriminate.
  - refine (proj1 tracker_violation_check initial "book"
                  (mkState 4 0 (Some 1000) (6 # 10)) eq_refl _ _ _).
    + exists 3. vm_compute. reflexivity.
    + rewrite threshold_book. cbn. lia.
    + cbn. qcmp.
Defined.

(** C2, as the code has it.  On a tick where a matching detection is
    found: a low-tier score (at least 0.2, below 0.5) zeroes
    [missedFrames], leaves [consecutiveDetections] unchanged and emits
    nothing; a score below the low tier, or a missing score, leaves the
    type's state untouched, so that the tick is neither a detection nor
    a miss and only the violation check runs; a medium or high score
    increments [consecutiveDetections] and zeroes [missedFrames]. *)
Theorem detected_tier_handling :
  forall t objectType detection currentTime state,
    (forall c, score detection = Some c ->
               (thresholds_low <= c)%Q -> (c < thresholds_medium)%Q ->
               trackType t objectType (Some detection) currentTime state
               = (mkState (consecutiveDetections state) 0
                          (Some currentTime) c, []))
    /\ ((forall c, score detection = Some c -> (c < thresholds_low)%Q) ->
        handleObjectDetected detection currentTime state = state
        /\ trackType t objectType (Some detection) currentTime state
           = checkObjectViolation t objectType state)
    /\ (forall c, score detection = Some c ->
                  (thresholds_medium <= c)%Q ->
                  handleObjectDetected detection currentTime state
                  = mkState (consecutiveDetections state + 1) 0
                            (Some currentTime) c).
Proof.
  intros t objectType detection currentTime state. split; [|split].
  - intros c Hs Hl Hm. unfold trackType.
    rewrite (handleObjectDetected_low _ _ _ _ Hs Hl Hm).
    apply checkObjectViolation_silent. right. exact Hm.
  - intros H. unfold trackType.
    rewrite (handleObjectDetected_ignored _ _ _ H). split; reflexivity.
  - intros c Hs Hm. exact (handleObjectDetected_counts _ _ _ _ Hs Hm).
Qed.

Lemma detected_tier_handling_witness :
  trackType initial "mobile" (Some (Run.record "cell phone" (3 # 10))) 2000
            (mkState 2 1 (Some 1000) (6 # 10))
  = (mkState 2 0 (Some 2000) (3 # 10), [])
  /\ handleObjectDetected (Run.record "cell phone" (1 # 10)) 2000
                          (mkState 2 1 (Some 1000) (6 # 10))
     = mkState 2 1 (Some 1000) (6 # 10)
  /\ handleObjectDetected (Run.record "cell phone" (6 # 10)) 2000
                          (mkState 2 1 (Some 1000) (6 # 10))
     = mkState 3 0 (Some 2000) (6 # 10).
Proof.
  split; [|split].
  - refine (proj1 (detected_tier_handling
                     initial "mobile" (Run.record "cell phone" (3 # 10))
                     2000 (mkState 2 1 (Some 1000) (6 # 10)))
                  (3 # 10)%Q eq_refl _ _); qcmp.
  - refine (proj1 (proj1 (proj2 (detected_tier_handling
                     initial "mobile" (Run.record "cell phone" (1 # 10))
                     2000 (mkState 2 1 (Some 1000) (6 # 10)))) _)).
    intros c Hc. injection Hc as <-. qcmp.
  - refine (proj2 (proj2 (detected_tier_handling
                     initial "mobile" (Run.record "cell phone" (6 # 10))
                     2000 (mkState 2 1 (Some 1000) (6 # 10))))
                  (6 # 10)%Q eq_refl _); qcmp.
Defined.

(** C2 as stated fails: a phone scored below the low tier is not treated
    as absent.  After one counted detection, a tick showing the phone at
    0.1 leaves [missedFrames] at 0, where a tick that shows nothing
    raises it to 1. *)
Lemma below_low_detection_is_not_a_miss :
  let t1 :=
    fst (Run.tracker [([Run.record "cell phone" (6 # 10)], 1000)] initial)
  in
  let seen :=
    updateObjectTracking [Run.record "cell phone" (1 # 10)] 2000 t1 in
  let absent := updateObjectTracking [] 2000 t1 in
  option_map missedFrames (get "mobile" (trackedObjects (snd (fst seen))))
  = Some 0
  /\ option_map missedFrames
                (get "mobile" (trackedObjects (snd (fst absent))))
     = Some 1
  /\ seen <> absent.
Proof.
  cbv zeta.
  assert (H0 : option_map missedFrames
                 (get "mobile" (trackedObjects (snd (fst
                    (updateObjectTracking
                       [Run.record "cell phone" (1 # 10)] 2000
                       (fst (Run.tracker
                               [([Run.record "cell phone" (6 # 10)], 1000)]
                               initial)))))))
               = Some 0) by (vm_compute; reflexivity).
  assert (H1 : option_map missedFrames
                 (get "mobile" (trackedObjects (snd (fst
                    (updateObjectTracking [] 2000
                       (fst (Run.tracker
                               [([Run.record "cell phone" (6 # 10)], 1000)]
                               initial)))))))
               = Some 1) by (vm_compute; reflexivity).
  split; [exact H0|]. split; [exact H1|].
  intros E. rewrite E in H0. rewrite H0 in H1. discriminate.
Qed.

Lemma missed_frames_after_miss t objectType currentTime state :
  missedFrames (fst (trackType t objectType None currentTime state))
  = missedFrames state + 1.
Proof.
  unfold trackType, checkObjectViolation, handleObjectMissed.
  destruct (_ <? _); destruct (_ && _); reflexivity.
Qed.

Lemma miss_beyond_grace t objectType currentTime state :
  orDefault (gracePeriod t) objectType < missedFrames state + 1 ->
  fst (trackType t objectType None currentTime state)
  = mkState 0 (missedFrames state + 1) (lastDetectionTime state) 0%Q.
Proof.
  intros H. unfold trackType, handleObjectMissed.
  apply Z.ltb_lt in H. rewrite H.
  rewrite checkObjectViolation_silent; [reflexivity|].
  right. cbn. reflexivity.
Qed.

(** A list in which every record has a class is searched to the end. *)
Lemma findObjectInPredictions_total predictions objectType :
  Forall (fun p => class p <> None) predictions ->
  exists found, findObjectInPredictions predictions objectType = Some found.
Proof.
  induction predictions as [|p rest IH]; intros H.
  - exists None. reflexivity.
  - inversion H as [|? ? Hp Hrest]; subst. cbn [findObjectInPredictions].
    destruct (class p) as [c|]; [|congruence].
    destruct (JS.matchesAny _ _); [eexists; reflexivity|].
    exact (IH Hrest).
Qed.

(** On a tick whose search never throws, the entry of a type moves by
    [trackType] on what the search has found for it. *)
Lemma trackLoop_get t predictions currentTime objectType found :
  (forall name, findObjectInPredictions predictions name <> None) ->
  findObjectInPredictions predictions objectType = Some found ->
  forall entries,
    get objectType
        (snd (fst (trackLoop t predictions currentTime entries)))
    = option_map
        (fun state =>
           fst (trackType t objectType found currentTime state))
        (get objectType entries).
Proof.
  intros Hall Hf entries.
  induction entries as [|[name state] rest IH]; [reflexivity|].
  cbn [trackLoop].
  destruct (findObjectInPredictions predictions name) as [foundn|] eqn:En;
    [|exfalso; exact (Hall name En)].
  destruct (trackType t name foundn currentTime state) as [state' vs] eqn:Et.
  destruct (trackLoop t predictions currentTime rest) as [[c rest'] vs'].
  cbn [fst snd get] in *.
  destruct (String.eqb name objectType) eqn:E.
  - apply String.eqb_eq in E. subst name.
    rewrite Hf in En. injection En as ->.
    cbn [option_map]. rewrite Et. reflexivity.
  - exact IH.
Qed.

Lemma updateObjectTracking_get t predictions currentTime objectType found :
  (forall name, findObjectInPredictions predictions name <> None) ->
  findObjectInPredictions predictions objectType = Some found ->
  let t' := snd (fst (updateObjectTracking predictions currentTime t)) in
  get objectType (trackedObjects t')
  = option_map
      (fun state => fst (trackType t objectType found currentTime state))
      (get objectType (trackedObjects t))
  /\ gracePeriod t' = gracePeriod t
  /\ violationThresholds t' = violationThresholds t.
Proof.
  intros Hall Hf. cbv zeta. unfold updateObjectTracking.
  pose proof (trackLoop_get t predictions currentTime objectType found
                            Hall Hf (trackedObjects t)) as G.
  destruct (trackLoop t predictions currentTime (trackedObjects t))
    as [[c entries] vs].
  cbn [fst snd trackedObjects gracePeriod violationThresholds] in *.
  repeat split. exact G.
Qed.

Lemma empty_tick_get t currentTime objectType :
  let t' := snd (fst (updateObjectTracking [] currentTime t)) in
  get objectType (trackedObjects t')
  = option_map
      (fun state => fst (trackType t objectType None currentTime state))
      (get objectType (trackedObjects t))
  /\ gracePeriod t' = gracePeriod t
  /\ violationThresholds t' = violationThresholds t.
Proof.
  apply updateObjectTracking_get; [discriminate|reflexivity].
Qed.

(** [trackType] reads the tracker for its two tables only. *)
Lemma trackType_tables t t' objectType found currentTime state :
  gracePeriod t' = gracePeriod t ->
  violationThresholds t' = violationThresholds t ->
  trackType t' objectType found currentTime state
  = trackType t objectType found currentTime state.
Proof.
  intros Hg Hv.
  unfold trackType, checkObjectViolation, handleObjectMissed.
  rewrite Hg, Hv. reflexivity.
Qed.

Lemma tracker_cons predictions currentTime rest t :
  fst (Run.tracker ((predictions, currentTime) :: rest) t)
  = fst (Run.tracker
           rest (snd (fst (updateObjectTracking predictions currentTime t)))).
Proof.
  cbn [Run.tracker].
  destruct (updateObjectTracking predictions currentTime t) as [[c t1] vs].
  cbn [fst snd]. destruct (Run.tracker rest t1). reflexivity.
Qed.

(** C3.  On a tick with no matching detection [missedFrames] is
    incremented, and [consecutiveDetections] and [confidence] are reset
    to 0 exactly when the new [missedFrames] exceeds the type's grace
    period, which the constructor sets to 3 for mobile, 4 for book and 2
    for any other type.  This is stated for the handler and for the
    tracker's tick [updateObjectTracking], on a list of records with
    classes in which the search finds nothing for the type; there the
    count is kept when it was below the threshold, the violation check
    running on every tick.  With grace period 2, a tick that shows
    nothing keeps the count and a counted detection on the next tick
    resumes it, and three ticks that show nothing leave the count at 0.
    The types have plain names and the grace table has its default
    entry. *)
Theorem missed_grace_period :
  (forall t objectType state,
      Obs.plainName objectType = true ->
      is_Some (gracePeriod t !! "default") ->
      let grace := orDefault (gracePeriod t) objectType in
      let state' := handleObjectMissed t objectType state in
      missedFrames state' = missedFrames state + 1
      /\ (grace < missedFrames state + 1 ->
          consecutiveDetections state' = 0 /\ confidence state' = 0%Q)
      /\ (missedFrames state + 1 <= grace ->
          consecutiveDetections state' = consecutiveDetections state
          /\ confidence state' = confidence state))
  /\ (orDefault (gracePeriod initial) "mobile" = 3
      /\ orDefault (gracePeriod initial) "book" = 4
      /\ forall objectType,
          Obs.plainName objectType = true ->
          objectType <> "mobile" -> objectType <> "book" ->
          orDefault (gracePeriod initial) objectType = 2)
  /\ (forall t predictions currentTime objectType state,
         Forall (fun e => Obs.plainName (fst e) = true) (trackedObjects t) ->
         is_Some (gracePeriod t !! "default") ->
         Forall (fun p => class p <> None) predictions ->
         findObjectInPredictions predictions objectType = Some None ->
         get objectType (trackedObjects t) = Some state ->
         let grace := orDefault (gracePeriod t) objectType in
         let t' :=
           snd (fst (updateObjectTracking predictions currentTime t)) in
         exists state',
           get objectType (trackedObjects t') = Some state'
           /\ missedFrames state' = missedFrames state + 1
           /\ (grace < missedFrames state + 1 ->
               consecutiveDetections state' = 0
               /\ confidence state' = 0%Q)
           /\ (missedFrames state + 1 <= grace ->
               consecutiveDetections state
               < orDefault (violationThresholds t) objectType ->
               consecutiveDetections state' = consecutiveDetections state
               /\ confidence state' = confidence state))
  /\ (forall t objectType state missTime predictions currentTime
             detection c,
         Forall (fun e => Obs.plainName (fst e) = true) (trackedObjects t) ->
         is_Some (gracePeriod t !! "default") ->
         get objectType (trackedObjects t) = Some state ->
         orDefault (gracePeriod t) objectType = 2 ->
         missedFrames state = 0 ->
         consecutiveDetections state + 1
         < orDefault (violationThresholds t) objectType ->
         Forall (fun p => class p <> None) predictions ->
         findObjectInPredictions predictions objectType
         = Some (Some detection) ->
         score detection = Some c -> (thresholds_medium <= c)%Q ->
         option_map consecutiveDetections
           (get objectType
                (trackedObjects
                   (fst (Run.tracker [([], missTime)] t))))
         = Some (consecutiveDetections state)
         /\ option_map consecutiveDetections
              (get objectType
                   (trackedObjects
                      (fst (Run.tracker
                              [([], missTime); (predictions, currentTime)]
                              t))))
            = Some (consecutiveDetections state + 1))
  /\ (forall t objectType state n1 n2 n3,
         Obs.plainName objectType = true ->
         is_Some (gracePeriod t !! "default") ->
         get objectType (trackedObjects t) = Some state ->
         orDefault (gracePeriod t) objectType = 2 ->
         0 <= missedFrames state ->
         option_map consecutiveDetections
           (get objectType
                (trackedObjects
                   (fst (Run.tracker [([], n1); ([], n2); ([], n3)] t))))
         = Some 0).
Proof.
  split; [|split; [|split; [|split]]].
  - intros t objectType state _ _ grace state'.
    subst state'. unfold handleObjectMissed. fold grace.
    destruct (grace <? missedFrames state + 1) eqn:E; cbn.
    + apply Z.ltb_lt in E. repeat split; lia.
    + apply Z.ltb_ge in E. repeat split; lia.
  - split; [exact grace_mobile|]. split; [exact grace_book|].
    intros objectType _. apply grace_other.
  - intros t predictions currentTime objectType state _ _ Hcl Hf Hg grace t'.
    assert (Hall : forall name,
               findObjectInPredictions predictions name <> None).
    { intros name E.
      destruct (findObjectInPredictions_total predictions name Hcl)
        as (found & E'). congruence. }
    destruct (updateObjectTracking_get t predictions currentTime objectType
                                       None Hall Hf) as (G & _ & _).
    fold t' in G. rewrite Hg in G. cbn [option_map] in G.
    eexists. split; [exact G|].
    split; [apply missed_frames_after_miss|]. split.
    + intros Hlt. rewrite miss_beyond_grace by exact Hlt.
      split; reflexivity.
    + intros Hle Hc. unfold trackType, handleObjectMissed. fold grace.
      apply Z.ltb_ge in Hle. rewrite Hle.
      rewrite checkObjectViolation_silent; [split; reflexivity|].
      left. exact Hc.
  - intros t objectType state missTime predictions currentTime detection c
           _ _ Hg Hgr Hm Hc Hcl Hf Hs Hq.
    rewrite !tracker_cons. cbn [Run.tracker fst].
    destruct (empty_tick_get t missTime objectType) as (G1 & Tg & Tv).
    set (t1 := snd (fst (updateObjectTracking [] missTime t))) in *.
    rewrite Hg in G1. cbn [option_map] in G1.
    assert (E1 : fst (trackType t objectType None missTime state)
                 = mkState (consecutiveDetections state) 1
                           (lastDetectionTime state) (confidence state)).
    { unfold trackType, handleObjectMissed.
      rewrite Hgr, Hm. change (2 <? 0 + 1) with false.
      change (0 + 1) with 1. cbn iota.
      rewrite checkObjectViolation_silent; [reflexivity|].
      left. cbn [consecutiveDetections]. lia. }
    rewrite E1 in G1. split; [rewrite G1; reflexivity|].
    assert (Hall : forall name,
               findObjectInPredictions predictions name <> None).
    { intros name E.
      destruct (findObjectInPredictions_total predictions name Hcl)
        as (found & E'). congruence. }
    destruct (updateObjectTracking_get t1 predictions currentTime objectType
                                       (Some detection) Hall Hf)
      as (G2 & _ & _).
    rewrite G2, G1. cbn [option_map].
    rewrite (trackType_tables t t1 _ _ _ _ Tg Tv).
    unfold trackType.
    rewrite (handleObjectDetected_counts _ _ _ _ Hs Hq).
    rewrite checkObjectViolation_silent; [reflexivity|].
    left. cbn [consecutiveDetections]. lia.
  - intros t objectType state n1 n2 n3 _ _ Hg Hgr Hm.
    rewrite !tracker_cons. cbn [Run.tracker fst].
    destruct (empty_tick_get t n1 objectType) as (G1 & Tg1 & Tv1).
    set (t1 := snd (fst (updateObjectTracking [] n1 t))) in *.
    destruct (empty_tick_get t1 n2 objectType) as (G2 & Tg2 & Tv2).
    set (t2 := snd (fst (updateObjectTracking [] n2 t1))) in *.
    destruct (empty_tick_get t2 n3 objectType) as (G3 & _ & _).
    rewrite G3, G2, G1, Hg. cbn [option_map].
    assert (Tg : gracePeriod t2 = gracePeriod t) by congruence.
    assert (Tv : violationThresholds t2 = violationThresholds t)
      by congruence.
    rewrite (trackType_tables t t2 _ _ _ _ Tg Tv).
    rewrite (trackType_tables t t1 _ _ _ _ Tg1 Tv1).
    set (s1 := fst (trackType t objectType None n1 state)).
    set (s2 := fst (trackType t objectType None n2 s1)).
    assert (M1 : missedFrames s1 = missedFrames state + 1)
      by apply missed_frames_after_miss.
    assert (M2 : missedFrames s2 = missedFrames s1 + 1)
      by apply missed_frames_after_miss.
    rewrite miss_beyond_grace; [reflexivity|]. rewrite Hgr. lia.
Qed.

Lemma missed_grace_period_witness :
  let t :=
    mkTracker [("mobile", freshState); ("book", freshState);
               ("remote", mkState 1 0 (Some 1000) (6 # 10))]
              (gracePeriod initial) (violationThresholds initial) in
  option_map consecutiveDetections
    (get "remote"
         (trackedObjects
            (fst (Run.tracker [([], 2000); ([], 3000); ([], 4000)] t))))
  = Some 0
  /\ option_map consecutiveDetections
       (get "remote"
            (trackedObjects (fst (Run.tracker [([], 2000)] t))))
     = Some 1
  /\ option_map consecutiveDetections
       (get "remote"
            (trackedObjects
               (fst (Run.tracker
                       [([], 2000); ([Run.record "remote" (6 # 10)], 3000)]
                       t))))
     = Some (1 + 1).
Proof.
  cbv zeta. split.
  - refine (proj2 (proj2 (proj2 (proj2 missed_grace_period)))
                  (mkTracker
                     [("mobile", freshState); ("book", freshState);
                      ("remote", mkState 1 0 (Some 1000) (6 # 10))]
                     (gracePeriod initial) (violationThresholds initial))
                  "remote" (mkState 1 0 (Some 1000) (6 # 10))
                  2000 3000 4000 eq_refl _ eq_refl _ _).
    + exists 2. vm_compute. reflexivity.
    + vm_compute. reflexivity.
    + simpl. lia.
  - refine (proj1 (proj2 (proj2 (proj2 missed_grace_period)))
                  (mkTracker
                     [("mobile", freshState); ("book", freshState);
                      ("remote", mkState 1 0 (Some 1000) (6 # 10))]
                     (gracePeriod initial) (violationThresholds initial))
                  "remote" (mkState 1 0 (Some 1000) (6 # 10))
                  2000 [Run.record "remote" (6 # 10)] 3000
                  (Run.record "remote" (6 # 10)) (6 # 10)%Q
                  _ _ eq_refl _ eq_refl _ _ _ eq_refl _).
    + repeat constructor.
    + exists 2. vm_compute. reflexivity.
    + vm_compute. reflexivity.
    + vm_compute. reflexivity.
    + repeat constructor. discriminate.
    + vm_compute. reflexivity.
    + qcmp.
Defined.

End TrackerClaims.

Section Registration.

Import Tracker.

Lemma get_set objectType state entries :
  get objectType (set objectType state entries) = Some state.
Proof.
  induction entries as [|[k v] rest IH]; cbn.
  - rewrite String.eqb_refl. reflexivity.
  - destruct (String.eqb k objectType) eqn:E; cbn.
    + rewrite String.eqb_refl. reflexivity.
    + rewrite E. exact IH.
Qed.

Lemma orDefault_insert table objectType n :
  n <> 0 -> orDefault (<[objectType := n]> table) objectType = n.
Proof.
  intros Hn. unfold orDefault. rewrite lookup_insert_eq.
  destruct (n =? 0) eqn:E; [|reflexivity].
  apply Z.eqb_eq in E. contradiction.
Qed.

(** C9.  Registering a type that is already tracked changes nothing: the
    tracker, with the type's counters, times and confidence and with
    both tables, is returned as it was, whatever the name and whatever
    the options say.  On the first registration the type starts from the
    zero state and, for a plain name, a non-zero override becomes the
    type's grace period or threshold. *)
Theorem registerObjectType_tracked_is_noop :
  forall objectType options t,
    (has objectType (trackedObjects t) = true ->
     registerObjectType objectType options t = t)
    /\ (has objectType (trackedObjects t) = false ->
        let t' := registerObjectType objectType options t in
        get objectType (trackedObjects t') = Some freshState
        /\ (Obs.plainName objectType = true ->
            (forall g, opt_gracePeriod options = Some g -> g <> 0 ->
                       orDefault (gracePeriod t') objectType = g)
            /\ (forall v,
                   opt_violationThreshold options = Some v -> v <> 0 ->
                   orDefault (violationThresholds t') objectType = v))).
Proof.
  intros objectType options t. unfold registerObjectType. split.
  - intros H. rewrite H. reflexivity.
  - intros H. rewrite H. cbn [negb trackedObjects gracePeriod
                               violationThresholds].
    split; [apply get_set|]. intros _. split.
    + intros g Hg Hne. rewrite Hg. cbn [JS.truthyZ default].
      assert (E : (g =? 0) = false) by now apply Z.eqb_neq.
      rewrite E. cbn [negb]. now apply orDefault_insert.
    + intros v Hv Hne. rewrite Hv. cbn [JS.truthyZ default].
      assert (E : (v =? 0) = false) by now apply Z.eqb_neq.
      rewrite E. cbn [negb]. now apply orDefault_insert.
Qed.

Lemma registerObjectType_tracked_is_noop_witness :
  registerObjectType "mobile" (mkOptions (Some 9) (Some 7)) initial = initial
  /\ orDefault (gracePeriod
                  (registerObjectType "remote" (mkOptions (Some 9) (Some 7))
                                      initial)) "remote" = 9.
Proof.
  split.
  - exact (proj1 (registerObjectType_tracked_is_noop
                    "mobile" (mkOptions (Some 9) (Some 7)) initial)
                 eq_refl).
  - refine (proj1 (proj2 (proj2 (registerObjectType_tracked_is_noop
                    "remote" (mkOptions (Some 9) (Some 7)) initial)
                 eq_refl) eq_refl) 9 eq_refl _). lia.
Defined.

End Registration.

(** ** The violation pathways *)

Section PathwayFacts.

Import Engine.

Ltac break :=
  repeat match goal with
         | |- context [if ?c then _ else _] => destruct c
         | |- context [match ?x with Some _ => _ | None => _ end] =>
             destruct x
         end.

Lemma categories_processViolationPathways d s :
  suspiciousItemsCategories (processViolationPathways d s)
  = suspiciousItemsCategories s.
Proof. unfold processViolationPathways. break; reflexivity. Qed.

Lemma categories_detections ds s :
  suspiciousItemsCategories (Run.detections ds s)
  = suspiciousItemsCategories s.
Proof.
  revert s. induction ds as [|d ds IH]; intros s; [reflexivity|].
  cbn. unfold Run.detections in IH. rewrite IH.
  apply categories_processViolationPathways.
Qed.

Lemma categories_updateTimer now s :
  suspiciousItemsCategories (updateSuspiciousObjectTimer now s)
  = suspiciousItemsCategories s.
Proof.
  destruct s as [vp [t c] pd pm lp h m cats tr fc em].
  unfold updateSuspiciousObjectTimer, resetSuspiciousObjectTimer. cbn.
  destruct t as [t|]; [|reflexivity].
  destruct (t =? 0) eqn:E; [reflexivity|].
  destruct (_ <=? _); reflexivity.
Qed.

Lemma categories_resetTimer s :
  suspiciousItemsCategories (resetSuspiciousObjectTimer s)
  = suspiciousItemsCategories s.
Proof. unfold resetSuspiciousObjectTimer. break; reflexivity. Qed.

Lemma categories_processConsecutive ds now s :
  suspiciousItemsCategories (processConsecutiveMobileDetections ds now s)
  = suspiciousItemsCategories s.
Proof.
  unfold processConsecutiveMobileDetections.
  destruct ds as [|d ds].
  - rewrite categories_resetTimer. break; reflexivity.
  - rewrite categories_updateTimer.
    pose proof (categories_detections (d :: ds) s) as H.
    unfold Run.detections in H.
    destruct (List.filter isDirect (d :: ds)); [exact H|].
    destruct (_ <=? _); cbn; exact H.
Qed.

(** What the timer does to an explicit state: it moves the timer and may
    report an object held, never a pathway. *)
Lemma timer_frame now vp t c pd pm lp h m cats tr fc em :
  exists t' vs,
    updateSuspiciousObjectTimer
      now (mkEngine vp (mkEnhanced t c) pd pm lp h m cats tr fc em)
    = mkEngine vp (mkEnhanced t' c) pd pm lp h m cats tr fc (em ++ vs)%list
    /\ List.filter Run.isDirectFiring vs = [].
Proof.
  unfold updateSuspiciousObjectTimer, resetSuspiciousObjectTimer. cbn.
  destruct t as [t|].
  - destruct (t =? 0) eqn:E.
    + exists (Some now), []. rewrite app_nil_r. split; reflexivity.
    + destruct (_ <=? _).
      * cbn. rewrite ?E. eexists None, [_]. split; reflexivity.
      * exists (Some t), []. rewrite app_nil_r. split; reflexivity.
  - exists (Some now), []. rewrite app_nil_r. split; reflexivity.
Qed.

(** A tick that shows one phone record which the mobile scorer keeps
    below its threshold, while the category table is not yet installed:
    the mobile check passes the record on as one direct detection, the
    pathways and the phone counters run, and the misclassified-object
    check throws at its first call of [isKnownObject], after it has
    zeroed the person-only counter. *)
Lemma tick_with_plain_phone p className sc points now s :
  class p = Some className -> score p = Some sc ->
  JS.matchesAny mobileKeywords (JS.toLowerCase className) = true ->
  JS.geb sc mobilePhone_high = true ->
  JS.toLowerCase className <> "person" ->
  Scorer.calculateSuspiciousnessScore (detectedHands s) p = Some points ->
  points < suspiciousnessThreshold ->
  suspiciousItemsCategories s = None ->
  detectObjectsWithAI [p] now s
  = let s1 :=
      processConsecutiveMobileDetections
        [mkDetection className (Some sc) "high" 100 None] now s in
    set_misclassifiedDetection
      (mkMisclassified 0 (unknownObjectFrames (misclassifiedDetection s1))
                       (lastViolationTime (misclassifiedDetection s1)))
      s1.
Proof.
  intros Hcl Hsc Hk Hs Hp Hpts Hlt Hc.
  unfold detectObjectsWithAI, tryCatch, checkMobilePhoneDetections,
    performAdvancedMobileAnalysis, updatePersonContext, bind, ofOption,
    gets, modify, ret, throw.
  cbn [directMobileDetections option_map].
  rewrite Hcl, Hsc, Hk. cbn [JS.ogeb]. rewrite Hs.
  cbn [findPerson]. rewrite Hcl.
  assert (Hp' : String.eqb (JS.toLowerCase className) "person" = false)
    by now apply String.eqb_neq.
  rewrite Hp'.
  cbn [andb advancedDetections option_map app].
  rewrite Hpts, Hcl.
  apply Z.leb_gt in Hlt. rewrite Hlt. cbn [option_map app].
  unfold checkOtherSuspiciousObjects, checkMisclassifiedObjects, bind,
    ofOption, gets, modify, ret, throw.
  cbn [lowerClasses option_map]. rewrite Hcl.
  cbn [option_map List.filter]. unfold isPerson. cbn [fst].
  rewrite Hp'. cbn [negb personOnlyStep].
  set (s1 := processConsecutiveMobileDetections _ now s).
  assert (H1 : suspiciousItemsCategories s1 = None).
  { subst s1. rewrite categories_processConsecutive. exact Hc. }
  cbn [suspiciousItemsCategories set_misclassifiedDetection].
  rewrite H1. reflexivity.
Qed.

(** What the mobile check hands to the arbiter: direct detections carry
    100 points and advanced ones at least 120, so that inside the engine
    a detection is always taken by pathway 1 or pathway 2 and the
    sustained-moderate counter is not touched. *)
Lemma direct_points predictions ds :
  directMobileDetections predictions = Some ds ->
  Forall (fun d => suspiciousnessScore d = 100) ds.
Proof.
  revert ds. induction predictions as [|p rest IH]; intros ds H.
  - injection H as <-. constructor.
  - cbn [directMobileDetections] in H.
    destruct (class p) as [c|]; [|discriminate].
    set (here := if JS.matchesAny mobileKeywords (JS.toLowerCase c)
                 then _ else _) in H.
    assert (Hh : Forall (fun d => suspiciousnessScore d = 100) here).
    { subst here. destruct (JS.matchesAny _ _); [|constructor].
      repeat (destruct (JS.ogeb _ _); [repeat constructor|]). constructor. }
    clearbody here.
    destruct (directMobileDetections rest) as [more|]; [|discriminate].
    injection H as <-. apply Forall_app. split; [exact Hh|].
    apply IH. reflexivity.
Qed.

Lemma advanced_points hands predictions ds :
  advancedDetections hands predictions = Some ds ->
  Forall (fun d => suspiciousnessThreshold <= suspiciousnessScore d) ds.
Proof.
  revert ds. induction predictions as [|p rest IH]; intros ds H.
  - injection H as <-. constructor.
  - cbn [advancedDetections] in H.
    destruct (Scorer.calculateSuspiciousnessScore hands p) as [points|];
      [|discriminate].
    destruct (class p) as [c|]; [|discriminate].
    set (here := if suspiciousnessThreshold <=? points then _ else _) in H.
    assert (Hh : Forall (fun d => suspiciousnessThreshold
                                  <= suspiciousnessScore d) here).
    { subst here.
      destruct (suspiciousnessThreshold <=? points) eqn:E; [|constructor].
      apply Z.leb_le in E. repeat constructor. exact E. }
    clearbody here.
    destruct (advancedDetections hands rest) as [more|]; [|discriminate].
    injection H as <-. apply Forall_app. split; [exact Hh|].
    apply IH. reflexivity.
Qed.

Lemma high_points_keep_sustained d s :
  misclassifiedObjectThreshold <= suspiciousnessScore d ->
  Run.sustained (processViolationPathways d s) = Run.sustained s.
Proof.
  intros H. unfold processViolationPathways.
  destruct (_ || _).
  - destruct (reached _); reflexivity.
  - apply Z.leb_le in H. rewrite H.
    destruct (reached _); reflexivity.
Qed.

End PathwayFacts.

Section PathwayClaims.

Import Engine.

(** The scenario of the specification: a record of class "cell phone"
    and score 0.65, which the mobile scorer keeps below its threshold of
    120 points (it has no box, or a box that is not phone-like), on
    three successive object ticks of a fresh engine, at any clock
    readings. *)
Lemma cell_phone_three_ticks (hands : list Scorer.Hand)
      (box alt : option (Q * Q * Q * Q)) (points n1 n2 n3 : Z) :
  let p := mkPrediction (Some "cell phone") (Some (65 # 100)%Q) box alt in
  Scorer.calculateSuspiciousnessScore hands p = Some points ->
  points < suspiciousnessThreshold ->
  let s2 := Run.ticks [([p], n1); ([p], n2)] (initial hands) in
  let s3 := detectObjectsWithAI [p] n3 s2 in
  Run.directFirings s2 = []
  /\ Run.directFirings s3
     = [mkViolation "mobile_phone_detected" (MsgDirectMobile "cell phone")
                    high]
  /\ Run.counts s3 = [0; 0; 0; 0]
  /\ Run.sustained s3 = 0.
Proof.
  cbv zeta. intros Hpts Hlt. unfold Run.ticks. cbn [fold_left fst snd].
  set (p := mkPrediction (Some "cell phone") (Some (65 # 100)%Q) box alt)
    in *.
  assert (T : forall now s,
             detectedHands s = hands ->
             suspiciousItemsCategories s = None ->
             detectObjectsWithAI [p] now s
             = let s1 :=
                 processConsecutiveMobileDetections
                   [mkDetection "cell phone" (Some (65 # 100)%Q) "high" 100
                                None] now s in
               set_misclassifiedDetection
                 (mkMisclassified
                    0 (unknownObjectFrames (misclassifiedDetection s1))
                    (lastViolationTime (misclassifiedDetection s1)))
                 s1).
  { intros now s Hh Hc.
    apply (tick_with_plain_phone p "cell phone" (65 # 100)%Q points);
      try reflexivity; try assumption.
    - discriminate.
    - rewrite Hh. exact Hpts. }
  set (d := mkDetection "cell phone" (Some (65 # 100)%Q) "high" 100 None)
    in T.
  set (idle := mkPathways (mkPathway 0 3) (mkPathway 0 2)
                          (mkPathway 0 4) (mkPathway 0 1)).
  (* first tick *)
  assert (E1 : detectObjectsWithAI [p] n1 (initial hands)
               = mkEngine
                   (mkPathways (mkPathway 1 3) (mkPathway 0 2)
                               (mkPathway 0 4) (mkPathway 0 1))
                   (mkEnhanced (Some n1) 0) 1 0 None hands
                   (mkMisclassified 0 0 0) None Tracker.initial 0 [])
    by (rewrite T; reflexivity).
  rewrite E1. clear E1.
  (* second tick *)
  rewrite T by reflexivity. cbv zeta.
  assert (P2 : processConsecutiveMobileDetections
                 [d] n2
                 (mkEngine
                    (mkPathways (mkPathway 1 3) (mkPathway 0 2)
                                (mkPathway 0 4) (mkPathway 0 1))
                    (mkEnhanced (Some n1) 0) 1 0 None hands
                    (mkMisclassified 0 0 0) None Tracker.initial 0 [])
               = updateSuspiciousObjectTimer
                   n2
                   (mkEngine
                      (mkPathways (mkPathway 2 3) (mkPathway 0 2)
                                  (mkPathway 0 4) (mkPathway 0 1))
                      (mkEnhanced (Some n1) 0) 2 0 None hands
                      (mkMisclassified 0 0 0) None Tracker.initial 0 []))
    by reflexivity.
  rewrite P2. clear P2.
  destruct (timer_frame n2
              (mkPathways (mkPathway 2 3) (mkPathway 0 2)
                          (mkPathway 0 4) (mkPathway 0 1))
              (Some n1) 0 2 0 None hands (mkMisclassified 0 0 0) None
              Tracker.initial 0 [])
    as (t2 & vs2 & E2 & F2).
  rewrite E2. clear E2.
  unfold set_misclassifiedDetection.
  cbn [violationPathways enhancedViolationSystem
       phoneDetectedCount phoneMissedCount lastPersonDetection
       detectedHands misclassifiedDetection suspiciousItemsCategories
       objectTracker frameCounter emitted unknownObjectFrames
       lastViolationTime app].
  split.
  { unfold Run.directFirings. cbn [emitted]. exact F2. }
  (* third tick *)
  rewrite T by reflexivity. cbv zeta.
  assert (P3 : processConsecutiveMobileDetections
                 [d] n3
                 (mkEngine
                    (mkPathways (mkPathway 2 3) (mkPathway 0 2)
                                (mkPathway 0 4) (mkPathway 0 1))
                    (mkEnhanced t2 0) 2 0 None hands
                    (mkMisclassified 0 0 0) None Tracker.initial 0 vs2)
               = updateSuspiciousObjectTimer
                   n3
                   (mkEngine
                      idle (mkEnhanced t2 0) 0 0 None hands
                      (mkMisclassified 0 0 0) None Tracker.initial 0
                      ((vs2
                        ++ [mkViolation "mobile_phone_detected"
                                        (MsgDirectMobile "cell phone") high])
                       ++ [mkViolation "mobile_phone_detected"
                                       (MsgReliableMobile "cell phone")
                                       high])%list))
    by reflexivity.
  rewrite P3. clear P3.
  destruct (timer_frame n3 idle t2 0 0 0 None hands (mkMisclassified 0 0 0)
              None Tracker.initial 0
              ((vs2
                ++ [mkViolation "mobile_phone_detected"
                                (MsgDirectMobile "cell phone") high])
               ++ [mkViolation "mobile_phone_detected"
                               (MsgReliableMobile "cell phone") high])%list)
    as (t3 & vs3 & E3 & F3).
  rewrite E3. clear E3.
  unfold Run.directFirings, Run.counts, Run.sustained,
    set_misclassifiedDetection.
  cbn [violationPathways enhancedViolationSystem
       phoneDetectedCount phoneMissedCount lastPersonDetection
       detectedHands misclassifiedDetection suspiciousItemsCategories
       objectTracker frameCounter emitted unknownObjectFrames
       lastViolationTime consecutiveSuspiciousFrames].
  rewrite !List.filter_app, F2, F3.
  repeat split; reflexivity.
Qed.

(** What one call of the arbiter can emit and reset: a firing of one of
    the four pathways zeroes their four counters and leaves the counter of
    the sustained-moderate rule alone; a firing of the sustained-moderate
    rule zeroes its own counter and leaves the four pathways alone. *)
Lemma processViolationPathways_firing d s :
  let s' := processViolationPathways d s in
  emitted s' = emitted s
  \/ exists msg sev,
      emitted s'
      = (emitted s ++ [mkViolation "mobile_phone_detected" msg sev])%list
      /\ ((msg <> MsgConsecutiveSuspicious (classOrUnknown d)
           /\ Run.counts s' = [0; 0; 0; 0]
           /\ Run.sustained s' = Run.sustained s)
          \/ (msg = MsgConsecutiveSuspicious (classOrUnknown d)
              /\ sev = medium
              /\ Run.sustained s' = 0
              /\ violationPathways s' = violationPathways s)).
Proof.
  cbv zeta. unfold processViolationPathways.
  destruct (JS.includes _ "phone" || JS.includes _ "cell").
  { destruct (reached _); [|left; reflexivity].
    right. eexists _, _. split; [reflexivity|]. left.
    split; [discriminate|]. split; reflexivity. }
  destruct (misclassifiedObjectThreshold <=? _).
  { destruct (reached _); [|left; reflexivity].
    right. eexists _, _. split; [reflexivity|]. left.
    split; [discriminate|]. split; reflexivity. }
  destruct (String.eqb _ "person" && _).
  { destruct (reached _); [|left; reflexivity].
    right. eexists _, _. split; [reflexivity|]. left.
    split; [discriminate|]. split; reflexivity. }
  destruct (150 <=? _).
  { destruct (reached _); [|left; reflexivity].
    right. eexists _, _. split; [reflexivity|]. left.
    split; [discriminate|]. split; reflexivity. }
  destruct (50 <=? _); [|left; reflexivity].
  destruct (requiredSuspiciousFrames <=? _); [|left; reflexivity].
  right. eexists _, _. split; [reflexivity|]. right.
  repeat split; reflexivity.
Qed.

(** The same three ticks with a phone-shaped box on the record: the
    mobile scorer then reaches 175 points, the record enters the
    arbiter twice per tick, and pathway 1 fires on the second tick. *)
Example boxed_phone_fires_on_second_tick :
  let tick :=
    [mkPrediction (Some "cell phone") (Some (65 # 100)%Q)
                  (Some (100, 100, 60, 120)%Q) None] in
  Run.directFirings (Run.ticks [(tick, 3000); (tick, 6000)] (initial []))
  = [mkViolation "mobile_phone_detected" (MsgDirectMobile "cell phone")
                 high].
Proof. vm_compute. reflexivity. Qed.

(** On a fresh engine the category table is installed by the first tick
    that shows persons only.  Until then a tick with any other object
    ends in [checkMisclassifiedObjects], and [updateObjectTracking] is
    not reached: four phone ticks leave the tracker as constructed. *)
Example fresh_engine_does_not_reach_tracker :
  let tick := [Run.record "cell phone" (65 # 100)] in
  objectTracker
    (Run.ticks [(tick, 3000); (tick, 6000); (tick, 9000); (tick, 12000)]
               (initial []))
  = Tracker.initial
  /\ suspiciousItemsCategories
       (detectObjectsWithAI [Run.record "person" (9 # 10)] 3000 (initial []))
     = Some Scorer.initializeSuspiciousCategories.
Proof. split; vm_compute; reflexivity. Qed.

End PathwayClaims.

(** ** The low-confidence boost *)

Section ScorerClaims.

Import Scorer.



Lemma round_nonneg (q : Q) : (0 <= q)%Q -> 0 <= JS.round q.
Proof.
  intros H. unfold JS.round.
  change 0 with (Qfloor 0). apply Qfloor_resp_le.
  apply Qle_trans with q; [exact H|].
  rewrite <- (Qplus_0_r q) at 1. apply Qplus_le_r. discriminate.
Qed.

Lemma analyzeHandContext_nonneg hands ox oy ow oh :
  (forall hand, In hand hands -> (0 <= confidence hand)%Q) ->
  0 <= analyzeHandContext hands ox oy ow oh.
Proof.
  induction hands as [|hand rest IH]; intros H; cbn [analyzeHandContext].
  - lia.
  - destruct (_ && _).
    + assert (0 <= JS.round (confidence hand * 20)%Q); [|lia].
      apply round_nonneg. apply Qmult_le_0_compat; [|discriminate].
      apply H. left. reflexivity.
    + apply IH. intros h Hin. apply H. right. exact Hin.
Qed.

Lemma analyzePhoneShape_nonneg a : 0 <= analyzePhoneShape a.
Proof. unfold analyzePhoneShape. repeat destruct (_ : bool); lia. Qed.

Lemma analyzePhoneSize_nonneg w h : 0 <= analyzePhoneSize w h.
Proof. unfold analyzePhoneSize. repeat destruct (_ && _); lia. Qed.

Lemma analyzeObjectShape_nonneg a category :
  0 <= analyzeObjectShape a category.
Proof.
  unfold analyzeObjectShape.
  destruct (isCategory category "booksAndPapers").
  - destruct (_ || _); lia.
  - destruct (isCategory category "electronicDevices").
    + apply analyzePhoneShape_nonneg.
    + destruct (between _ _ _); lia.
Qed.

Lemma analyzeObjectSize_nonneg w h category :
  0 <= analyzeObjectSize w h category.
Proof.
  unfold analyzeObjectSize.
  destruct (isCategory category "booksAndPapers").
  - destruct (_ && _); lia.
  - destruct (isCategory category "electronicDevices").
    + apply analyzePhoneSize_nonneg.
    + destruct (_ && _); lia.
Qed.









End ScorerClaims.

(** ** The focus state machine *)

Section FocusClaims.

Import Focus.

Lemma hideFocusWarning_flags s :
  isCurrentlyNoFace (hideFocusWarning s) = isCurrentlyNoFace s
  /\ isCurrentlyLookingAway (hideFocusWarning s) = isCurrentlyLookingAway s
  /\ noFaceStartTime (hideFocusWarning s) = noFaceStartTime s
  /\ lookingAwayStartTime (hideFocusWarning s) = lookingAwayStartTime s.
Proof.
  unfold hideFocusWarning. destruct (showFocusWarning s); repeat split.
Qed.

Lemma resetLookingAwayTimer_spec s :
  let s' := resetLookingAwayTimer s in
  isCurrentlyLookingAway s' = false
  /\ isCurrentlyNoFace s' = isCurrentlyNoFace s
  /\ noFaceStartTime s' = noFaceStartTime s
  /\ (isCurrentlyLookingAway s = true -> lookingAwayStartTime s' = None)
  /\ (isCurrentlyLookingAway s = false -> s' = s).
Proof.
  cbv zeta. unfold resetLookingAwayTimer.
  destruct (isCurrentlyLookingAway s) eqn:E.
  - destruct (hideFocusWarning_flags
                (mkFocus None (noFaceStartTime s) false
                         (isCurrentlyNoFace s) (showFocusWarning s)
                         (focusWarningType s) (lastFaceDetection s)))
      as (H1 & H2 & H3 & H4).
    rewrite H1, H2, H3, H4. cbn. repeat split; discriminate.
  - repeat split; auto; discriminate.
Qed.

Lemma resetNoFaceTimer_spec s :
  let s' := resetNoFaceTimer s in
  isCurrentlyNoFace s' = false
  /\ isCurrentlyLookingAway s' = isCurrentlyLookingAway s
  /\ lookingAwayStartTime s' = lookingAwayStartTime s
  /\ (isCurrentlyNoFace s = true -> noFaceStartTime s' = None)
  /\ (isCurrentlyNoFace s = false -> s' = s).
Proof.
  cbv zeta. unfold resetNoFaceTimer.
  destruct (isCurrentlyNoFace s) eqn:E.
  - destruct (hideFocusWarning_flags
                (mkFocus (lookingAwayStartTime s) None
                         (isCurrentlyLookingAway s) false
                         (showFocusWarning s) (focusWarningType s)
                         (lastFaceDetection s)))
      as (H1 & H2 & H3 & H4).
    rewrite H1, H2, H3, H4. cbn. repeat split; discriminate.
  - repeat split; auto; discriminate.
Qed.

(** A tick without a face, on a machine that is not in the no-face
    state: the timer starts at this tick and nothing is emitted. *)
Lemma no_face_first_tick now s :
  isCurrentlyNoFace s = false ->
  let '(s', vs) := processFocusDetection [] now s in
  vs = [] /\ noFaceStartTime s' = Some now /\ isCurrentlyNoFace s' = true.
Proof.
  intros H. cbn [processFocusDetection]. unfold handleNoFaceDetection.
  rewrite H. cbn [negb].
  destruct (resetLookingAwayTimer_spec
              (mkFocus (lookingAwayStartTime s) (Some now)
                       (isCurrentlyLookingAway s) true
                       (showFocusWarning s) (focusWarningType s)
                       (lastFaceDetection s)))
    as (_ & H2 & H3 & _).
  rewrite H2, H3. repeat split.
Qed.

(** A further tick without a face, before the threshold. *)
Lemma no_face_waiting now s :
  isCurrentlyNoFace s = true ->
  elapsed now (noFaceStartTime s) < noFaceThreshold ->
  let '(s', vs) := processFocusDetection [] now s in
  vs = [] /\ noFaceStartTime s' = noFaceStartTime s
  /\ isCurrentlyNoFace s' = true.
Proof.
  intros H Hlt. cbn [processFocusDetection]. unfold handleNoFaceDetection.
  rewrite H. cbn [negb]. apply Z.leb_gt in Hlt. rewrite Hlt.
  destruct (resetLookingAwayTimer_spec s) as (_ & H2 & H3 & _).
  rewrite H2, H3. repeat split. exact H.
Qed.

(** A further tick without a face, at or past the threshold. *)
Lemma no_face_fires now s :
  isCurrentlyNoFace s = true ->
  noFaceThreshold <= elapsed now (noFaceStartTime s) ->
  let '(s', vs) := processFocusDetection [] now s in
  vs = [mkViolation "no_face" MsgNoFace high]
  /\ noFaceStartTime s' = Some now
  /\ isCurrentlyNoFace s' = true
  /\ (isCurrentlyLookingAway s = false ->
      showFocusWarning s' = true /\ focusWarningType s' = Some "no_face").
Proof.
  intros H Hge. cbn [processFocusDetection]. unfold handleNoFaceDetection.
  rewrite H. cbn [negb]. apply Z.leb_le in Hge. rewrite Hge.
  destruct (resetLookingAwayTimer_spec
              (mkFocus (lookingAwayStartTime s) (Some now)
                       (isCurrentlyLookingAway s) true true
                       (Some "no_face") (lastFaceDetection s)))
    as (_ & H2 & H3 & _ & H5).
  rewrite H2, H3. cbn. repeat split;
    match goal with Hl : _ = false |- _ => rewrite (H5 Hl) end; reflexivity.
Qed.

(** While no face is seen, every emission comes at least a threshold
    after the timer's start, and the emissions are at least a threshold
    apart. *)
Lemma no_face_emissions_armed times :
  forall s,
    isCurrentlyNoFace s = true ->
    Run.startsAfter (default 0 (noFaceStartTime s) + noFaceThreshold)
                    (Run.noFaceEmissions times s)
    /\ Run.spaced noFaceThreshold (Run.noFaceEmissions times s).
Proof.
  induction times as [|t rest IH]; intros s H; [split; exact I|].
  cbn [Run.noFaceEmissions].
  destruct (Z.le_gt_cases noFaceThreshold (elapsed t (noFaceStartTime s)))
    as [Hge|Hlt].
  - pose proof (no_face_fires t s H Hge) as F.
    destruct (processFocusDetection [] t s) as [s' vs].
    destruct F as (-> & Hstart & Hflag & _).
    destruct (IH s' Hflag) as [A B]. rewrite Hstart in A. cbn in A.
    cbn [Run.startsAfter Run.spaced]. unfold elapsed in Hge.
    repeat split; [lia|exact A|exact B].
  - pose proof (no_face_waiting t s H Hlt) as F.
    destruct (processFocusDetection [] t s) as [s' vs].
    destruct F as (-> & Hstart & Hflag).
    destruct (IH s' Hflag) as [A B]. rewrite Hstart in A.
    split; assumption.
Qed.

Lemma no_face_emissions_spaced times s :
  Run.spaced noFaceThreshold (Run.noFaceEmissions times s).
Proof.
  destruct (isCurrentlyNoFace s) eqn:H.
  - apply no_face_emissions_armed. exact H.
  - destruct times as [|t rest]; [exact I|].
    cbn [Run.noFaceEmissions].
    pose proof (no_face_first_tick t s H) as F.
    destruct (processFocusDetection [] t s) as [s' vs].
    destruct F as (-> & _ & Hflag).
    apply no_face_emissions_armed. exact Hflag.
Qed.

(** After a tick the two flags are not both set. *)
Lemma flags_not_both_after_tick faces now s :
  let s' := fst (processFocusDetection faces now s) in
  isCurrentlyNoFace s' && isCurrentlyLookingAway s' = false.
Proof.
  cbv zeta. destruct faces as [|face [|face' more]].
  - cbn [processFocusDetection]. unfold handleNoFaceDetection.
    destruct (if negb (isCurrentlyNoFace s) then _ else _) as [s1 vs].
    cbn [fst].
    destruct (resetLookingAwayTimer_spec s1) as (A & _).
    rewrite A. apply andb_false_r.
  - cbn [processFocusDetection]. unfold handleSingleFaceDetection.
    destruct (resetNoFaceTimer_spec s) as (A & _).
    set (s1 := resetNoFaceTimer s) in *.
    destruct (JS.gt _ _).
    + unfold handleLookingAwayDetection.
      destruct (isCurrentlyLookingAway s1); cbn [negb].
      * destruct (lookingAwayThreshold <=? _); cbn; rewrite A; reflexivity.
      * cbn. rewrite A. reflexivity.
    + cbn.
      destruct (hideFocusWarning_flags (resetLookingAwayTimer s1))
        as (H1 & _).
      destruct (resetLookingAwayTimer_spec s1) as (_ & H2 & _).
      rewrite H1, H2, A. reflexivity.
  - cbn [processFocusDetection fst].
    destruct (hideFocusWarning_flags
                (resetLookingAwayTimer (resetNoFaceTimer s)))
      as (H1 & H2 & _).
    destruct (resetLookingAwayTimer_spec (resetNoFaceTimer s))
      as (A & B & _).
    destruct (resetNoFaceTimer_spec s) as (A' & _).
    rewrite H1, H2, A, B, A'. reflexivity.
Qed.

(** C6.  With no face in the frame, the first such tick starts the
    no-face timer and emits nothing; a later tick emits nothing while
    less than 10000 ms have elapsed since the timer's start, and once
    10000 ms have elapsed it emits one high-severity no-face violation,
    restarts the timer at the current tick and, the machine not being in
    the looking-away state, marks the no-face warning active; after any
    tick a machine in the no-face state is not in the looking-away
    state.  Over any run of ticks without a face, two successive
    violations are at least 10000 ms apart. *)
Theorem no_face_timing :
  noFaceThreshold = 10000
  /\ (forall now s,
         isCurrentlyNoFace s = false ->
         let '(s', vs) := processFocusDetection [] now s in
         vs = [] /\ noFaceStartTime s' = Some now
         /\ isCurrentlyNoFace s' = true)
  /\ (forall now s,
         isCurrentlyNoFace s = true ->
         elapsed now (noFaceStartTime s) < noFaceThreshold ->
         let '(s', vs) := processFocusDetection [] now s in
         vs = [] /\ noFaceStartTime s' = noFaceStartTime s
         /\ isCurrentlyNoFace s' = true)
  /\ (forall now s,
         isCurrentlyNoFace s = true ->
         noFaceThreshold <= elapsed now (noFaceStartTime s) ->
         let '(s', vs) := processFocusDetection [] now s in
         vs = [mkViolation "no_face" MsgNoFace high]
         /\ noFaceStartTime s' = Some now
         /\ isCurrentlyNoFace s' = true
         /\ (isCurrentlyLookingAway s = false ->
             showFocusWarning s' = true
             /\ focusWarningType s' = Some "no_face"))
  /\ (forall faces before s0,
         let s := fst (processFocusDetection faces before s0) in
         isCurrentlyNoFace s = true -> isCurrentlyLookingAway s = false)
  /\ (forall times s,
         Run.spaced noFaceThreshold (Run.noFaceEmissions times s)).
Proof.
  split; [reflexivity|].
  split; [exact no_face_first_tick|].
  split; [exact no_face_waiting|].
  split; [exact no_face_fires|].
  split; [|exact no_face_emissions_spaced].
  intros faces before s0 s Hn.
  pose proof (flags_not_both_after_tick faces before s0) as H.
  cbv zeta in H. fold s in H. rewrite Hn in H. exact H.
Qed.

Lemma no_face_timing_witness :
  let '(s', vs) :=
    processFocusDetection
      [] 12000 (mkFocus None (Some 2000) false true false None 0) in
  vs = [mkViolation "no_face" MsgNoFace high]
  /\ noFaceStartTime s' = Some 12000
  /\ isCurrentlyNoFace s' = true
  /\ (isCurrentlyLookingAway
        (mkFocus None (Some 2000) false true false None 0) = false ->
      showFocusWarning s' = true /\ focusWarningType s' = Some "no_face").
Proof.
  refine (proj1 (proj2 (proj2 (proj2 no_face_timing)))
                12000 (mkFocus None (Some 2000) false true false None 0)
                eq_refl _).
  vm_compute. discriminate.
Defined.

(** C7.  After every focus tick, whatever the face list and the state
    before it, the no-face flag and the looking-away flag are not both
    set.  A tick without a face leaves the machine in the no-face state
    with the looking-away flag cleared, and clears the looking-away
    timer it found running.  The looking-away flag can only be set after
    a tick with exactly one face, which clears the no-face flag and the
    no-face timer it found running. *)
Theorem focus_flags_exclusive :
  forall faces now s,
    let s' := fst (processFocusDetection faces now s) in
    isCurrentlyNoFace s' && isCurrentlyLookingAway s' = false
    /\ (faces = [] ->
        isCurrentlyNoFace s' = true
        /\ isCurrentlyLookingAway s' = false
        /\ (isCurrentlyLookingAway s = true ->
            lookingAwayStartTime s' = None))
    /\ (isCurrentlyLookingAway s' = true ->
        length faces = 1%nat
        /\ isCurrentlyNoFace s' = false
        /\ (isCurrentlyNoFace s = true -> noFaceStartTime s' = None)).
Proof.
  intros faces now s. cbv zeta.
  destruct faces as [|face [|face' more]].
  - (* no face *)
    cbn [processFocusDetection]. unfold handleNoFaceDetection.
    assert (G : forall s1,
               isCurrentlyNoFace s1 = true ->
               isCurrentlyLookingAway s1 = isCurrentlyLookingAway s ->
               lookingAwayStartTime s1 = lookingAwayStartTime s ->
               let r := resetLookingAwayTimer s1 in
               isCurrentlyNoFace r && isCurrentlyLookingAway r = false
               /\ ([] = @nil Face ->
                   isCurrentlyNoFace r = true
                   /\ isCurrentlyLookingAway r = false
                   /\ (isCurrentlyLookingAway s = true ->
                       lookingAwayStartTime r = None))
               /\ (isCurrentlyLookingAway r = true ->
                   length (@nil Face) = 1%nat
                   /\ isCurrentlyNoFace r = false
                   /\ (isCurrentlyNoFace s = true ->
                       noFaceStartTime r = None))).
    { intros s1 Hn Hl Ht. cbv zeta.
      destruct (resetLookingAwayTimer_spec s1) as (A & B & _ & D & _).
      rewrite A, B, Hn. split; [reflexivity|]. split.
      - intros _. repeat split. intros Hs. apply D. congruence.
      - discriminate. }
    destruct (isCurrentlyNoFace s) eqn:En; cbn [negb].
    + destruct (noFaceThreshold <=? elapsed now (noFaceStartTime s));
        cbn [fst]; apply G; auto.
    + cbn [fst]. apply G; auto.
  - (* one face *)
    cbn [processFocusDetection]. unfold handleSingleFaceDetection.
    destruct (resetNoFaceTimer_spec s) as (A & B & C & D & E).
    set (s1 := resetNoFaceTimer s) in *.
    assert (G : forall s2,
               isCurrentlyNoFace s2 = false ->
               noFaceStartTime s2 = noFaceStartTime s1 ->
               let r := set_lastFaceDetection now s2 in
               isCurrentlyNoFace r && isCurrentlyLookingAway r = false
               /\ ([face] = [] ->
                   isCurrentlyNoFace r = true
                   /\ isCurrentlyLookingAway r = false
                   /\ (isCurrentlyLookingAway s = true ->
                       lookingAwayStartTime r = None))
               /\ (isCurrentlyLookingAway r = true ->
                   length [face] = 1%nat
                   /\ isCurrentlyNoFace r = false
                   /\ (isCurrentlyNoFace s = true ->
                       noFaceStartTime r = None))).
    { intros s2 Hn Ht. cbv zeta. cbn. rewrite Hn. cbn.
      split; [reflexivity|]. split; [discriminate|].
      intros _. repeat split. intros Hs. rewrite Ht. apply D. exact Hs. }
    destruct (JS.gt _ _).
    + unfold handleLookingAwayDetection.
      destruct (isCurrentlyLookingAway s1); cbn [negb].
      * destruct (lookingAwayThreshold <=? _); cbn [fst]; apply G; auto.
      * cbn [fst]. apply G; auto.
    + cbn [fst]. apply G.
      * destruct (hideFocusWarning_flags (resetLookingAwayTimer s1))
          as (H1 & _).
        destruct (resetLookingAwayTimer_spec s1) as (_ & H2 & _).
        congruence.
      * destruct (hideFocusWarning_flags (resetLookingAwayTimer s1))
          as (_ & _ & H1 & _).
        destruct (resetLookingAwayTimer_spec s1) as (_ & _ & H2 & _).
        congruence.
  - (* several faces *)
    cbn [processFocusDetection fst].
    destruct (hideFocusWarning_flags
                (resetLookingAwayTimer (resetNoFaceTimer s)))
      as (H1 & H2 & _).
    destruct (resetLookingAwayTimer_spec (resetNoFaceTimer s))
      as (A & B & _).
    destruct (resetNoFaceTimer_spec s) as (A' & _).
    rewrite H1, H2, A, B, A'. split; [reflexivity|].
    split; discriminate.
Qed.

Lemma focus_flags_exclusive_witness :
  let s' :=
    fst (processFocusDetection
           [] 5000 (mkFocus (Some 1000) None true false false None 0)) in
  isCurrentlyNoFace s' && isCurrentlyLookingAway s' = false
  /\ (@nil Face = [] ->
      isCurrentlyNoFace s' = true
      /\ isCurrentlyLookingAway s' = false
      /\ (isCurrentlyLookingAway
            (mkFocus (Some 1000) None true false false None 0) = true ->
          lookingAwayStartTime s' = None))
  /\ (isCurrentlyLookingAway s' = true ->
      length (@nil Face) = 1%nat
      /\ isCurrentlyNoFace s' = false
      /\ (isCurrentlyNoFace
            (mkFocus (Some 1000) None true false false None 0) = true ->
          noFaceStartTime s' = None)).
Proof.
  exact (focus_flags_exclusive
           [] 5000 (mkFocus (Some 1000) None true false false None 0)).
Defined.

End FocusClaims.

(** ** Records without a class *)

Section MalformedRecords.

Import Engine.

Lemma directMobileDetections_throws predictions :
  (exists p, In p predictions /\ class p = None) ->
  directMobileDetections predictions = None.
Proof.
  intros (p & Hin & Hc).
  induction predictions as [|q rest IH]; [destruct Hin|].
  cbn [directMobileDetections].
  destruct Hin as [->|Hin].
  - rewrite Hc. reflexivity.
  - destruct (class q); [|reflexivity].
    rewrite (IH Hin). reflexivity.
Qed.

(** A record without a class anywhere in the list ends the tick at its
    first step, before anything has been written. *)
Lemma tick_dropped predictions now s :
  (exists p, In p predictions /\ class p = None) ->
  detectObjectsWithAI predictions now s = s.
Proof.
  intros H. unfold detectObjectsWithAI, tryCatch,
              checkMobilePhoneDetections, bind, ofOption.
  rewrite (directMobileDetections_throws _ H). reflexivity.
Qed.

(** C8 fails on the code.  A tick whose list holds a record without a
    class next to a well-formed phone record leaves the whole engine
    state as it was, whichever record comes first: the phone is counted
    by no pathway, by no phone counter and by no tracker entry.  The
    phone record alone is counted by all three. *)
Theorem record_without_class_drops_tick :
  let bad :=
    mkPrediction None (Some (9 # 10)%Q) (Some (10, 10, 50, 100)%Q) None in
  let good := Run.record "cell phone" (9 # 10) in
  let ready :=
    set_suspiciousItemsCategories
      (Some Scorer.initializeSuspiciousCategories) (initial []) in
  (forall now s, detectObjectsWithAI [bad; good] now s = s)
  /\ (forall now s, detectObjectsWithAI [good; bad] now s = s)
  /\ Run.counts (detectObjectsWithAI [good] 3000 ready) = [1; 0; 0; 0]
  /\ phoneDetectedCount (detectObjectsWithAI [good] 3000 ready) = 1
  /\ Tracker.get "mobile"
       (Tracker.trackedObjects
          (objectTracker (detectObjectsWithAI [good] 3000 ready)))
     = Some (Tracker.mkState 1 0 (Some 3000) (9 # 10)).
Proof.
  cbv zeta. split; [|split].
  - intros now s. apply tick_dropped. eexists. split; [left; reflexivity|].
    reflexivity.
  - intros now s. apply tick_dropped. eexists.
    split; [right; left; reflexivity|]. reflexivity.
  - vm_compute. repeat split; reflexivity.
Qed.

(** A record without a score is not skipped by the tracker's search: it
    is the first match for its type, the handler ignores it, and a
    well-formed record of the same type later in the list is never
    looked at. *)
Example scoreless_record_shadows_tracker :
  let blank := mkPrediction (Some "cell phone") None None None in
  let good := Run.record "cell phone" (9 # 10) in
  Tracker.get "mobile"
    (Tracker.trackedObjects
       (snd (fst (Tracker.updateObjectTracking [blank; good] 3000
                                               Tracker.initial))))
  = Some Tracker.freshState
  /\ Tracker.get "mobile"
       (Tracker.trackedObjects
          (snd (fst (Tracker.updateObjectTracking [good] 3000
                                                  Tracker.initial))))
     = Some (Tracker.mkState 1 0 (Some 3000) (9 # 10)).
Proof. split; vm_compute; reflexivity. Qed.

End MalformedRecords.

(** ** The gaze estimators on bad landmark data *)

Section GazeFacts.

Import Focus.

Lemma calculateHeadAngle_without_landmarks face :
  landmarks face = None -> calculateHeadAngle face = JS.Fin 0.
Proof. intros H. unfold calculateHeadAngle. rewrite H. reflexivity. Qed.

Lemma calculateHeadAngle_short face l :
  landmarks face = Some l -> (length l < 468)%nat ->
  calculateHeadAngle face = JS.Fin 0.
Proof.
  intros H Hlt. unfold calculateHeadAngle. rewrite H.
  apply Nat.ltb_lt in Hlt. rewrite Hlt. reflexivity.
Qed.

Lemma calculateHeadAngle_thrown face l :
  landmarks face = Some l -> headAngleOf l = None ->
  calculateHeadAngle face = JS.Fin 0.
Proof.
  intros H Ht. unfold calculateHeadAngle. rewrite H, Ht.
  destruct (_ <? _)%nat; reflexivity.
Qed.

Lemma analyzeGazeDirection_thrown l :
  gazeOf l = None -> lookingAtScreen (analyzeGazeDirection l) = true.
Proof. intros H. unfold analyzeGazeDirection. rewrite H. reflexivity. Qed.

(** A head angle of 0, or one that is not a number, never starts or
    extends the looking-away timer. *)
Lemma straight_head_is_not_away face now s :
  calculateHeadAngle face = JS.Fin 0 \/ calculateHeadAngle face = JS.NaN ->
  let '(s', vs) := handleSingleFaceDetection face now s in
  vs = [] /\ isCurrentlyLookingAway s' = false.
Proof.
  intros H. unfold handleSingleFaceDetection.
  assert (E : JS.gt (JS.abs (calculateHeadAngle face))
                    (JS.Fin headAngleThreshold) = false)
    by (destruct H as [-> | ->]; reflexivity).
  rewrite E. split; [reflexivity|]. cbn.
  destruct (hideFocusWarning_flags
              (resetLookingAwayTimer (resetNoFaceTimer s)))
    as (_ & H2 & _).
  destruct (resetLookingAwayTimer_spec (resetNoFaceTimer s)) as (A & _).
  congruence.
Qed.

(** A gaze result without landmarks leaves the frame count alone, and a
    mesh on which the estimator throws does not extend it. *)
Lemma gaze_tick_without_landmarks now g :
  onGazeResults None now g = (g, [])
  /\ onGazeResults (Some []) now g = (g, []).
Proof. split; reflexivity. Qed.

Lemma gaze_tick_thrown l more now g :
  gazeOf l = None ->
  let '(g', vs) := onGazeResults (Some (l :: more)) now g in
  vs = [] /\ (g' = g \/ consecutiveLookingAwayFrames g' = 0).
Proof.
  intros H. unfold onGazeResults.
  rewrite (analyzeGazeDirection_thrown l H). cbn [negb].
  destruct (0 <? consecutiveLookingAwayFrames g).
  - split; [reflexivity|]. right. reflexivity.
  - split; [reflexivity|]. left. reflexivity.
Qed.

(** C10 fails on the code for landmark points without numeric
    coordinates.  On a mesh of 468 such points nothing throws: the
    head-angle estimator returns NaN, which is not beyond the threshold,
    but [analyzeGazeDirection] answers that the candidate is not looking
    at the screen and the gaze callback counts the frame; thirty-five
    such gaze results in a row, with no hand result in between to zero
    the count, emit a looking-away violation.  A mesh whose points all
    coincide is read the same way. *)
Theorem gaze_estimator_counts_blank_mesh :
  gazeOf Run.blankMesh <> None
  /\ calculateHeadAngle (mkFace (Some Run.blankMesh)) = JS.NaN
  /\ lookingAtScreen (analyzeGazeDirection Run.blankMesh) = false
  /\ lookingAtScreen (analyzeGazeDirection Run.collapsedMesh) = false
  /\ onGazeResults (Some [Run.blankMesh]) 1000 (mkGazeState 0 None)
     = (mkGazeState 1 None, [])
  /\ Run.gazeTicks 35 Run.blankMesh 1000 (mkGazeState 0 None)
     = (mkGazeState 25 (Some 1000),
        [mkViolation "focus_lost" MsgGazeAway medium]).
Proof.
  split; [vm_compute; discriminate|].
  repeat split; vm_compute; reflexivity.
Qed.

End GazeFacts.

(** * Further properties of the code *)

(** ** The tracker over whole runs *)

Section TrackerInvariants.

Import Tracker.

Lemma geb_high_medium c :
  JS.geb c thresholds_high = true -> JS.geb c thresholds_medium = true.
Proof.
  intros H. apply geb_true in H. apply geb_true.
  apply Qle_trans with thresholds_high; [discriminate|exact H].
Qed.

(** A counted detection stores a confidence of at least the medium tier;
    any other detection leaves the count as it was. *)
Lemma handleObjectDetected_cases detection currentTime state :
  (consecutiveDetections (handleObjectDetected detection currentTime state)
   = consecutiveDetections state + 1
   /\ JS.geb (confidence (handleObjectDetected detection currentTime state))
             thresholds_medium = true
   /\ missedFrames (handleObjectDetected detection currentTime state) = 0)
  \/ (consecutiveDetections (handleObjectDetected detection currentTime state)
      = consecutiveDetections state
      /\ (missedFrames (handleObjectDetected detection currentTime state) = 0
          \/ handleObjectDetected detection currentTime state = state)).
Proof.
  unfold handleObjectDetected.
  destruct (score detection) as [c|]; [|right; auto].
  destruct (JS.geb c thresholds_high) eqn:Eh.
  - left. cbn. split; [reflexivity|]. split; [|reflexivity].
    now apply geb_high_medium.
  - destruct (JS.geb c thresholds_medium) eqn:Em.
    + left. cbn. auto.
    + destruct (JS.geb c thresholds_low); right; cbn; auto.
Qed.

Lemma trackType_ok t objectType found currentTime state :
  Obs.entryOk t (objectType, state) ->
  Obs.entryOk t (objectType,
                 fst (trackType t objectType found currentTime state)).
Proof.
  unfold Obs.entryOk. cbn [fst snd].
  set (threshold := orDefault (violationThresholds t) objectType).
  intros (Ht & Hc & Hm & Hn). split; [exact Ht|].
  enough (G : 0 <= consecutiveDetections
                     (fst (trackType t objectType found currentTime state))
              < threshold
              /\ 0 <= missedFrames
                        (fst (trackType t objectType found currentTime
                                        state)))
    by (destruct G; auto).
  assert (Hhalf : 0 <= threshold / 2 < threshold).
  { split; [apply Z.div_pos; lia|]. apply Z.div_lt_upper_bound; lia. }
  unfold trackType, checkObjectViolation. fold threshold.
  destruct found as [detection|].
  - destruct (handleObjectDetected_cases detection currentTime state)
      as [(Ec & Eq & Em)|(Ec & Em)].
    + rewrite Ec, Eq, andb_true_r.
      destruct (threshold <=? consecutiveDetections state + 1) eqn:E; cbn.
      * split; [exact Hhalf|]. rewrite Em. lia.
      * apply Z.leb_gt in E. rewrite Ec, Em. lia.
    + rewrite Ec.
      assert (E : (threshold <=? consecutiveDetections state) = false)
        by (apply Z.leb_gt; lia).
      rewrite E. cbn. rewrite Ec.
      split; [lia|]. destruct Em as [-> | ->]; lia.
  - unfold handleObjectMissed.
    destruct (_ <? missedFrames state + 1); cbn.
    + assert (E : (threshold <=? 0) = false) by (apply Z.leb_gt; lia).
      rewrite E. cbn. lia.
    + assert (E : (threshold <=? consecutiveDetections state) = false)
        by (apply Z.leb_gt; lia).
      rewrite E. cbn. lia.
Qed.

(** Under the invariant only a counted detection can fire. *)
Lemma trackType_fires t objectType found currentTime state :
  Obs.entryOk t (objectType, state) ->
  snd (trackType t objectType found currentTime state) <> [] ->
  consecutiveDetections (fst (trackType t objectType found currentTime state))
  = orDefault (violationThresholds t) objectType / 2
  /\ orDefault (violationThresholds t) objectType
     = consecutiveDetections state + 1.
Proof.
  unfold Obs.entryOk. cbn [fst snd].
  set (threshold := orDefault (violationThresholds t) objectType).
  intros (Ht & Hc & Hm & _).
  unfold trackType, checkObjectViolation. fold threshold.
  destruct found as [detection|].
  - destruct (handleObjectDetected_cases detection currentTime state)
      as [(Ec & Eq & Em)|(Ec & Em)].
    + rewrite Ec, Eq, andb_true_r.
      destruct (threshold <=? consecutiveDetections state + 1) eqn:E; cbn.
      * intros _. apply Z.leb_le in E. split; [reflexivity|lia].
      * intros H. contradiction.
    + rewrite Ec.
      assert (E : (threshold <=? consecutiveDetections state) = false)
        by (apply Z.leb_gt; lia).
      rewrite E. cbn. intros H. contradiction.
  - unfold handleObjectMissed.
    destruct (_ <? missedFrames state + 1); cbn.
    + assert (E : (threshold <=? 0) = false) by (apply Z.leb_gt; lia).
      rewrite E. cbn. intros H. contradiction.
    + assert (E : (threshold <=? consecutiveDetections state) = false)
        by (apply Z.leb_gt; lia).
      rewrite E. cbn. intros H. contradiction.
Qed.

(** The loop keeps the types, their order and the invariant, whether it
    completes or throws. *)
Lemma trackLoop_keeps t predictions currentTime entries :
  let '(c, entries', vs) := trackLoop t predictions currentTime entries in
  map fst entries' = map fst entries
  /\ (Forall (Obs.entryOk t) entries -> Forall (Obs.entryOk t) entries')
  /\ (Forall (fun p => class p <> None) predictions -> c = JS.Normal).
Proof.
  induction entries as [|[objectType state] rest IH]; cbn [trackLoop].
  - repeat split; auto.
  - destruct (findObjectInPredictions predictions objectType) as [found|] eqn:Ef.
    + pose proof (trackType_ok t objectType found currentTime state) as Hok.
      destruct (trackType t objectType found currentTime state)
        as [state' vs].
      destruct (trackLoop t predictions currentTime rest)
        as [[c rest'] vs'].
      destruct IH as (Hk & Hi & Hn). cbn [fst] in Hok.
      split; [cbn; now rewrite Hk|]. split.
      * intros H. inversion H; subst. constructor; auto.
      * exact Hn.
    + split; [reflexivity|]. split; [auto|].
      intros Hall. exfalso. clear IH.
      induction predictions as [|p more IHp]; [discriminate|].
      cbn in Ef. inversion Hall; subst.
      destruct (class p) as [c|]; [|congruence].
      destruct (JS.matchesAny _ _); [discriminate|]. auto.
Qed.

Lemma initial_ok : Obs.trackedOk initial.
Proof.
  unfold Obs.trackedOk, Obs.entryOk.
  repeat constructor; cbn [fst snd]; try (vm_compute; congruence).
Qed.

Lemma updateObjectTracking_ok predictions currentTime t :
  Obs.trackedOk t ->
  Obs.trackedOk (snd (fst (updateObjectTracking predictions currentTime t))).
Proof.
  intros H. unfold updateObjectTracking.
  pose proof (trackLoop_keeps t predictions currentTime (trackedObjects t))
    as K.
  destruct (trackLoop t predictions currentTime (trackedObjects t))
    as [[c entries] vs].
  destruct K as (_ & Hi & _). cbn [fst snd].
  unfold Obs.trackedOk in *. cbn [trackedObjects].
  specialize (Hi H).
  eapply Forall_impl; [exact Hi|]. intros e He. exact He.
Qed.

End TrackerInvariants.

Section TrackerRuns.

Import Tracker.

Lemma tracker_run_ok ticks :
  forall t, Obs.trackedOk t -> Obs.trackedOk (fst (Run.tracker ticks t)).
Proof.
  induction ticks as [|[predictions currentTime] rest IH]; intros t H.
  - exact H.
  - cbn [Run.tracker].
    pose proof (updateObjectTracking_ok predictions currentTime t H) as H1.
    destruct (updateObjectTracking predictions currentTime t)
      as [[c t1] vs]. cbn [fst snd] in H1.
    specialize (IH t1 H1).
    destruct (Run.tracker rest t1) as [t2 vs']. exact IH.
Qed.

(** X1.  Every tracked count stays in range.  If each tracked type has a
    plain name, a threshold of at least 1, a count between 0 and the
    threshold (excluded) and a number of missed frames that is not
    negative, the same holds after any sequence of tracker ticks, whatever
    the predictions and whether a tick completes or throws.  The
    constructor's tracker starts in that range. *)
Theorem tracker_counts_stay_in_range :
  Obs.trackedOk initial
  /\ (forall ticks t,
        Obs.trackedOk t -> Obs.trackedOk (fst (Run.tracker ticks t))).
Proof.
  split.
  - exact initial_ok.
  - intros ticks t. apply tracker_run_ok.
Qed.

Lemma tracker_counts_stay_in_range_witness :
  Obs.trackedOk
    (fst (Run.tracker
            [([Run.record "cell phone" (9 # 10)], 1000);
             ([mkPrediction None None None None], 2000);
             ([], 3000)] initial)).
Proof.
  refine (proj2 tracker_counts_stay_in_range _ initial _).
  exact (proj1 tracker_counts_stay_in_range).
Defined.

(** X2.  With a threshold of at least 3, a type of plain name whose count
    is in range cannot fire on two ticks in a row: the tick after a
    violation emits nothing for that type, whatever it shows. *)
Theorem no_firing_on_consecutive_ticks :
  forall t objectType state found currentTime found' currentTime',
    Obs.entryOk t (objectType, state) ->
    3 <= orDefault (violationThresholds t) objectType ->
    snd (trackType t objectType found currentTime state) <> [] ->
    snd (trackType t objectType found' currentTime'
                   (fst (trackType t objectType found currentTime state)))
    = [].
Proof.
  intros t objectType state found currentTime found' currentTime'
         Hok H3 Hfire.
  destruct (trackType_fires t objectType found currentTime state Hok Hfire)
    as (Hhalf & _).
  pose proof (trackType_ok t objectType found currentTime state Hok) as Hok1.
  set (s1 := fst (trackType t objectType found currentTime state)) in *.
  destruct (snd (trackType t objectType found' currentTime' s1)) eqn:E;
    [reflexivity|].
  exfalso.
  assert (Hne : snd (trackType t objectType found' currentTime' s1) <> [])
    by (rewrite E; discriminate).
  destruct (trackType_fires t objectType found' currentTime' s1 Hok1 Hne)
    as (_ & Heq).
  rewrite Hhalf in Heq.
  set (threshold := orDefault (violationThresholds t) objectType) in *.
  assert (threshold / 2 * 2 <= threshold)
    by (rewrite Z.mul_comm; apply Z.mul_div_le; lia).
  lia.
Qed.

Lemma no_firing_on_consecutive_ticks_witness :
  snd (trackType initial "mobile"
                 (Some (Run.record "cell phone" (9 # 10))) 4000
                 (fst (trackType initial "mobile"
                                 (Some (Run.record "cell phone" (9 # 10)))
                                 3000 (mkState 2 0 (Some 2000) (9 # 10)))))
  = [].
Proof.
  apply no_firing_on_consecutive_ticks.
  - unfold Obs.entryOk. cbn [fst snd]. rewrite threshold_mobile. cbn.
    repeat split; lia.
  - rewrite threshold_mobile. lia.
  - vm_compute. discriminate.
Defined.

Lemma trackLoop_emits t predictions currentTime entries :
  (length (snd (trackLoop t predictions currentTime entries))
   <= length entries)%nat.
Proof.
  induction entries as [|[objectType state] rest IH]; cbn [trackLoop].
  - cbn. lia.
  - destruct (findObjectInPredictions predictions objectType) as [found|].
    + assert (H1 : (length (snd (trackType t objectType found currentTime
                                           state)) <= 1)%nat).
      { unfold trackType, checkObjectViolation.
        destruct (_ && _); cbn; lia. }
      destruct (trackType t objectType found currentTime state)
        as [state' vs].
      destruct (trackLoop t predictions currentTime rest)
        as [[c rest'] vs'].
      cbn [snd length] in *. rewrite length_app. lia.
    + cbn. lia.
Qed.

(** X3.  A tracker tick never adds, drops or reorders tracked types and
    never changes the grace periods or thresholds; it emits at most one
    violation per tracked type; and when every record of the list has a
    class, and the tracked types have plain names, it completes
    normally. *)
Theorem tracking_keeps_types_and_completes :
  forall predictions currentTime t,
    let '(c, t', vs) := updateObjectTracking predictions currentTime t in
    map fst (trackedObjects t') = map fst (trackedObjects t)
    /\ gracePeriod t' = gracePeriod t
    /\ violationThresholds t' = violationThresholds t
    /\ (length vs <= length (trackedObjects t))%nat
    /\ (Forall (fun p => class p <> None) predictions ->
        Forall (fun e => Obs.plainName (fst e) = true) (trackedObjects t) ->
        c = JS.Normal).
Proof.
  intros predictions currentTime t. unfold updateObjectTracking.
  pose proof (trackLoop_keeps t predictions currentTime (trackedObjects t))
    as K.
  pose proof (trackLoop_emits t predictions currentTime (trackedObjects t))
    as L.
  destruct (trackLoop t predictions currentTime (trackedObjects t))
    as [[c entries] vs].
  destruct K as (Hk & _ & Hn). cbn [snd] in L.
  repeat split; auto.
Qed.

Lemma tracking_keeps_types_and_completes_witness :
  let '(c, t', vs) :=
    updateObjectTracking [Run.record "book" (9 # 10)] 1000 initial in
  map fst (trackedObjects t') = map fst (trackedObjects initial)
  /\ gracePeriod t' = gracePeriod initial
  /\ violationThresholds t' = violationThresholds initial
  /\ (length vs <= length (trackedObjects initial))%nat
  /\ (Forall (fun p => class p <> None) [Run.record "book" (9 # 10)] ->
      Forall (fun e => Obs.plainName (fst e) = true)
             (trackedObjects initial) ->
      c = JS.Normal).
Proof.
  exact (tracking_keeps_types_and_completes
           [Run.record "book" (9 # 10)] 1000 initial).
Defined.

End TrackerRuns.

Section TrackerRegistry.

Import Tracker.

Lemma has_set objectType state entries :
  has objectType (set objectType state entries) = true.
Proof.
  unfold has. induction entries as [|[k v] rest IH]; cbn.
  - rewrite String.eqb_refl. reflexivity.
  - destruct (String.eqb k objectType) eqn:E; cbn.
    + rewrite String.eqb_refl. reflexivity.
    + rewrite E. exact IH.
Qed.

Lemma get_set_other objectType other state entries :
  other <> objectType ->
  get other (set objectType state entries) = get other entries.
Proof.
  intros Hne. induction entries as [|[k v] rest IH]; cbn.
  - assert (E : String.eqb objectType other = false)
      by (apply String.eqb_neq; congruence).
    rewrite E. reflexivity.
  - destruct (String.eqb k objectType) eqn:E; cbn.
    + apply String.eqb_eq in E. subst k.
      assert (E' : String.eqb objectType other = false)
        by (apply String.eqb_neq; congruence).
      rewrite E'. reflexivity.
    + destruct (String.eqb k other); [reflexivity|exact IH].
Qed.

Lemma orDefault_insert_other (table : gmap string Z) objectType other n :
  objectType <> "default" -> other <> objectType ->
  orDefault (<[objectType := n]> table) other = orDefault table other.
Proof.
  intros Hd Hne. unfold orDefault.
  rewrite !lookup_insert_ne by congruence. reflexivity.
Qed.

(** X4.  Registration is idempotent and local.  After
    [registerObjectType] the type is tracked, a second registration of it
    with any options changes nothing, every other type keeps its state,
    and, unless the new type is called "default", every other type keeps
    its grace period and its threshold. *)
Theorem registerObjectType_idempotent :
  forall objectType options options' t,
    let t1 := registerObjectType objectType options t in
    has objectType (trackedObjects t1) = true
    /\ registerObjectType objectType options' t1 = t1
    /\ (forall other, other <> objectType ->
                      get other (trackedObjects t1)
                      = get other (trackedObjects t))
    /\ (objectType <> "default" ->
        forall other, other <> objectType ->
                      orDefault (gracePeriod t1) other
                      = orDefault (gracePeriod t) other
                      /\ orDefault (violationThresholds t1) other
                         = orDefault (violationThresholds t) other).
Proof.
  intros objectType options options' t t1.
  assert (Hhas : has objectType (trackedObjects t1) = true).
  { subst t1. unfold registerObjectType.
    destruct (has objectType (trackedObjects t)) eqn:E; cbn [negb].
    - exact E.
    - cbn [trackedObjects]. apply has_set. }
  split; [exact Hhas|]. split.
  { unfold registerObjectType at 1. rewrite Hhas. reflexivity. }
  subst t1. unfold registerObjectType.
  destruct (has objectType (trackedObjects t)); cbn [negb].
  - split; [reflexivity|]. intros _ other _. split; reflexivity.
  - cbn [trackedObjects gracePeriod violationThresholds]. split.
    + intros other Hne. now apply get_set_other.
    + intros Hd other Hne. split.
      * destruct (JS.truthyZ (opt_gracePeriod options)); [|reflexivity].
        now apply orDefault_insert_other.
      * destruct (JS.truthyZ (opt_violationThreshold options));
          [|reflexivity].
        now apply orDefault_insert_other.
Qed.

Lemma registerObjectType_idempotent_witness :
  let t1 := registerObjectType "remote" (mkOptions (Some 5) None) initial in
  orDefault (gracePeriod t1) "mobile" = orDefault (gracePeriod initial) "mobile"
  /\ orDefault (violationThresholds t1) "mobile"
     = orDefault (violationThresholds initial) "mobile".
Proof.
  refine (proj2 (proj2 (proj2 (registerObjectType_idempotent
                                 "remote" (mkOptions (Some 5) None)
                                 (mkOptions None None) initial)))
                _ "mobile" _); discriminate.
Defined.

(** X5.  The status report never shows a pending violation.  On a
    tracker whose counts are in range, and so after every tick of such a
    tracker, no entry of [getTrackingStatus] has the status "VIOLATION
    READY"; an entry is active exactly when its status is "TRACKING"; and
    the report has an entry for exactly the tracked types. *)
Theorem status_never_violation_ready :
  forall predictions currentTime t,
    Obs.trackedOk t ->
    let t' := snd (fst (updateObjectTracking predictions currentTime t)) in
    (forall name,
        In name (map fst (Status.getTrackingStatus t'))
        <-> In name (map fst (trackedObjects t)))
    /\ forall name e,
        In (name, e) (Status.getTrackingStatus t') ->
        (forall n threshold,
            Status.status e <> Status.ViolationReady n threshold)
        /\ (Status.isActive e = true <->
            exists threshold,
              Status.status e
              = Status.Tracking (Status.consecutiveDetections e) threshold).
Proof.
  intros predictions currentTime t H t'.
  pose proof (updateObjectTracking_ok predictions currentTime t H) as Hok.
  fold t' in Hok.
  pose proof (tracking_shape := trackLoop_keeps t predictions currentTime
                                                (trackedObjects t)).
  split.
  { intros name. unfold Status.getTrackingStatus. rewrite map_map. cbn [fst].
    subst t'. unfold updateObjectTracking.
    destruct (trackLoop t predictions currentTime (trackedObjects t))
      as [[c entries] vs].
    destruct tracking_shape as (Hk & _). cbn [fst snd trackedObjects].
    rewrite <- Hk. reflexivity. }
  clear tracking_shape.
  intros name e Hin. unfold Status.getTrackingStatus in Hin.
  apply in_map_iff in Hin. destruct Hin as ([k state] & Heq & Hin).
  injection Heq as <- <-. cbn [fst snd].
  unfold Obs.trackedOk in Hok. rewrite List.Forall_forall in Hok.
  specialize (Hok _ Hin). unfold Obs.entryOk in Hok. cbn [fst snd] in Hok.
  destruct Hok as (Ht & Hc & Hm & _).
  cbn [Status.status Status.isActive Status.consecutiveDetections].
  unfold Status.getObjectStatus.
  set (threshold := orDefault (violationThresholds t') k) in *.
  assert (E : (threshold <=? consecutiveDetections state) = false)
    by (apply Z.leb_gt; lia).
  rewrite E.
  destruct (0 <? consecutiveDetections state) eqn:Ea.
  - split; [discriminate|]. split; [eauto|reflexivity].
  - split.
    + destruct (_ && _); discriminate.
    + split; [discriminate|].
      intros (th & Hs). destruct (_ && _); discriminate.
Qed.

Lemma status_never_violation_ready_witness :
  let t' :=
    snd (fst (updateObjectTracking [Run.record "cell phone" (9 # 10)] 1000
                                   initial)) in
  In "mobile" (map fst (Status.getTrackingStatus t'))
  <-> In "mobile" (map fst (trackedObjects initial)).
Proof.
  exact (proj1 (status_never_violation_ready
                  [Run.record "cell phone" (9 # 10)] 1000 initial
                  initial_ok)
               "mobile").
Defined.

(** X6.  The search takes the first match, not the best.  For a type
    with a plain name, [findObjectInPredictions] returns a record exactly
    when the list splits into records that have a class matching no
    search term of the type, then the returned record, whose class
    matches one; the scores play no part, and a record after the first
    match is never looked at. *)
Theorem findObjectInPredictions_first_match :
  forall predictions objectType p,
    Obs.plainName objectType = true ->
    findObjectInPredictions predictions objectType = Some (Some p)
    <-> exists before after,
        predictions = (before ++ p :: after)%list
        /\ Forall (fun q => exists c, class q = Some c
                                      /\ Obs.matches objectType c = false)
                  before
        /\ exists c, class p = Some c /\ Obs.matches objectType c = true.
Proof.
  intros predictions objectType p _. unfold Obs.matches. split.
  - induction predictions as [|q rest IH]; cbn; [discriminate|].
    destruct (class q) as [c|] eqn:Ec; [|discriminate].
    destruct (JS.matchesAny _ _) eqn:Em.
    + intros H. injection H as <-. exists [], rest.
      split; [reflexivity|]. split; [constructor|]. eauto.
    + intros H. destruct (IH H) as (before & after & -> & Hb & Hp).
      exists (q :: before), after. split; [reflexivity|].
      split; [|exact Hp]. constructor; [eauto|exact Hb].
  - intros (before & after & -> & Hb & c & Hc & Hm).
    induction before as [|q more IH]; cbn.
    + rewrite Hc, Hm. reflexivity.
    + apply List.Forall_cons_iff in Hb. destruct Hb as ((c' & Hc' & Hm') & Hb).
      rewrite Hc', Hm'. exact (IH Hb).
Qed.

Lemma findObjectInPredictions_first_match_witness :
  findObjectInPredictions
    [Run.record "person" (9 # 10); Run.record "cell phone" (1 # 10);
     Run.record "cell phone" (9 # 10)] "mobile"
  = Some (Some (Run.record "cell phone" (1 # 10))).
Proof.
  apply findObjectInPredictions_first_match; [reflexivity|].
  exists [Run.record "person" (9 # 10)], [Run.record "cell phone" (9 # 10)].
  split; [reflexivity|]. split.
  - constructor; [|constructor]. exists "person". split; reflexivity.
  - exists "cell phone". split; reflexivity.
Defined.

End TrackerRegistry.

(** ** The scorers on their own *)

Section ScorerBounds.

Import Scorer.

Lemma analyzePhoneShape_range a : 0 <= analyzePhoneShape a <= 50.
Proof. unfold analyzePhoneShape. repeat destruct (_ : bool); lia. Qed.

Lemma analyzePhoneSize_range w h : 0 <= analyzePhoneSize w h <= 25.
Proof. unfold analyzePhoneSize. repeat destruct (_ && _); lia. Qed.

Lemma advanced_class hands predictions ds :
  Engine.advancedDetections hands predictions = Some ds ->
  Forall (fun d =>
            exists p, In p predictions
                      /\ class p = Some (Engine.det_class d)
                      /\ calculateSuspiciousnessScore hands p
                         = Some (Engine.suspiciousnessScore d)
                      /\ Engine.suspiciousnessThreshold
                         <= Engine.suspiciousnessScore d)
         ds.
Proof.
  revert ds. induction predictions as [|p rest IH]; intros ds H.
  - injection H as <-. constructor.
  - cbn [Engine.advancedDetections] in H.
    destruct (calculateSuspiciousnessScore hands p) as [points|] eqn:Ep;
      [|discriminate].
    destruct (class p) as [c|] eqn:Ec; [|discriminate].
    set (here := if Engine.suspiciousnessThreshold <=? points
                 then _ else _) in H.
    assert (Hh : Forall (fun d =>
                           exists q, In q (p :: rest)
                                     /\ class q = Some (Engine.det_class d)
                                     /\ calculateSuspiciousnessScore hands q
                                        = Some (Engine.suspiciousnessScore d)
                                     /\ Engine.suspiciousnessThreshold
                                        <= Engine.suspiciousnessScore d)
                        here).
    { subst here.
      destruct (Engine.suspiciousnessThreshold <=? points) eqn:E;
        [|constructor].
      apply Z.leb_le in E. constructor; [|constructor].
      exists p. cbn. auto. }
    clearbody here.
    destruct (Engine.advancedDetections hands rest) as [more|];
      [|discriminate].
    injection H as <-. apply Forall_app. split; [exact Hh|].
    eapply Forall_impl; [apply IH; reflexivity|].
    intros d (q & Hin & Hq). exists q. split; [right; exact Hin|exact Hq].
Qed.

(** The mobile scorer with no hand in the frame. *)
Lemma no_hands_score p points :
  calculateSuspiciousnessScore [] p = Some points ->
  0 <= points <= 175
  /\ (Engine.suspiciousnessThreshold <= points ->
      exists c, class p = Some c
                /\ JS.includes (JS.toLowerCase c) "phone"
                   || JS.includes (JS.toLowerCase c) "cell" = true).
Proof.
  unfold calculateSuspiciousnessScore, Engine.suspiciousnessThreshold.
  destruct (class p) as [c|]; [|discriminate].
  destruct (extractBoundingBox p) as [[[[bx by_] bw] bh]|].
  - cbv zeta. cbn [analyzeHandContext].
    pose proof (analyzePhoneShape_range (JS.div (JS.Fin bw) (JS.Fin bh))).
    pose proof (analyzePhoneSize_range bw bh).
    set (shape := analyzePhoneShape _) in *. clearbody shape.
    set (size := analyzePhoneSize _ _) in *. clearbody size.
    destruct (JS.includes (JS.toLowerCase c) "phone"
              || JS.includes (JS.toLowerCase c) "cell") eqn:E.
    + intros H1. injection H1 as <-. split; [lia|]. intros _. eauto.
    + destruct (existsb _ _); intros H1; injection H1 as <-;
        (split; [lia|]); intros; lia.
  - intros H1. injection H1 as <-. split; [lia|]. intros; lia.
Qed.

(** X7.  Without a detected hand the mobile scorer stays between 0 and
    175 points, and it reaches the advanced-analysis threshold of 120
    points only for a record whose class contains "phone" or "cell": every
    detection the advanced analysis then adds is one that pathway 1
    takes. *)
Theorem advanced_analysis_needs_a_hand :
  (forall p points,
      calculateSuspiciousnessScore [] p = Some points ->
      0 <= points <= 175
      /\ (Engine.suspiciousnessThreshold <= points ->
          exists c, class p = Some c
                    /\ JS.includes (JS.toLowerCase c) "phone"
                       || JS.includes (JS.toLowerCase c) "cell" = true))
  /\ (forall predictions ds,
         Engine.advancedDetections [] predictions = Some ds ->
         Forall (fun d =>
                   JS.includes (JS.toLowerCase (Engine.det_class d)) "phone"
                   || JS.includes (JS.toLowerCase (Engine.det_class d)) "cell"
                   = true) ds).
Proof.
  split; [exact no_hands_score|].
  intros predictions ds H.
  eapply Forall_impl; [exact (advanced_class [] predictions ds H)|].
  intros d (p & _ & Hc & Hs & Ht).
  destruct (no_hands_score p _ Hs) as (_ & Hx).
  destruct (Hx Ht) as (c & Hc' & Hi).
  rewrite Hc in Hc'. injection Hc' as <-. exact Hi.
Qed.

Lemma advanced_analysis_needs_a_hand_witness :
  0 <= 175 <= 175
  /\ (Engine.suspiciousnessThreshold <= 175 ->
      exists c, class (mkPrediction (Some "Cell Phone") (Some (5 # 10)%Q)
                                    (Some (0, 0, 50, 100)%Q) None) = Some c
                /\ JS.includes (JS.toLowerCase c) "phone"
                   || JS.includes (JS.toLowerCase c) "cell" = true).
Proof.
  exact (proj1 advanced_analysis_needs_a_hand
               (mkPrediction (Some "Cell Phone") (Some (5 # 10)%Q)
                             (Some (0, 0, 50, 100)%Q) None)
               175 eq_refl).
Defined.

Lemma confidenceBoost_nonneg p total :
  boostApplies p total = true -> 0 <= confidenceBoost p.
Proof.
  unfold boostApplies, confidenceBoost.
  destruct (score p) as [s|]; [|discriminate].
  intros H. apply andb_true_iff in H. destruct H as [H _].
  apply andb_true_iff in H. destruct H as [_ H].
  apply ltb_true in H. apply round_nonneg.
  apply Qmult_le_0_compat; [|discriminate].
  apply Qlt_le_weak in H.
  apply (Qplus_le_l _ _ s). ring_simplify. exact H.
Qed.

Lemma termsScore_at_least_base hands p className cat :
  (forall hand, In hand hands -> (0 <= confidence hand)%Q) ->
  findCategory initializeSuspiciousCategories className = Some cat ->
  baseScore cat
  <= termsScore initializeSuspiciousCategories hands p className.
Proof.
  intros Hh Hc. unfold termsScore. rewrite Hc.
  destruct (extractBoundingBox p) as [[[[bx by_] bw] bh]|]; [|lia].
  destruct (_ && _); [|lia].
  pose proof (analyzeObjectShape_nonneg
                (JS.Fin (bw / bh)) (option_map categoryName (Some cat))).
  pose proof (analyzeHandContext_nonneg hands bx by_ bw bh Hh).
  pose proof (analyzeObjectSize_nonneg
                bw bh (option_map categoryName (Some cat))).
  lia.
Qed.

End ScorerBounds.

(** ** The category scan *)

Section CategoryScan.

Import Scorer.

Lemma matchesAny_app terms terms' className :
  JS.matchesAny (terms ++ terms')%list className
  = JS.matchesAny terms className || JS.matchesAny terms' className.
Proof. unfold JS.matchesAny. apply existsb_app. Qed.

(** A class that matches an item of the books or electronics category is
    put into one of the two. *)
Lemma findCategory_reported className :
  JS.matchesAny Obs.reportedItems className = true ->
  exists cat,
    findCategory initializeSuspiciousCategories className = Some cat
    /\ 80 <= baseScore cat
    /\ cat_severity cat = high
    /\ (cat_violationType cat = "books_notes_detected"
        \/ cat_violationType cat = "electronic_device_detected").
Proof.
  change Obs.reportedItems
    with (["book"; "notebook"; "paper"; "magazine"; "journal"; "textbook"]
          ++ ["cell phone"; "mobile phone"; "phone"; "smartphone"; "tv";
              "remote"; "laptop"; "mouse"; "keyboard"; "tablet"; "ipad"])%list.
  rewrite matchesAny_app. intros H.
  unfold findCategory, initializeSuspiciousCategories.
  cbn [List.find items].
  change (map JS.toLowerCase
              ["book"; "notebook"; "paper"; "magazine"; "journal"; "textbook"])
    with ["book"; "notebook"; "paper"; "magazine"; "journal"; "textbook"].
  change (map JS.toLowerCase
              ["cell phone"; "mobile phone"; "phone"; "smartphone"; "tv";
               "remote"; "laptop"; "mouse"; "keyboard"; "tablet"; "ipad"])
    with ["cell phone"; "mobile phone"; "phone"; "smartphone"; "tv";
          "remote"; "laptop"; "mouse"; "keyboard"; "tablet"; "ipad"].
  destruct (JS.matchesAny
              ["book"; "notebook"; "paper"; "magazine"; "journal"; "textbook"]
              className).
  - eexists. split; [reflexivity|]. cbn. repeat split; auto; lia.
  - cbn [orb] in H. rewrite H.
    eexists. split; [reflexivity|]. cbn. repeat split; auto; lia.
Qed.

(** X8.  The category scan has no debouncing for books and electronics.
    A record with a non-empty class that contains, or is contained in, an
    item of the books or the electronics category is reported by the scan
    on every tick that shows it, whatever its score, its box and the
    history: the scan returns the record with at least 80 points, and
    [processOtherObjects] hands a violation of severity high, of type
    books_notes_detected or electronic_device_detected, to the callback.
    The hands are taken to have a confidence that is not negative, and the
    category table to be either missing or the one the engine installs. *)
Theorem category_match_is_reported_every_tick :
  forall p c s,
    class p = Some c ->
    JS.toLowerCase c <> "" ->
    JS.matchesAny Obs.reportedItems (JS.toLowerCase c) = true ->
    (forall hand, In hand (Engine.detectedHands s) ->
                  (0 <= confidence hand)%Q) ->
    (Engine.suspiciousItemsCategories s = None
     \/ Engine.suspiciousItemsCategories s
        = Some initializeSuspiciousCategories) ->
    exists data,
      snd (Engine.scanRecord p s) = [(p, data)]
      /\ 80 <= totalScore data
      /\ data_severity data = high
      /\ (violationType data = "books_notes_detected"
          \/ violationType data = "electronic_device_detected")
      /\ Engine.emitted
           (Engine.processOtherObjects (snd (Engine.scanRecord p s))
                                       (fst (Engine.scanRecord p s)))
         = (Engine.emitted s
            ++ [mkViolation (violationType data) (MsgOtherObject c) high])%list.
Proof.
  intros p c s Hc Hne Hm Hh Ht.
  destruct (findCategory_reported _ Hm) as (cat & Hf & Hb & Hs & Hv).
  assert (Htable :
            default [] (Engine.suspiciousItemsCategories
                          (match Engine.suspiciousItemsCategories s with
                           | Some _ => s
                           | None =>
                               Engine.set_suspiciousItemsCategories
                                 (Some initializeSuspiciousCategories) s
                           end))
            = initializeSuspiciousCategories).
  { destruct Ht as [E | E]; rewrite E; [reflexivity|].
    cbn [default]. now rewrite E. }
  assert (Hhands :
            Engine.detectedHands
              (match Engine.suspiciousItemsCategories s with
               | Some _ => s
               | None =>
                   Engine.set_suspiciousItemsCategories
                     (Some initializeSuspiciousCategories) s
               end)
            = Engine.detectedHands s).
  { destruct (Engine.suspiciousItemsCategories s); reflexivity. }
  assert (Hem :
            Engine.emitted
              (match Engine.suspiciousItemsCategories s with
               | Some _ => s
               | None =>
                   Engine.set_suspiciousItemsCategories
                     (Some initializeSuspiciousCategories) s
               end)
            = Engine.emitted s).
  { destruct (Engine.suspiciousItemsCategories s); reflexivity. }
  unfold Engine.scanRecord. cbv zeta. rewrite Htable, Hhands.
  unfold analyzeSuspiciousObject. rewrite Hc.
  apply String.eqb_neq in Hne. rewrite Hne, Hf.
  pose proof (termsScore_at_least_base
                (Engine.detectedHands s) p (JS.toLowerCase c) cat Hh Hf)
    as Hterms.
  set (terms := termsScore _ _ _ _) in *.
  assert (Htotal : 80 <= (if boostApplies p terms
                          then terms + confidenceBoost p else terms)).
  { destruct (boostApplies p terms) eqn:Eb; [|lia].
    pose proof (confidenceBoost_nonneg p terms Eb). lia. }
  set (total := if boostApplies p terms then _ else _) in *.
  cbn [totalScore].
  assert (E70 : (70 <=? total) = true) by (apply Z.leb_le; lia).
  rewrite E70. cbn [fst snd].
  eexists. split; [reflexivity|].
  cbn [totalScore data_severity violationType].
  split; [exact Htotal|]. split; [exact Hs|]. split; [exact Hv|].
  unfold Engine.processOtherObjects, Engine.triggerViolations,
    Engine.set_emitted.
  cbn [Engine.emitted map fst snd violationType data_severity].
  rewrite Hem, Hc, Hs. reflexivity.
Qed.

Lemma category_match_is_reported_every_tick_witness :
  exists data,
    snd (Engine.scanRecord (Run.record "Notebook" (1 # 10))
                           (Engine.initial []))
    = [(Run.record "Notebook" (1 # 10), data)]
    /\ 80 <= totalScore data
    /\ data_severity data = high
    /\ (violationType data = "books_notes_detected"
        \/ violationType data = "electronic_device_detected")
    /\ Engine.emitted
         (Engine.processOtherObjects
            (snd (Engine.scanRecord (Run.record "Notebook" (1 # 10))
                                    (Engine.initial [])))
            (fst (Engine.scanRecord (Run.record "Notebook" (1 # 10))
                                    (Engine.initial []))))
       = (Engine.emitted (Engine.initial [])
          ++ [mkViolation (violationType data) (MsgOtherObject "Notebook")
                          high])%list.
Proof.
  apply (category_match_is_reported_every_tick
           (Run.record "Notebook" (1 # 10)) "Notebook" (Engine.initial [])).
  - reflexivity.
  - discriminate.
  - reflexivity.
  - intros hand [].
  - left. reflexivity.
Defined.

End CategoryScan.

(** ** The object tick, step by step *)

Section EngineSteps.

Import Engine.

(** A property [P] of the engine state that the mobile check keeps, a
    property [P2] that holds once the phone counters have run and a
    property [Q] that the steps from the misclassified-object check on
    establish and keep; [D] is what is known of the list the mobile check
    returns.  Whatever step throws, the tick ends in a state with [Q]. *)
Variables (D : list Detection -> Prop) (P P2 Q : State -> Prop).
Variables (predictions : list Prediction) (currentTime : Z).

Hypothesis person_keeps :
  forall v s, P s -> P (set_lastPersonDetection v s).
Hypothesis mobile_keeps :
  forall ds s, D ds -> P s ->
               P2 (processConsecutiveMobileDetections ds currentTime s).
Hypothesis weaken : forall s, P s -> Q s.
Hypothesis weaken2 : forall s, P2 s -> Q s.
Hypothesis personOnly_keeps :
  forall persons others s,
    P2 s -> Q (personOnlyStep persons others currentTime s).
Hypothesis unknown_keeps :
  forall unknown s, Q s -> Q (unknownObjectStep unknown s).
Hypothesis install_keeps :
  forall s,
    Q s ->
    Q (set_suspiciousItemsCategories
         (Some Scorer.initializeSuspiciousCategories) s).
Hypothesis other_keeps :
  forall objs s, Q s -> Q (processOtherObjects objs s).
Hypothesis tracking_keeps :
  forall s, Q s -> Q (snd (updateObjectTracking predictions currentTime s)).

Lemma checkMobile_keeps s :
  P s -> P (snd (checkMobilePhoneDetections predictions s)).
Proof.
  intros H.
  unfold checkMobilePhoneDetections, performAdvancedMobileAnalysis,
    updatePersonContext, bind, ofOption, gets, modify, ret, throw.
  destruct (directMobileDetections predictions) as [direct|]; [|exact H].
  destruct (findPerson predictions) as [[person|]|]; [| |exact H].
  - cbn [detectedHands set_lastPersonDetection].
    destruct (advancedDetections _ predictions); cbn [snd];
      now apply person_keeps.
  - destruct (advancedDetections _ predictions); exact H.
Qed.

Lemma checkMisclassified_keeps s :
  P2 s -> Q (snd (checkMisclassifiedObjects predictions currentTime s)).
Proof.
  intros H.
  unfold checkMisclassifiedObjects, bind, ofOption, gets, modify, ret, throw.
  destruct (lowerClasses predictions) as [classed|];
    [|now apply weaken2].
  set (persons := List.filter isPerson classed).
  set (others := List.filter (fun e => negb (isPerson e)) classed).
  pose proof (personOnly_keeps persons others s H) as H1.
  set (s1 := personOnlyStep persons others currentTime s) in *.
  destruct others as [|other more].
  - cbn [snd]. now apply unknown_keeps.
  - destruct (suspiciousItemsCategories s1) as [categories|].
    + cbn [snd]. now apply unknown_keeps.
    + exact H1.
Qed.

Lemma scanRecord_keeps p s : Q s -> Q (fst (scanRecord p s)).
Proof.
  intros H. unfold scanRecord. cbn [fst].
  destruct (suspiciousItemsCategories s); [exact H|].
  now apply install_keeps.
Qed.

Lemma scanRecords_keeps l : forall s, Q s -> Q (fst (scanRecords l s)).
Proof.
  induction l as [|p rest IH]; intros s H; [exact H|].
  cbn [scanRecords].
  pose proof (scanRecord_keeps p s H) as H1.
  destruct (scanRecord p s) as [s1 here]. cbn [fst] in H1.
  specialize (IH s1 H1).
  destruct (scanRecords rest s1) as [s2 more]. exact IH.
Qed.

Lemma checkOther_keeps s :
  P2 s -> Q (snd (checkOtherSuspiciousObjects predictions currentTime s)).
Proof.
  intros H. unfold checkOtherSuspiciousObjects.
  destruct predictions as [|p rest] eqn:E; [now apply weaken2|].
  rewrite <- E. unfold bind.
  pose proof (checkMisclassified_keeps s H) as H1.
  destruct (checkMisclassifiedObjects predictions currentTime s)
    as [[[]|] s1]; cbn [snd] in H1; [|exact H1].
  pose proof (scanRecords_keeps predictions s1 H1) as H2.
  destruct (scanRecords predictions s1) as [s2 found]. exact H2.
Qed.

(** The tick, from a state [s0] on which the mobile check returns a list
    with [D]. *)
Lemma tick_steps s0 :
  (forall ds s',
      checkMobilePhoneDetections predictions s0 = (Returned ds, s') ->
      D ds) ->
  P s0 -> Q (detectObjectsWithAI predictions currentTime s0).
Proof.
  intros HD H.
  unfold detectObjectsWithAI, tryCatch, bind, modify.
  pose proof (checkMobile_keeps s0 H) as H1.
  destruct (checkMobilePhoneDetections predictions s0) as [[ds|] s1] eqn:E1;
    cbn [snd] in H1; [|now apply weaken].
  pose proof (mobile_keeps ds s1 (HD ds s1 eq_refl) H1) as H2.
  set (s2 := processConsecutiveMobileDetections ds currentTime s1) in *.
  pose proof (checkOther_keeps s2 H2) as H3.
  destruct (checkOtherSuspiciousObjects predictions currentTime s2)
    as [[objs|] s3]; cbn [snd] in H3; [|exact H3].
  now apply tracking_keeps, other_keeps.
Qed.

End EngineSteps.

(** ** The counters of the object pipeline *)

Section EngineCounters.

Import Engine.

Ltac bounds :=
  repeat match goal with
         | H : (_ <=? _) = true |- _ => apply Z.leb_le in H
         | H : (_ <=? _) = false |- _ => apply Z.leb_gt in H
         | H : (_ <? _) = true |- _ => apply Z.ltb_lt in H
         | H : (_ <? _) = false |- _ => apply Z.ltb_ge in H
         end.

Ltac constants :=
  unfold Obs.countersOk, Obs.pathwayOk, requiredSuspiciousFrames,
    requiredConsecutiveDetections, allowedMissedFrames,
    unknownObjectThreshold, personOnlyThreshold, violationCooldown,
    suspiciousObjectTimeLimit, misclassifiedObjectThreshold,
    personWithObjectThreshold in *.

Lemma initial_countersOk hands : Obs.countersOk (initial hands).
Proof.
  constants. cbn. repeat split; try lia. exact initial_ok.
Qed.

Lemma processViolationPathways_ok d s :
  Obs.countersOk s -> Obs.countersOk (processViolationPathways d s).
Proof.
  destruct s as [[[c1 t1] [c2 t2] [c3 t3] [c4 t4]] [t c] pd pm lp h m cats
                   tr fc em].
  intros H. unfold Obs.countersOk, Obs.pathwayOk in H. cbn in H.
  destruct H as (H1 & H2 & H3 & H4 & H5 & H6 & H7 & H8 & H9 & Htr).
  unfold processViolationPathways, reached, increment.
  cbn [violationPathways enhancedViolationSystem directMobile
       misclassifiedObject personWithObject highSuspiciousness count
       threshold consecutiveSuspiciousFrames lastSuspiciousObjectTime].
  unfold requiredSuspiciousFrames, requiredConsecutiveDetections,
    allowedMissedFrames, unknownObjectThreshold in *.
  destruct (_ || _);
    [|destruct (misclassifiedObjectThreshold <=? suspiciousnessScore d);
      [|destruct (_ && _);
        [|destruct (150 <=? suspiciousnessScore d);
          [|destruct (50 <=? suspiciousnessScore d)]]]];
    try (destruct (_ <=? _ + 1) eqn:E; bounds);
    unfold Obs.countersOk, Obs.pathwayOk, requiredConsecutiveDetections,
      allowedMissedFrames, unknownObjectThreshold, requiredSuspiciousFrames;
    cbn; repeat split; lia || exact Htr.
Qed.

Lemma detections_ok ds :
  forall s, Obs.countersOk s -> Obs.countersOk (Run.detections ds s).
Proof.
  induction ds as [|d ds IH]; intros s H; [exact H|].
  apply IH, processViolationPathways_ok, H.
Qed.

Lemma resetTimer_ok s :
  Obs.countersOk s -> Obs.countersOk (resetSuspiciousObjectTimer s).
Proof.
  destruct s as [vp [t c] pd pm lp h m cats tr fc em].
  unfold resetSuspiciousObjectTimer. cbn.
  destruct t as [t|]; [|auto]. destruct (t =? 0); auto.
Qed.

Lemma updateTimer_ok now s :
  Obs.countersOk s -> Obs.countersOk (updateSuspiciousObjectTimer now s).
Proof.
  intros H.
  destruct s as [vp [t c] pd pm lp h m cats tr fc em].
  destruct (timer_frame now vp t c pd pm lp h m cats tr fc em)
    as (t' & vs & -> & _).
  exact H.
Qed.

Lemma countersOk_phone s :
  Obs.countersOk s ->
  0 <= phoneDetectedCount s < 3 /\ 0 <= phoneMissedCount s <= 2.
Proof. constants. tauto. Qed.

Lemma set_phoneCounts_ok detected missed s :
  0 <= detected < 3 -> 0 <= missed <= 2 ->
  Obs.countersOk s -> Obs.countersOk (set_phoneCounts detected missed s).
Proof.
  destruct s as [vp e pd pm lp h m cats tr fc em].
  constants. cbn.
  intros Hd Hm (H1 & H2 & H3 & H4 & H5 & H6 & H7 & H8 & H9 & Htr).
  repeat split; lia || exact Htr.
Qed.

Lemma set_phoneCounts_after detected missed v detected' missed' s :
  0 <= detected < 3 -> 0 <= missed <= 2 ->
  Obs.countersOk s ->
  Obs.countersOk
    (set_phoneCounts detected missed
       (triggerViolation v (set_phoneCounts detected' missed' s))).
Proof.
  destruct s as [vp e pd pm lp h m cats tr fc em].
  constants. cbn.
  intros Hd Hm (H1 & H2 & H3 & H4 & H5 & H6 & H7 & H8 & H9 & Htr).
  repeat split; lia || exact Htr.
Qed.

Lemma processConsecutive_ok ds now s :
  Obs.countersOk s ->
  Obs.countersOk (processConsecutiveMobileDetections ds now s).
Proof.
  intros H. unfold processConsecutiveMobileDetections.
  destruct ds as [|d ds].
  - apply resetTimer_ok.
    destruct (countersOk_phone s H) as (Hd & Hm).
    unfold allowedMissedFrames.
    destruct (_ <? _) eqn:E; bounds;
      apply set_phoneCounts_ok; lia || exact H.
  - apply updateTimer_ok.
    pose proof (detections_ok (d :: ds) s H) as H1.
    unfold Run.detections in H1.
    set (s1 := fold_left _ (d :: ds) s) in *.
    destruct (List.filter isDirect (d :: ds)) as [|first others];
      [exact H1|].
    destruct (countersOk_phone s1 H1) as (Hd & Hm).
    unfold requiredConsecutiveDetections.
    destruct (_ <=? _) eqn:E; bounds.
    + apply set_phoneCounts_after; lia || exact H1.
    + apply set_phoneCounts_ok; lia || exact H1.
Qed.

Lemma personOnlyStep_ok persons others now s :
  Obs.countersOk s -> Obs.countersOk (personOnlyStep persons others now s).
Proof.
  destruct s as [vp e pd pm lp h [pf uf lt] cats tr fc em].
  unfold personOnlyStep, triggerViolation,
    set_misclassifiedDetection, set_emitted. constants. cbn. intros (H1 & H2 & H3 & H4 & H5 & H6 & H7 & H8 & H9 & Htr).
  destruct persons as [|person more]; [cbn; repeat split; lia || exact Htr|].
  destruct others as [|other rest]; [|cbn; repeat split; lia || exact Htr].
  destruct (existsb _ _); [|cbn; repeat split; lia || exact Htr].
  destruct (8 <=? pf + 1); [|cbn; repeat split; lia || exact Htr].
  destruct (10000 <=? now - lt); cbn; repeat split; lia || exact Htr.
Qed.

Lemma unknownObjectStep_ok unknown s :
  Obs.countersOk s -> Obs.countersOk (unknownObjectStep unknown s).
Proof.
  destruct s as [vp e pd pm lp h [pf uf lt] cats tr fc em].
  unfold unknownObjectStep, triggerViolation,
    set_misclassifiedDetection, set_emitted. constants. cbn. intros (H1 & H2 & H3 & H4 & H5 & H6 & H7 & H8 & H9 & Htr).
  destruct unknown as [|obj more]; [cbn; repeat split; lia || exact Htr|].
  destruct (5 <=? uf + 1) eqn:E; bounds; cbn; repeat split; lia || exact Htr.
Qed.

Lemma engine_tracking_ok predictions now s :
  Obs.countersOk s ->
  Obs.countersOk (snd (updateObjectTracking predictions now s)).
Proof.
  intros H. unfold updateObjectTracking.
  pose proof (updateObjectTracking_ok predictions now (objectTracker s))
    as K.
  destruct (Tracker.updateObjectTracking predictions now (objectTracker s))
    as [[c tracker] vs].
  cbn [fst snd] in K.
  assert (Hk : Obs.trackedOk tracker) by (apply K; constants; tauto).
  destruct s as [vp e pd pm lp h m cats tr fc em].
  constants.
  destruct H as (H1 & H2 & H3 & H4 & H5 & H6 & H7 & H8 & H9 & Htr).
  destruct c; cbn in *; repeat split; lia || exact Hk.
Qed.

Lemma tick_ok predictions now s :
  Obs.countersOk s -> Obs.countersOk (detectObjectsWithAI predictions now s).
Proof.
  apply (tick_steps (fun _ => True) Obs.countersOk Obs.countersOk
                    Obs.countersOk).
  - intros v [vp e pd pm lp h m cats tr fc em] H. exact H.
  - intros ds s0 _. apply processConsecutive_ok.
  - auto.
  - auto.
  - intros. now apply personOnlyStep_ok.
  - intros. now apply unknownObjectStep_ok.
  - intros [vp e pd pm lp h m cats tr fc em] H. exact H.
  - intros objs [vp e pd pm lp h m cats tr fc em] H. exact H.
  - intros. now apply engine_tracking_ok.
  - auto.
Qed.

(** X9.  Every counter of the object pipeline stays in range over any run
    of object ticks from the constructor's state, whatever the ticks show
    and whether they complete or are cut short by a throw: each pathway
    counter is at least 0 and below its threshold, the sustained-moderate
    counter is in 0..4, the phone counter in 0..2 and its missed counter
    in 0..2, the unknown-object counter in 0..4, the person-only counter
    is not negative, and every tracked type has its count below its
    threshold. *)
Theorem engine_counters_stay_in_range :
  forall hands ticks, Obs.countersOk (Run.ticks ticks (initial hands)).
Proof.
  intros hands ticks.
  assert (H : forall s, Obs.countersOk s -> Obs.countersOk (Run.ticks ticks s)).
  { induction ticks as [|[predictions now] rest IH]; intros s Hs;
      [exact Hs|].
    apply IH. cbn [fst snd]. now apply tick_ok. }
  apply H, initial_countersOk.
Qed.

End EngineCounters.

(** ** What each step of the object tick may touch *)

Section EngineShapes.

Import Engine.

Lemma quiet_app vs vs' :
  forallb Obs.quiet (vs ++ vs')%list
  = forallb Obs.quiet vs && forallb Obs.quiet vs'.
Proof. apply forallb_app. Qed.

Lemma quiet_not kind vs :
  (forall v, Obs.quiet v = true -> kind v = false) ->
  forallb Obs.quiet vs = true -> existsb kind vs = false.
Proof.
  intros Hk. induction vs as [|v vs IH]; [reflexivity|].
  cbn. intros H. apply andb_true_iff in H. destruct H as [Hv Hvs].
  rewrite (Hk v Hv), (IH Hvs). reflexivity.
Qed.

Lemma quiet_not_hidden v : Obs.quiet v = true -> Obs.isHidden v = false.
Proof.
  unfold Obs.quiet. destruct (Obs.isHidden v); [discriminate|reflexivity].
Qed.

Lemma quiet_not_held v : Obs.quiet v = true -> Obs.isHeld v = false.
Proof.
  unfold Obs.quiet. destruct (Obs.isHeld v);
    [rewrite andb_false_r; discriminate|reflexivity].
Qed.

(** The arbiter moves the pathway counters and the sustained counter and
    may report an enhanced violation. *)
Lemma pathways_shape d vp t c pd pm lp h m cats tr fc em :
  exists vp' c' vs,
    processViolationPathways
      d (mkEngine vp (mkEnhanced t c) pd pm lp h m cats tr fc em)
    = mkEngine vp' (mkEnhanced t c') pd pm lp h m cats tr fc (em ++ vs)%list
    /\ forallb Obs.quiet vs = true.
Proof.
  unfold processViolationPathways, triggerEnhancedViolation,
    triggerViolation, resetAllPathways, set_violationPathways,
    set_enhancedViolationSystem, set_emitted.
  cbn [violationPathways enhancedViolationSystem emitted
       consecutiveSuspiciousFrames lastSuspiciousObjectTime
       phoneDetectedCount phoneMissedCount lastPersonDetection
       detectedHands misclassifiedDetection suspiciousItemsCategories
       objectTracker frameCounter].
  destruct (_ || _);
    [|destruct (misclassifiedObjectThreshold <=? suspiciousnessScore d);
      [|destruct (_ && _);
        [|destruct (150 <=? suspiciousnessScore d);
          [|destruct (50 <=? suspiciousnessScore d)]]]];
    try (destruct (reached _));
    try (destruct (requiredSuspiciousFrames <=? _));
    try (do 2 eexists; eexists [_]; split; reflexivity);
    do 2 eexists; exists []; rewrite app_nil_r; split; reflexivity.
Qed.

Lemma detections_shape ds :
  forall vp t c pd pm lp h m cats tr fc em,
  exists vp' c' vs,
    Run.detections
      ds (mkEngine vp (mkEnhanced t c) pd pm lp h m cats tr fc em)
    = mkEngine vp' (mkEnhanced t c') pd pm lp h m cats tr fc (em ++ vs)%list
    /\ forallb Obs.quiet vs = true.
Proof.
  induction ds as [|d ds IH]; intros vp t c pd pm lp h m cats tr fc em.
  - exists vp, c, []. rewrite app_nil_r. split; reflexivity.
  - destruct (pathways_shape d vp t c pd pm lp h m cats tr fc em)
      as (vp1 & c1 & vs1 & E1 & Q1).
    destruct (IH vp1 t c1 pd pm lp h m cats tr fc (em ++ vs1)%list)
      as (vp2 & c2 & vs2 & E2 & Q2).
    exists vp2, c2, (vs1 ++ vs2)%list.
    unfold Run.detections in *. cbn [fold_left]. rewrite E1, E2.
    rewrite app_assoc, quiet_app, Q1, Q2. split; reflexivity.
Qed.

(** The held-object timer: what it reports and where it leaves the
    start time. *)
Lemma timer_shape now vp t c pd pm lp h m cats tr fc em :
  exists t' vs,
    updateSuspiciousObjectTimer
      now (mkEngine vp (mkEnhanced t c) pd pm lp h m cats tr fc em)
    = mkEngine vp (mkEnhanced t' c) pd pm lp h m cats tr fc (em ++ vs)%list
    /\ existsb Obs.isHidden vs = false
    /\ ((vs = [] /\ (t' = t \/ t' = Some now))
        \/ (existsb Obs.isHeld vs = true /\ t' = None
            /\ exists started,
                t = Some started /\ started <> 0
                /\ suspiciousObjectTimeLimit <= now - started)).
Proof.
  unfold updateSuspiciousObjectTimer, resetSuspiciousObjectTimer. cbn.
  destruct t as [t|].
  - destruct (t =? 0) eqn:E.
    + exists (Some now), []. rewrite app_nil_r. repeat split; auto.
    + destruct (_ <=? _) eqn:El.
      * cbn. rewrite ?E. eexists None, [_]. split; [reflexivity|].
        split; [reflexivity|]. right. split; [reflexivity|].
        split; [reflexivity|]. exists t.
        apply Z.eqb_neq in E. apply Z.leb_le in El. auto.
      * exists (Some t), []. rewrite app_nil_r. repeat split; auto.
  - exists (Some now), []. rewrite app_nil_r. repeat split; auto.
Qed.

Lemma resetTimer_shape vp t c pd pm lp h m cats tr fc em :
  exists t',
    resetSuspiciousObjectTimer
      (mkEngine vp (mkEnhanced t c) pd pm lp h m cats tr fc em)
    = mkEngine vp (mkEnhanced t' c) pd pm lp h m cats tr fc em
    /\ (t' = t \/ t' = None).
Proof.
  unfold resetSuspiciousObjectTimer. cbn.
  destruct t as [t|]; [|eauto].
  destruct (t =? 0); eauto.
Qed.

(** The phone counters and the timer: step 2 of the tick. *)
Lemma processConsecutive_shape ds now vp t c pd pm lp h m cats tr fc em :
  exists vp' t' c' pd' pm' vs,
    processConsecutiveMobileDetections
      ds now (mkEngine vp (mkEnhanced t c) pd pm lp h m cats tr fc em)
    = mkEngine vp' (mkEnhanced t' c') pd' pm' lp h m cats tr fc
               (em ++ vs)%list
    /\ existsb Obs.isHidden vs = false
    /\ ((existsb Obs.isHeld vs = false
         /\ (t' = t \/ t' = Some now \/ t' = None))
        \/ (existsb Obs.isHeld vs = true /\ t' = None
            /\ exists started,
                t = Some started /\ started <> 0
                /\ suspiciousObjectTimeLimit <= now - started))
    /\ (ds = [] -> vp' = vp /\ c' = c /\ vs = []).
Proof.
  unfold processConsecutiveMobileDetections.
  destruct ds as [|d ds].
  - cbn [phoneMissedCount phoneDetectedCount].
    assert (Hs : exists pd' pm',
               (if allowedMissedFrames <? pm + 1
                then set_phoneCounts 0 0
                       (mkEngine vp (mkEnhanced t c) pd pm lp h m cats tr fc
                                 em)
                else set_phoneCounts pd (pm + 1)
                       (mkEngine vp (mkEnhanced t c) pd pm lp h m cats tr fc
                                 em))
               = mkEngine vp (mkEnhanced t c) pd' pm' lp h m cats tr fc em).
    { destruct (_ <? _); eexists _, _; reflexivity. }
    destruct Hs as (pd' & pm' & ->).
    destruct (resetTimer_shape vp t c pd' pm' lp h m cats tr fc em)
      as (t' & -> & Ht).
    exists vp, t', c, pd', pm', []. rewrite app_nil_r.
    split; [reflexivity|]. split; [reflexivity|].
    split; [|auto]. left. split; [reflexivity|]. tauto.
  - destruct (detections_shape (d :: ds) vp t c pd pm lp h m cats tr fc em)
      as (vp1 & c1 & vs1 & E1 & Q1).
    unfold Run.detections in E1. rewrite E1.
    cbn [phoneDetectedCount].
    assert (Hs : exists pd' pm' vs2,
               match List.filter isDirect (d :: ds) with
               | [] =>
                   mkEngine vp1 (mkEnhanced t c1) pd pm lp h m cats tr fc
                            (em ++ vs1)%list
               | first :: others =>
                   if requiredConsecutiveDetections <=? pd + 1
                   then
                     set_phoneCounts 0 0
                       (triggerViolation
                          (mkViolation "mobile_phone_detected"
                             (MsgReliableMobile
                                (det_class (fold_left betterScore others
                                                      first)))
                             (if String.eqb
                                   (confidenceLevel
                                      (fold_left betterScore others first))
                                   "high"
                              then high else medium))
                          (set_phoneCounts (pd + 1) 0
                             (mkEngine vp1 (mkEnhanced t c1) pd pm lp h m
                                       cats tr fc (em ++ vs1)%list)))
                   else
                     set_phoneCounts (pd + 1) 0
                       (mkEngine vp1 (mkEnhanced t c1) pd pm lp h m cats tr
                                 fc (em ++ vs1)%list)
               end
               = mkEngine vp1 (mkEnhanced t c1) pd' pm' lp h m cats tr fc
                          (em ++ vs2)%list
               /\ forallb Obs.quiet vs2 = true).
    { destruct (List.filter isDirect (d :: ds)) as [|first others].
      - exists pd, pm, vs1. split; [reflexivity|exact Q1].
      - destruct (_ <=? _).
        + eexists 0, 0, (vs1 ++ [_])%list. rewrite app_assoc.
          split; [reflexivity|]. rewrite quiet_app, Q1. reflexivity.
        + exists (pd + 1), 0, vs1. split; [reflexivity|exact Q1]. }
    destruct Hs as (pd' & pm' & vs2 & -> & Q2).
    destruct (timer_shape now vp1 t c1 pd' pm' lp h m cats tr fc
                          (em ++ vs2)%list)
      as (t' & vs3 & -> & Hh & Ht).
    exists vp1, t', c1, pd', pm', (vs2 ++ vs3)%list.
    rewrite app_assoc. split; [reflexivity|].
    rewrite !existsb_app, Hh.
    rewrite (quiet_not Obs.isHidden vs2 quiet_not_hidden Q2).
    rewrite (quiet_not Obs.isHeld vs2 quiet_not_held Q2).
    split; [reflexivity|]. split; [|discriminate].
    destruct Ht as [(-> & Ht)|(He & -> & Hs)].
    + left. split; [reflexivity|]. tauto.
    + right. rewrite He. auto.
Qed.

(** The person-only counter: scenario 1 of the misclassified-object
    check. *)
Lemma personOnly_shape persons others now vp e pd pm lp h pf uf lt cats tr
      fc em :
  exists pf' lt' vs,
    personOnlyStep persons others now
      (mkEngine vp e pd pm lp h (mkMisclassified pf uf lt) cats tr fc em)
    = mkEngine vp e pd pm lp h (mkMisclassified pf' uf lt') cats tr fc
               (em ++ vs)%list
    /\ existsb Obs.isHeld vs = false
    /\ ((vs = [] /\ lt' = lt)
        \/ (existsb Obs.isHidden vs = true /\ lt' = now
            /\ violationCooldown <= now - lt)).
Proof.
  unfold personOnlyStep, triggerViolation, set_misclassifiedDetection,
    set_emitted. cbn.
  assert (Hnone : forall pf',
             exists pf'' lt' vs,
               mkEngine vp e pd pm lp h (mkMisclassified pf' uf lt) cats tr
                        fc em
               = mkEngine vp e pd pm lp h (mkMisclassified pf'' uf lt') cats
                          tr fc (em ++ vs)%list
               /\ existsb Obs.isHeld vs = false
               /\ ((vs = [] /\ lt' = lt)
                   \/ (existsb Obs.isHidden vs = true /\ lt' = now
                       /\ violationCooldown <= now - lt))).
  { intros pf'. exists pf', lt, []. rewrite app_nil_r. auto. }
  destruct persons as [|person more]; [apply Hnone|].
  destruct others as [|other rest]; [|apply Hnone].
  destruct (existsb _ _); [|apply Hnone].
  destruct (personOnlyThreshold <=? pf + 1); [|apply Hnone].
  destruct (violationCooldown <=? now - lt) eqn:E; [|apply Hnone].
  apply Z.leb_le in E.
  eexists 0, now, [_]. split; [reflexivity|]. split; [reflexivity|].
  right. auto.
Qed.

Lemma unknown_shape unknown vp e pd pm lp h pf uf lt cats tr fc em :
  exists uf' vs,
    unknownObjectStep unknown
      (mkEngine vp e pd pm lp h (mkMisclassified pf uf lt) cats tr fc em)
    = mkEngine vp e pd pm lp h (mkMisclassified pf uf' lt) cats tr fc
               (em ++ vs)%list
    /\ forallb Obs.quiet vs = true.
Proof.
  unfold unknownObjectStep, triggerViolation, set_misclassifiedDetection,
    set_emitted. cbn.
  destruct unknown as [|obj more].
  - eexists _, []. rewrite app_nil_r. split; reflexivity.
  - destruct (_ <=? _).
    + eexists _, [_]. split; reflexivity.
    + eexists _, []. rewrite app_nil_r. split; reflexivity.
Qed.

Lemma other_shape objs vp e pd pm lp h m cats tr fc em :
  exists vs,
    processOtherObjects objs (mkEngine vp e pd pm lp h m cats tr fc em)
    = mkEngine vp e pd pm lp h m cats tr fc (em ++ vs)%list
    /\ forallb Obs.quiet vs = true.
Proof.
  unfold processOtherObjects, triggerViolations, set_emitted. cbn.
  eexists. split; [reflexivity|].
  induction objs as [|obj objs IH]; [reflexivity|exact IH].
Qed.

Lemma trackLoop_quiet t predictions now entries :
  forallb Obs.quiet (snd (Tracker.trackLoop t predictions now entries))
  = true.
Proof.
  induction entries as [|[objectType state] rest IH];
    cbn [Tracker.trackLoop]; [reflexivity|].
  destruct (Tracker.findObjectInPredictions predictions objectType)
    as [found|]; [|reflexivity].
  assert (H1 : forallb Obs.quiet
                       (snd (Tracker.trackType t objectType found now state))
               = true).
  { unfold Tracker.trackType, Tracker.checkObjectViolation.
    destruct (_ && _); reflexivity. }
  destruct (Tracker.trackType t objectType found now state) as [state' vs].
  destruct (Tracker.trackLoop t predictions now rest) as [[c rest'] vs'].
  cbn [snd] in *. rewrite quiet_app, H1, IH. reflexivity.
Qed.

Lemma tracking_shape predictions now vp e pd pm lp h m cats tr fc em :
  exists tr' fc' vs,
    snd (updateObjectTracking predictions now
           (mkEngine vp e pd pm lp h m cats tr fc em))
    = mkEngine vp e pd pm lp h m cats tr' fc' (em ++ vs)%list
    /\ forallb Obs.quiet vs = true.
Proof.
  unfold updateObjectTracking, Tracker.updateObjectTracking.
  cbn [objectTracker].
  pose proof (trackLoop_quiet tr predictions now (Tracker.trackedObjects tr))
    as Hq.
  destruct (Tracker.trackLoop tr predictions now (Tracker.trackedObjects tr))
    as [[c entries] vs]. cbn [snd] in Hq.
  destruct c; eexists _, _, vs; (split; [reflexivity|exact Hq]).
Qed.

End EngineShapes.

(** ** The arbiter inside the engine *)

Section PathwayReset.

Import Engine.

(** Inside the engine the arbiter only sees what the mobile check
    returns: direct detections, which carry 100 points, and advanced
    ones, which carry at least 120.  Pathway 1 or pathway 2 takes each of
    them, so the branch that counts moderately suspicious frames is never
    entered and its counter stays where the constructor has put it. *)
Lemma detections_keep_sustained ds :
  forall s,
    Forall (fun d => misclassifiedObjectThreshold <= suspiciousnessScore d) ds ->
    Run.sustained (Run.detections ds s) = Run.sustained s.
Proof.
  induction ds as [|d ds IH]; intros s H; [reflexivity|].
  inversion H as [|? ? Hd Hds]; subst.
  unfold Run.detections in *. cbn [fold_left].
  rewrite (IH _ Hds). now apply high_points_keep_sustained.
Qed.

Lemma checkMobile_points predictions s ds s1 :
  checkMobilePhoneDetections predictions s = (Returned ds, s1) ->
  Forall (fun d => misclassifiedObjectThreshold <= suspiciousnessScore d) ds
  /\ Run.sustained s1 = Run.sustained s.
Proof.
  unfold checkMobilePhoneDetections, performAdvancedMobileAnalysis,
    updatePersonContext, bind, ofOption, gets, modify, ret, throw.
  destruct (directMobileDetections predictions) as [direct|] eqn:Ed;
    [|discriminate].
  pose proof (direct_points _ _ Ed) as Hd.
  assert (Hd' : Forall (fun d => misclassifiedObjectThreshold
                                 <= suspiciousnessScore d) direct).
  { eapply Forall_impl; [exact Hd|]. intros d E. cbn beta in E.
    rewrite E. unfold misclassifiedObjectThreshold. lia. }
  assert (Ha : forall hands advanced,
             advancedDetections hands predictions = Some advanced ->
             Forall (fun d => misclassifiedObjectThreshold
                              <= suspiciousnessScore d) advanced).
  { intros hands advanced E.
    eapply Forall_impl; [exact (advanced_points _ _ _ E)|].
    intros d H. cbn beta in H.
    unfold misclassifiedObjectThreshold, suspiciousnessThreshold in *. lia. }
  destruct (findPerson predictions) as [[person|]|]; [| |discriminate].
  - cbn [detectedHands set_lastPersonDetection].
    destruct (advancedDetections _ predictions) as [advanced|] eqn:Ea;
      [|discriminate].
    intros E. injection E as <- <-. split; [|reflexivity].
    apply Forall_app. split; [exact Hd'|]. exact (Ha _ _ Ea).
  - destruct (advancedDetections _ predictions) as [advanced|] eqn:Ea;
      [|discriminate].
    intros E. injection E as <- <-. split; [|reflexivity].
    apply Forall_app. split; [exact Hd'|]. exact (Ha _ _ Ea).
Qed.

Lemma timer_keeps_sustained now s :
  Run.sustained (updateSuspiciousObjectTimer now s) = Run.sustained s.
Proof.
  destruct s as [vp [t c] pd pm lp h m cats tr fc em].
  destruct (timer_shape now vp t c pd pm lp h m cats tr fc em)
    as (t' & vs & -> & _). reflexivity.
Qed.

Lemma resetTimer_keeps_sustained s :
  Run.sustained (resetSuspiciousObjectTimer s) = Run.sustained s.
Proof.
  unfold resetSuspiciousObjectTimer.
  destruct (lastSuspiciousObjectTime _) as [t|]; [|reflexivity].
  destruct (t =? 0); reflexivity.
Qed.

Lemma processConsecutive_keeps_sustained ds now s :
  Forall (fun d => misclassifiedObjectThreshold <= suspiciousnessScore d) ds ->
  Run.sustained (processConsecutiveMobileDetections ds now s)
  = Run.sustained s.
Proof.
  intros H. unfold processConsecutiveMobileDetections.
  destruct ds as [|d ds].
  - rewrite resetTimer_keeps_sustained.
    destruct (_ <? _); reflexivity.
  - rewrite timer_keeps_sustained.
    pose proof (detections_keep_sustained (d :: ds) s H) as K.
    unfold Run.detections in K.
    destruct (List.filter isDirect (d :: ds)); [exact K|].
    destruct (_ <=? _); exact K.
Qed.

Lemma tick_keeps_sustained predictions now s :
  Run.sustained (detectObjectsWithAI predictions now s) = Run.sustained s.
Proof.
  set (K := fun s' => Run.sustained s' = Run.sustained s).
  apply (tick_steps
           (Forall (fun d => misclassifiedObjectThreshold
                             <= suspiciousnessScore d)) K K K);
    subst K; cbn beta.
  - intros v [vp e pd pm lp h m cats tr fc em] H. exact H.
  - intros ds s' Hd H.
    rewrite processConsecutive_keeps_sustained by exact Hd. exact H.
  - auto.
  - auto.
  - intros persons others [vp e pd pm lp h [pf uf lt] cats tr fc em] H.
    destruct (personOnly_shape persons others now vp e pd pm lp h pf uf lt
                               cats tr fc em)
      as (pf' & lt' & vs & -> & _). exact H.
  - intros unknown [vp e pd pm lp h [pf uf lt] cats tr fc em] H.
    destruct (unknown_shape unknown vp e pd pm lp h pf uf lt cats tr fc em)
      as (uf' & vs & -> & _). exact H.
  - intros [vp e pd pm lp h m cats tr fc em] H. exact H.
  - intros objs [vp e pd pm lp h m cats tr fc em] H.
    destruct (other_shape objs vp e pd pm lp h m cats tr fc em)
      as (vs & -> & _). exact H.
  - intros [vp e pd pm lp h m cats tr fc em] H.
    destruct (tracking_shape predictions now vp e pd pm lp h m cats tr fc em)
      as (tr' & fc' & vs & -> & _). exact H.
  - intros ds s' E. exact (proj1 (checkMobile_points _ _ _ _ E)).
  - reflexivity.
Qed.

Lemma ticks_keep_sustained ticks :
  forall s, Run.sustained (Run.ticks ticks s) = Run.sustained s.
Proof.
  induction ticks as [|[predictions now] rest IH]; intros s; [reflexivity|].
  unfold Run.ticks in *. cbn [fold_left fst snd].
  rewrite IH. apply tick_keeps_sustained.
Qed.

(** Hence the counter is 0 in every state that a run of object ticks
    reaches from the constructor's. *)
Lemma sustained_stays_zero hands ticks :
  Run.sustained (Run.ticks ticks (initial hands)) = 0.
Proof. rewrite ticks_keep_sustained. reflexivity. Qed.

(** A firing at a call the engine makes. *)
Lemma firing_with_high_points d s :
  misclassifiedObjectThreshold <= suspiciousnessScore d ->
  Run.sustained s = 0 ->
  let s' := processViolationPathways d s in
  emitted s' = emitted s
  \/ exists msg sev,
      emitted s'
      = (emitted s ++ [mkViolation "mobile_phone_detected" msg sev])%list
      /\ Run.counts s' = [0; 0; 0; 0]
      /\ Run.sustained s' = 0.
Proof.
  intros Hp Hs. cbv zeta. unfold processViolationPathways.
  destruct (_ || _).
  - destruct (reached _); [|left; reflexivity].
    right. eexists _, _. split; [reflexivity|].
    split; [reflexivity|exact Hs].
  - apply Z.leb_le in Hp. rewrite Hp.
    destruct (reached _); [|left; reflexivity].
    right. eexists _, _. split; [reflexivity|].
    split; [reflexivity|exact Hs].
Qed.

(** C4.  Whenever a pathway fires inside the engine, all pathway
    counters, the counter of the sustained-moderate rule included, are 0
    afterwards.  [resetAllPathways] zeroes the four pathway counters.
    The counter of the sustained-moderate rule is 0 at construction and no
    object tick changes it, in whatever state the tick starts and whether
    it completes or throws.  [processConsecutiveMobileDetections] hands
    the list [ds] that the mobile check returned to the arbiter element by
    element, so that the call for the element at index [k] starts in
    [Run.detections (firstn k ds) s1]: at each such call, from a state
    whose sustained-moderate counter is 0, either nothing is emitted or
    exactly one violation is, and then all five counters are 0.  In the
    scenario, a record of class "cell phone" and score 0.65 that the
    mobile scorer keeps below 120 points (no box, or a box that is not
    phone-like), on three successive ticks of a fresh engine, pathway 1
    fires on the third tick and not before, with severity high, and all
    five counters are 0 afterwards. *)
Theorem pathway_firing_resets :
  (forall hands, Run.sustained (initial hands) = 0)
  /\ (forall predictions now s,
         Run.sustained (detectObjectsWithAI predictions now s)
         = Run.sustained s)
  /\ (forall predictions s ds s1 k d,
         Run.sustained s = 0 ->
         checkMobilePhoneDetections predictions s = (Returned ds, s1) ->
         nth_error ds k = Some d ->
         let before := Run.detections (firstn k ds) s1 in
         let after := processViolationPathways d before in
         emitted after = emitted before
         \/ exists msg sev,
             emitted after
             = (emitted before
                ++ [mkViolation "mobile_phone_detected" msg sev])%list
             /\ Run.counts after = [0; 0; 0; 0]
             /\ Run.sustained after = 0)
  /\ (forall (hands : list Scorer.Hand) (box alt : option (Q * Q * Q * Q))
             (points n1 n2 n3 : Z),
         let p :=
           mkPrediction (Some "cell phone") (Some (65 # 100)%Q) box alt in
         Scorer.calculateSuspiciousnessScore hands p = Some points ->
         points < suspiciousnessThreshold ->
         let s2 := Run.ticks [([p], n1); ([p], n2)] (initial hands) in
         let s3 := detectObjectsWithAI [p] n3 s2 in
         Run.directFirings s2 = []
         /\ Run.directFirings s3
            = [mkViolation "mobile_phone_detected"
                           (MsgDirectMobile "cell phone") high]
         /\ Run.counts s3 = [0; 0; 0; 0]
         /\ Run.sustained s3 = 0).
Proof.
  split; [reflexivity|].
  split; [exact tick_keeps_sustained|].
  split; [|exact cell_phone_three_ticks].
  intros predictions s ds s1 k d Hs Hm Hk.
  destruct (checkMobile_points _ _ _ _ Hm) as (Hall & Hs1).
  apply firing_with_high_points.
  - rewrite List.Forall_forall in Hall. apply Hall.
    eapply nth_error_In. exact Hk.
  - rewrite detections_keep_sustained.
    + rewrite Hs1. exact Hs.
    + apply Forall_take. exact Hall.
Qed.

Lemma pathway_firing_resets_witness :
  let p := mkPrediction (Some "cell phone") (Some (65 # 100)%Q) None None in
  let d := mkDetection "cell phone" (Some (65 # 100)%Q) "high" 100 None in
  let s2 := Run.ticks [([p], 3000); ([p], 6000)] (initial []) in
  let s3 := detectObjectsWithAI [p] 9000 s2 in
  let before := Run.detections (firstn 0 [d]) s2 in
  let after := processViolationPathways d before in
  (Run.directFirings s2 = []
   /\ Run.directFirings s3
      = [mkViolation "mobile_phone_detected" (MsgDirectMobile "cell phone")
                     high]
   /\ Run.counts s3 = [0; 0; 0; 0]
   /\ Run.sustained s3 = 0)
  /\ (emitted after = emitted before
      \/ exists msg sev,
          emitted after
          = (emitted before
             ++ [mkViolation "mobile_phone_detected" msg sev])%list
          /\ Run.counts after = [0; 0; 0; 0]
          /\ Run.sustained after = 0)
  /\ emitted after <> emitted before.
Proof.
  cbv zeta. split; [|split].
  - refine (proj2 (proj2 (proj2 pathway_firing_resets))
                  [] None None 0 3000 6000 9000 eq_refl _).
    unfold suspiciousnessThreshold. lia.
  - refine (proj1 (proj2 (proj2 pathway_firing_resets))
                  [mkPrediction (Some "cell phone") (Some (65 # 100)%Q)
                                None None]
                  (Run.ticks
                     [([mkPrediction (Some "cell phone") (Some (65 # 100)%Q)
                                     None None], 3000);
                      ([mkPrediction (Some "cell phone") (Some (65 # 100)%Q)
                                     None None], 6000)] (initial []))
                  [mkDetection "cell phone" (Some (65 # 100)%Q) "high" 100
                               None]
                  _ 0%nat _ _ _ eq_refl).
    + vm_compute. reflexivity.
    + vm_compute. reflexivity.
  - vm_compute. discriminate.
Defined.

End PathwayReset.

(** ** Pathway counters, cooldowns and timers over whole ticks *)

Section EngineTicks.

Import Engine.

Lemma added_app s s' vs :
  emitted s' = (emitted s ++ vs)%list -> Obs.added s s' = vs.
Proof.
  intros H. unfold Obs.added. rewrite H. clear H.
  induction (emitted s) as [|v em IH]; [reflexivity|exact IH].
Qed.

(** X10.  The pathway counters are cumulative, not consecutive.  A tick
    on which the mobile check returns no detection leaves the four pathway
    counters and the sustained-moderate counter exactly as they were,
    whatever else the tick shows and whether a later step throws: counts
    gathered before a gap are still there after it. *)
Theorem tick_without_mobile_detection_keeps_pathways :
  forall predictions now s,
    (forall ds, fst (checkMobilePhoneDetections predictions s) = Returned ds
                -> ds = []) ->
    violationPathways (detectObjectsWithAI predictions now s)
    = violationPathways s
    /\ Run.sustained (detectObjectsWithAI predictions now s)
       = Run.sustained s.
Proof.
  intros predictions now s Hd.
  set (K := fun s' => violationPathways s' = violationPathways s
                      /\ Run.sustained s' = Run.sustained s).
  apply (tick_steps (fun ds => ds = []) K K K); subst K; cbn beta.
  - intros v [vp e pd pm lp h m cats tr fc em] H. exact H.
  - intros ds [vp [t c] pd pm lp h m cats tr fc em] -> H.
    destruct (processConsecutive_shape [] now vp t c pd pm lp h m cats tr fc
                                       em)
      as (vp' & t' & c' & pd' & pm' & vs & -> & _ & _ & Hk).
    destruct (Hk eq_refl) as (-> & -> & _). exact H.
  - auto.
  - auto.
  - intros persons others [vp e pd pm lp h [pf uf lt] cats tr fc em] H.
    destruct (personOnly_shape persons others now vp e pd pm lp h pf uf lt
                               cats tr fc em)
      as (pf' & lt' & vs & -> & _). exact H.
  - intros unknown [vp e pd pm lp h [pf uf lt] cats tr fc em] H.
    destruct (unknown_shape unknown vp e pd pm lp h pf uf lt cats tr fc em)
      as (uf' & vs & -> & _). exact H.
  - intros [vp e pd pm lp h m cats tr fc em] H. exact H.
  - intros objs [vp e pd pm lp h m cats tr fc em] H.
    destruct (other_shape objs vp e pd pm lp h m cats tr fc em)
      as (vs & -> & _). exact H.
  - intros [vp e pd pm lp h m cats tr fc em] H.
    destruct (tracking_shape predictions now vp e pd pm lp h m cats tr fc em)
      as (tr' & fc' & vs & -> & _). exact H.
  - intros ds s' E. apply Hd. rewrite E. reflexivity.
  - auto.
Qed.

Lemma tick_without_mobile_detection_keeps_pathways_witness :
  violationPathways
    (detectObjectsWithAI
       [Run.record "person" (9 # 10)] 3000
       (detectObjectsWithAI [Run.record "cell phone" (9 # 10)] 2000
                            (initial [])))
  = violationPathways
      (detectObjectsWithAI [Run.record "cell phone" (9 # 10)] 2000
                           (initial []))
  /\ Run.sustained
       (detectObjectsWithAI
          [Run.record "person" (9 # 10)] 3000
          (detectObjectsWithAI [Run.record "cell phone" (9 # 10)] 2000
                               (initial [])))
     = Run.sustained
         (detectObjectsWithAI [Run.record "cell phone" (9 # 10)] 2000
                              (initial [])).
Proof.
  apply tick_without_mobile_detection_keeps_pathways.
  intros ds H. vm_compute in H. congruence.
Defined.

(** One tick and the hidden-object cooldown. *)
Lemma hidden_tick predictions now s :
  exists vs,
    emitted (detectObjectsWithAI predictions now s)
    = (emitted s ++ vs)%list
    /\ ((existsb Obs.isHidden vs = false
         /\ lastViolationTime
              (misclassifiedDetection (detectObjectsWithAI predictions now s))
            = lastViolationTime (misclassifiedDetection s))
        \/ (existsb Obs.isHidden vs = true
            /\ lastViolationTime
                 (misclassifiedDetection
                    (detectObjectsWithAI predictions now s))
               = now
            /\ violationCooldown
               <= now - lastViolationTime (misclassifiedDetection s))).
Proof.
  set (lt0 := lastViolationTime (misclassifiedDetection s)).
  set (P := fun s' =>
              exists vs,
                emitted s' = (emitted s ++ vs)%list
                /\ existsb Obs.isHidden vs = false
                /\ lastViolationTime (misclassifiedDetection s') = lt0).
  set (Q := fun s' =>
              exists vs,
                emitted s' = (emitted s ++ vs)%list
                /\ ((existsb Obs.isHidden vs = false
                     /\ lastViolationTime (misclassifiedDetection s') = lt0)
                    \/ (existsb Obs.isHidden vs = true
                        /\ lastViolationTime (misclassifiedDetection s')
                           = now
                        /\ violationCooldown <= now - lt0))).
  assert (Hquiet : forall s1 s2 vs',
             emitted s2 = (emitted s1 ++ vs')%list ->
             forallb Obs.quiet vs' = true ->
             lastViolationTime (misclassifiedDetection s2)
             = lastViolationTime (misclassifiedDetection s1) ->
             Q s1 -> Q s2).
  { intros s1 s2 vs' He Hq Hl (vs & E & H). exists (vs ++ vs')%list.
    rewrite He, E, app_assoc. split; [reflexivity|].
    rewrite existsb_app, (quiet_not Obs.isHidden vs' quiet_not_hidden Hq),
      orb_false_r, Hl. exact H. }
  apply (tick_steps (fun _ => True) P P Q).
  - intros v [vp e pd pm lp h m cats tr fc em] H. exact H.
  - intros ds [vp [t c] pd pm lp h m cats tr fc em] _ (vs & E & Hh & Hl).
    destruct (processConsecutive_shape ds now vp t c pd pm lp h m cats tr fc
                                       em)
      as (vp' & t' & c' & pd' & pm' & vs' & -> & Hh' & _).
    exists (vs ++ vs')%list. cbn in *. rewrite E, app_assoc.
    split; [reflexivity|]. rewrite existsb_app, Hh, Hh'. auto.
  - intros s' (vs & E & H). exists vs. auto.
  - intros s' (vs & E & H). exists vs. auto.
  - intros persons others [vp e pd pm lp h [pf uf lt] cats tr fc em]
           (vs & E & Hh & Hl).
    destruct (personOnly_shape persons others now vp e pd pm lp h pf uf lt
                               cats tr fc em)
      as (pf' & lt' & vs' & -> & _ & H).
    exists (vs ++ vs')%list. cbn in *. rewrite E, app_assoc.
    split; [reflexivity|]. rewrite existsb_app, Hh. cbn [orb].
    destruct H as [(-> & ->)|(Hv & -> & Hc)].
    + left. auto.
    + right. rewrite <- Hl. auto.
  - intros unknown [vp e pd pm lp h [pf uf lt] cats tr fc em].
    destruct (unknown_shape unknown vp e pd pm lp h pf uf lt cats tr fc em)
      as (uf' & vs' & -> & Hq).
    apply (Hquiet _ _ vs'); [reflexivity|exact Hq|reflexivity].
  - intros [vp e pd pm lp h m cats tr fc em] H. exact H.
  - intros objs [vp e pd pm lp h m cats tr fc em].
    destruct (other_shape objs vp e pd pm lp h m cats tr fc em)
      as (vs' & -> & Hq).
    apply (Hquiet _ _ vs'); [reflexivity|exact Hq|reflexivity].
  - intros [vp e pd pm lp h m cats tr fc em].
    destruct (tracking_shape predictions now vp e pd pm lp h m cats tr fc em)
      as (tr' & fc' & vs' & -> & Hq).
    apply (Hquiet _ _ vs'); [reflexivity|exact Hq|reflexivity].
  - auto.
  - exists []. rewrite app_nil_r. auto.
Qed.

(** X11.  Hidden-object violations keep their cooldown over whole runs.
    Over any sequence of object ticks, from any engine state and with any
    clock, two ticks that report a hidden object (a person seen alone)
    have clock readings at least 10000 ms apart, and the first of them
    comes at least 10000 ms after the stored time of the last such
    violation. *)
Theorem hidden_object_violations_are_spaced :
  forall ticks s,
    Run.startsAfter
      (lastViolationTime (misclassifiedDetection s) + violationCooldown)
      (Obs.emissionTimes Obs.isHidden ticks s)
    /\ Run.spaced violationCooldown
                  (Obs.emissionTimes Obs.isHidden ticks s).
Proof.
  induction ticks as [|[predictions now] rest IH]; intros s.
  - cbn. auto.
  - cbn [Obs.emissionTimes].
    destruct (hidden_tick predictions now s) as (vs & E & H).
    rewrite (added_app _ _ vs E).
    specialize (IH (detectObjectsWithAI predictions now s)).
    destruct H as [(-> & Hl)|(-> & Hl & Hc)].
    + rewrite Hl in IH. exact IH.
    + rewrite Hl in IH. destruct IH as (IH1 & IH2).
      cbn [Run.startsAfter Run.spaced]. repeat split; auto. lia.
Qed.

(** One tick and the held-object timer. *)
Lemma held_tick predictions now s :
  exists vs,
    emitted (detectObjectsWithAI predictions now s)
    = (emitted s ++ vs)%list
    /\ ((existsb Obs.isHeld vs = false
         /\ (lastSuspiciousObjectTime
               (enhancedViolationSystem
                  (detectObjectsWithAI predictions now s))
             = lastSuspiciousObjectTime (enhancedViolationSystem s)
             \/ lastSuspiciousObjectTime
                  (enhancedViolationSystem
                     (detectObjectsWithAI predictions now s))
                = Some now
             \/ lastSuspiciousObjectTime
                  (enhancedViolationSystem
                     (detectObjectsWithAI predictions now s))
                = None))
        \/ (existsb Obs.isHeld vs = true
            /\ lastSuspiciousObjectTime
                 (enhancedViolationSystem
                    (detectObjectsWithAI predictions now s))
               = None
            /\ exists started,
                lastSuspiciousObjectTime (enhancedViolationSystem s)
                = Some started
                /\ started <> 0
                /\ suspiciousObjectTimeLimit <= now - started)).
Proof.
  set (t0 := lastSuspiciousObjectTime (enhancedViolationSystem s)).
  set (P := fun s' =>
              exists vs,
                emitted s' = (emitted s ++ vs)%list
                /\ existsb Obs.isHeld vs = false
                /\ lastSuspiciousObjectTime (enhancedViolationSystem s')
                   = t0).
  set (Q := fun s' =>
              exists vs,
                emitted s' = (emitted s ++ vs)%list
                /\ ((existsb Obs.isHeld vs = false
                     /\ (lastSuspiciousObjectTime
                           (enhancedViolationSystem s') = t0
                         \/ lastSuspiciousObjectTime
                              (enhancedViolationSystem s') = Some now
                         \/ lastSuspiciousObjectTime
                              (enhancedViolationSystem s') = None))
                    \/ (existsb Obs.isHeld vs = true
                        /\ lastSuspiciousObjectTime
                             (enhancedViolationSystem s') = None
                        /\ exists started,
                            t0 = Some started /\ started <> 0
                            /\ suspiciousObjectTimeLimit
                               <= now - started))).
  assert (Hquiet : forall s1 s2 vs',
             emitted s2 = (emitted s1 ++ vs')%list ->
             existsb Obs.isHeld vs' = false ->
             lastSuspiciousObjectTime (enhancedViolationSystem s2)
             = lastSuspiciousObjectTime (enhancedViolationSystem s1) ->
             Q s1 -> Q s2).
  { intros s1 s2 vs' He Hq Hl (vs & E & H). exists (vs ++ vs')%list.
    rewrite He, E, app_assoc. split; [reflexivity|].
    rewrite existsb_app, Hq, orb_false_r, Hl. exact H. }
  apply (tick_steps (fun _ => True) P Q Q).
  - intros v [vp e pd pm lp h m cats tr fc em] H. exact H.
  - intros ds [vp [t c] pd pm lp h m cats tr fc em] _ (vs & E & Hh & Hl).
    destruct (processConsecutive_shape ds now vp t c pd pm lp h m cats tr fc
                                       em)
      as (vp' & t' & c' & pd' & pm' & vs' & -> & _ & H & _).
    exists (vs ++ vs')%list. cbn in *. rewrite E, app_assoc.
    split; [reflexivity|]. rewrite existsb_app, Hh. cbn [orb].
    rewrite <- Hl. exact H.
  - intros s' (vs & E & Hh & Hl). exists vs. auto.
  - auto.
  - intros persons others [vp e pd pm lp h [pf uf lt] cats tr fc em].
    destruct (personOnly_shape persons others now vp e pd pm lp h pf uf lt
                               cats tr fc em)
      as (pf' & lt' & vs' & -> & Hh & _).
    apply (Hquiet _ _ vs'); [reflexivity|exact Hh|reflexivity].
  - intros unknown [vp e pd pm lp h [pf uf lt] cats tr fc em].
    destruct (unknown_shape unknown vp e pd pm lp h pf uf lt cats tr fc em)
      as (uf' & vs' & -> & Hq).
    apply (Hquiet _ _ vs');
      [reflexivity|exact (quiet_not _ _ quiet_not_held Hq)|reflexivity].
  - intros [vp e pd pm lp h m cats tr fc em] H. exact H.
  - intros objs [vp e pd pm lp h m cats tr fc em].
    destruct (other_shape objs vp e pd pm lp h m cats tr fc em)
      as (vs' & -> & Hq).
    apply (Hquiet _ _ vs');
      [reflexivity|exact (quiet_not _ _ quiet_not_held Hq)|reflexivity].
  - intros [vp e pd pm lp h m cats tr fc em].
    destruct (tracking_shape predictions now vp e pd pm lp h m cats tr fc em)
      as (tr' & fc' & vs' & -> & Hq).
    apply (Hquiet _ _ vs');
      [reflexivity|exact (quiet_not _ _ quiet_not_held Hq)|reflexivity].
  - auto.
  - exists []. rewrite app_nil_r. auto.
Qed.

Lemma clockFrom_weaken times :
  forall bound bound',
    bound <= bound' -> Obs.clockFrom bound' times ->
    Obs.clockFrom bound times.
Proof.
  destruct times as [|t rest]; [auto|].
  cbn. intros bound bound' Hb (H1 & H2). split; [lia|exact H2].
Qed.

(** X12.  Held-object violations are at least 3000 ms apart.  Over any
    sequence of object ticks whose clock readings never go back, from a
    state whose timer (if it runs) was started at [bound] or later, the
    ticks that report an object held have clock readings at least 3000 ms
    apart, the first of them at least 3000 ms after [bound]. *)
Theorem held_object_violations_are_spaced :
  forall ticks s bound,
    (forall started,
        lastSuspiciousObjectTime (enhancedViolationSystem s) = Some started ->
        started <> 0 -> bound <= started) ->
    Obs.clockFrom bound (map snd ticks) ->
    Run.startsAfter (bound + suspiciousObjectTimeLimit)
                    (Obs.emissionTimes Obs.isHeld ticks s)
    /\ Run.spaced suspiciousObjectTimeLimit
                  (Obs.emissionTimes Obs.isHeld ticks s).
Proof.
  induction ticks as [|[predictions now] rest IH]; intros s bound Hs Hc.
  - cbn. auto.
  - cbn [Obs.emissionTimes].
    cbn [map snd Obs.clockFrom] in Hc. destruct Hc as (Hb & Hc).
    destruct (held_tick predictions now s) as (vs & E & H).
    rewrite (added_app _ _ vs E).
    set (s' := detectObjectsWithAI predictions now s) in *.
    destruct H as [(-> & Ht)|(-> & Ht & started & Hst & Hne & Hlim)].
    + apply (IH s' bound).
      * intros started Hst Hne.
        destruct Ht as [Ht|[Ht|Ht]]; rewrite Ht in Hst.
        -- now apply Hs.
        -- injection Hst as <-. exact Hb.
        -- discriminate.
      * now apply (clockFrom_weaken (map snd rest) bound now).
    + specialize (Hs started Hst Hne).
      destruct (IH s' now) as (IH1 & IH2).
      * intros started' Hst'. rewrite Ht in Hst'. discriminate.
      * exact Hc.
      * cbn [Run.startsAfter Run.spaced]. repeat split; auto. lia.
Qed.

Lemma held_object_violations_are_spaced_witness :
  Run.startsAfter
    (1000 + suspiciousObjectTimeLimit)
    (Obs.emissionTimes
       Obs.isHeld
       [([Run.record "cell phone" (9 # 10)], 1000);
        ([Run.record "cell phone" (9 # 10)], 2500);
        ([Run.record "cell phone" (9 # 10)], 4000)]
       (initial []))
  /\ Run.spaced
       suspiciousObjectTimeLimit
       (Obs.emissionTimes
          Obs.isHeld
          [([Run.record "cell phone" (9 # 10)], 1000);
           ([Run.record "cell phone" (9 # 10)], 2500);
           ([Run.record "cell phone" (9 # 10)], 4000)]
          (initial [])).
Proof.
  apply held_object_violations_are_spaced.
  - intros started H. discriminate H.
  - cbn. lia.
Defined.

End EngineTicks.

(** ** The focus machine over whole runs *)

Section FocusRuns.

Import Focus.

(** The states in which the focus fields agree: idle, without a face
    (warned or not), looking away (warned or not). *)
Lemma focusOk_forms s :
  Obs.focusOk s = true ->
  exists t lf,
    s = mkFocus None None false false false None lf
    \/ s = mkFocus None (Some t) false true false None lf
    \/ s = mkFocus None (Some t) false true true (Some "no_face") lf
    \/ s = mkFocus (Some t) None true false false None lf
    \/ s = mkFocus (Some t) None true false true (Some "looking_away") lf.
Proof.
  destruct s as [la nf fl fn sh ty lf]. unfold Obs.focusOk.
  cbn [isCurrentlyNoFace isCurrentlyLookingAway noFaceStartTime
       lookingAwayStartTime showFocusWarning focusWarningType].
  destruct la as [t1|], nf as [t2|], fl, fn; cbn [Bool.eqb andb negb];
    try discriminate.
  - destruct sh, ty as [w|]; cbn [andb orb negb]; try discriminate.
    + rewrite andb_false_r. cbn [orb]. rewrite andb_true_r.
      intros H. apply String.eqb_eq in H. subst w.
      exists t1, lf. tauto.
    + intros _. exists t1, lf. tauto.
  - destruct sh, ty as [w|]; cbn [andb orb negb]; try discriminate.
    + rewrite andb_false_r, orb_false_r, andb_true_r.
      intros H. apply String.eqb_eq in H. subst w.
      exists t2, lf. tauto.
    + intros _. exists t2, lf. tauto.
  - destruct sh, ty as [w|]; cbn [andb orb negb]; try discriminate.
    + rewrite !andb_false_r. discriminate.
    + intros _. exists 0, lf. tauto.
Qed.

Lemma focusOk_tick faces now s :
  Obs.focusOk s = true ->
  Obs.focusOk (fst (processFocusDetection faces now s)) = true.
Proof.
  intros H. destruct (focusOk_forms s H) as (t & lf & Hs).
  destruct faces as [|face [|face' more]]; cbn [processFocusDetection].
  - unfold handleNoFaceDetection.
    destruct Hs as [-> | [-> | [-> | [-> | ->]]]]; cbn;
      try destruct (noFaceThreshold <=? _); reflexivity.
  - unfold handleSingleFaceDetection.
    generalize (JS.gt (JS.abs (calculateHeadAngle face))
                      (JS.Fin headAngleThreshold)).
    intros away.
    destruct Hs as [-> | [-> | [-> | [-> | ->]]]]; destruct away; cbn;
      try destruct (lookingAwayThreshold <=? _); reflexivity.
  - destruct Hs as [-> | [-> | [-> | [-> | ->]]]]; reflexivity.
Qed.

(** X13.  The focus fields stay consistent with each other.  From the
    constructor's state, and from any state in which they agree, they
    agree after any sequence of focus ticks, whatever the faces and the
    clock: a flag is set exactly when its timer runs, the two flags are
    not both set, and a warning is on display exactly when a warning type
    is stored, the type then being that of the flag that is set.  A
    warning never outlives the condition it reports. *)
Theorem focus_fields_stay_consistent :
  forall ticks s,
    Obs.focusOk s = true ->
    Obs.focusOk
      (fold_left
         (fun acc tick =>
            fst (processFocusDetection (fst tick) (snd tick) acc))
         ticks s)
    = true.
Proof.
  induction ticks as [|[faces now] rest IH]; intros s H; [exact H|].
  cbn [fold_left fst snd]. apply IH. now apply focusOk_tick.
Qed.

Lemma focus_fields_stay_consistent_witness :
  Obs.focusOk
    (fold_left
       (fun acc tick =>
          fst (processFocusDetection (fst tick) (snd tick) acc))
       [([], 1000); ([], 12000); ([mkFace None], 13000);
        ([mkFace None; mkFace None], 14000)]
       (initial 0))
  = true.
Proof.
  apply focus_fields_stay_consistent. reflexivity.
Defined.

(** One tick and the no-face timer. *)
Lemma noFace_tick faces now s :
  Obs.focusOk s = true ->
  (existsb Obs.isNoFace (snd (processFocusDetection faces now s)) = false
   /\ (noFaceStartTime (fst (processFocusDetection faces now s))
       = noFaceStartTime s
       \/ noFaceStartTime (fst (processFocusDetection faces now s))
          = Some now
       \/ noFaceStartTime (fst (processFocusDetection faces now s)) = None))
  \/ (existsb Obs.isNoFace (snd (processFocusDetection faces now s)) = true
      /\ noFaceStartTime (fst (processFocusDetection faces now s)) = Some now
      /\ exists started,
          noFaceStartTime s = Some started
          /\ noFaceThreshold <= now - started).
Proof.
  intros H. destruct (focusOk_forms s H) as (t & lf & Hs).
  destruct faces as [|face [|face' more]]; cbn [processFocusDetection].
  - unfold handleNoFaceDetection.
    destruct Hs as [-> | [-> | [-> | [-> | ->]]]]; cbn;
      try (destruct (noFaceThreshold <=? _) eqn:E; cbn;
           [apply Z.leb_le in E; right; eauto|]);
      left; auto.
  - unfold handleSingleFaceDetection.
    generalize (JS.gt (JS.abs (calculateHeadAngle face))
                      (JS.Fin headAngleThreshold)).
    intros away.
    destruct Hs as [-> | [-> | [-> | [-> | ->]]]]; destruct away; cbn;
      try destruct (lookingAwayThreshold <=? _); cbn; left; auto.
  - destruct Hs as [-> | [-> | [-> | [-> | ->]]]]; cbn; left; auto.
Qed.

(** One tick and the looking-away timer. *)
Lemma lookingAway_tick faces now s :
  Obs.focusOk s = true ->
  (existsb Obs.isLookingAway (snd (processFocusDetection faces now s))
   = false
   /\ (lookingAwayStartTime (fst (processFocusDetection faces now s))
       = lookingAwayStartTime s
       \/ lookingAwayStartTime (fst (processFocusDetection faces now s))
          = Some now
       \/ lookingAwayStartTime (fst (processFocusDetection faces now s))
          = None))
  \/ (existsb Obs.isLookingAway (snd (processFocusDetection faces now s))
      = true
      /\ lookingAwayStartTime (fst (processFocusDetection faces now s))
         = Some now
      /\ exists started,
          lookingAwayStartTime s = Some started
          /\ lookingAwayThreshold <= now - started).
Proof.
  intros H. destruct (focusOk_forms s H) as (t & lf & Hs).
  destruct faces as [|face [|face' more]]; cbn [processFocusDetection].
  - unfold handleNoFaceDetection.
    destruct Hs as [-> | [-> | [-> | [-> | ->]]]]; cbn;
      try destruct (noFaceThreshold <=? _); cbn; left; auto.
  - unfold handleSingleFaceDetection.
    generalize (JS.gt (JS.abs (calculateHeadAngle face))
                      (JS.Fin headAngleThreshold)).
    intros away.
    destruct Hs as [-> | [-> | [-> | [-> | ->]]]]; destruct away; cbn;
      try (destruct (lookingAwayThreshold <=? _) eqn:E; cbn;
           [apply Z.leb_le in E; right; eauto|]);
      left; auto.
  - destruct Hs as [-> | [-> | [-> | [-> | ->]]]]; cbn; left; auto.
Qed.

(** X14.  No-face violations are at least 10000 ms apart over any run.
    Over any sequence of focus ticks (with or without faces, in any
    order) whose clock readings never go back, from a state whose fields
    agree and whose no-face timer, if it runs, was started at [bound] or
    later, the ticks that emit a no-face violation have clock readings at
    least 10000 ms apart, the first of them at least 10000 ms after
    [bound]. *)
Theorem no_face_violations_are_spaced :
  forall ticks s bound,
    Obs.focusOk s = true ->
    (forall started, noFaceStartTime s = Some started -> bound <= started) ->
    Obs.clockFrom bound (map snd ticks) ->
    Run.startsAfter (bound + noFaceThreshold)
                    (Obs.focusEmissionTimes Obs.isNoFace ticks s)
    /\ Run.spaced noFaceThreshold
                  (Obs.focusEmissionTimes Obs.isNoFace ticks s).
Proof.
  induction ticks as [|[faces now] rest IH]; intros s bound Hok Hs Hc.
  - cbn. auto.
  - cbn [Obs.focusEmissionTimes].
    cbn [map snd Obs.clockFrom] in Hc. destruct Hc as (Hb & Hc).
    pose proof (noFace_tick faces now s Hok) as H.
    pose proof (focusOk_tick faces now s Hok) as Hok'.
    destruct (processFocusDetection faces now s) as [s' vs].
    cbn [fst snd] in H, Hok'.
    destruct H as [(-> & Ht)|(-> & Ht & started & Hst & Hlim)].
    + apply (IH s' bound Hok').
      * intros started Hst.
        destruct Ht as [Ht|[Ht|Ht]]; rewrite Ht in Hst.
        -- now apply Hs.
        -- injection Hst as <-. exact Hb.
        -- discriminate.
      * now apply (clockFrom_weaken (map snd rest) bound now).
    + specialize (Hs started Hst).
      destruct (IH s' now Hok') as (IH1 & IH2).
      * intros started' Hst'. rewrite Ht in Hst'.
        injection Hst' as <-. lia.
      * exact Hc.
      * cbn [Run.startsAfter Run.spaced]. repeat split; auto. lia.
Qed.

Lemma no_face_violations_are_spaced_witness :
  Run.startsAfter
    (1000 + noFaceThreshold)
    (Obs.focusEmissionTimes
       Obs.isNoFace
       [([], 1000); ([], 11000); ([mkFace None], 12000); ([], 13000);
        ([], 23000)]
       (initial 0))
  /\ Run.spaced
       noFaceThreshold
       (Obs.focusEmissionTimes
          Obs.isNoFace
          [([], 1000); ([], 11000); ([mkFace None], 12000); ([], 13000);
           ([], 23000)]
          (initial 0)).
Proof.
  apply no_face_violations_are_spaced.
  - reflexivity.
  - intros started H. discriminate H.
  - cbn. lia.
Defined.

(** X15.  Looking-away violations are at least 5000 ms apart over any
    run.  Over any sequence of focus ticks whose clock readings never go
    back, from a state whose fields agree and whose looking-away timer, if
    it runs, was started at [bound] or later, the ticks that emit a
    looking-away violation have clock readings at least 5000 ms apart,
    the first of them at least 5000 ms after [bound]. *)
Theorem looking_away_violations_are_spaced :
  forall ticks s bound,
    Obs.focusOk s = true ->
    (forall started,
        lookingAwayStartTime s = Some started -> bound <= started) ->
    Obs.clockFrom bound (map snd ticks) ->
    Run.startsAfter (bound + lookingAwayThreshold)
                    (Obs.focusEmissionTimes Obs.isLookingAway ticks s)
    /\ Run.spaced lookingAwayThreshold
                  (Obs.focusEmissionTimes Obs.isLookingAway ticks s).
Proof.
  induction ticks as [|[faces now] rest IH]; intros s bound Hok Hs Hc.
  - cbn. auto.
  - cbn [Obs.focusEmissionTimes].
    cbn [map snd Obs.clockFrom] in Hc. destruct Hc as (Hb & Hc).
    pose proof (lookingAway_tick faces now s Hok) as H.
    pose proof (focusOk_tick faces now s Hok) as Hok'.
    destruct (processFocusDetection faces now s) as [s' vs].
    cbn [fst snd] in H, Hok'.
    destruct H as [(-> & Ht)|(-> & Ht & started & Hst & Hlim)].
    + apply (IH s' bound Hok').
      * intros started Hst.
        destruct Ht as [Ht|[Ht|Ht]]; rewrite Ht in Hst.
        -- now apply Hs.
        -- injection Hst as <-. exact Hb.
        -- discriminate.
      * now apply (clockFrom_weaken (map snd rest) bound now).
    + specialize (Hs started Hst).
      destruct (IH s' now Hok') as (IH1 & IH2).
      * intros started' Hst'. rewrite Ht in Hst'.
        injection Hst' as <-. lia.
      * exact Hc.
      * cbn [Run.startsAfter Run.spaced]. repeat split; auto. lia.
Qed.

Lemma looking_away_violations_are_spaced_witness :
  Run.startsAfter
    (1000 + lookingAwayThreshold)
    (Obs.focusEmissionTimes
       Obs.isLookingAway
       [([Obs.turnedFace], 1000); ([Obs.turnedFace], 6000); ([], 7000);
        ([Obs.turnedFace], 8000); ([Obs.turnedFace], 13000)]
       (initial 0))
  /\ Run.spaced
       lookingAwayThreshold
       (Obs.focusEmissionTimes
          Obs.isLookingAway
          [([Obs.turnedFace], 1000); ([Obs.turnedFace], 6000); ([], 7000);
           ([Obs.turnedFace], 8000); ([Obs.turnedFace], 13000)]
          (initial 0)).
Proof.
  apply looking_away_violations_are_spaced.
  - reflexivity.
  - intros started H. discriminate H.
  - cbn. lia.
Defined.

(** X16.  Multiple faces are reported on every tick.  A tick that shows
    two or more faces emits exactly one violation of type multiple_faces
    and severity high, with no threshold and no cooldown, and from a
    state whose fields agree it leaves the machine idle: both timers
    stopped, both flags cleared, no warning on display; the time of the
    last face detection is not updated. *)
Theorem multiple_faces_reported_every_tick :
  forall faces now s,
    (2 <= length faces)%nat ->
    Obs.focusOk s = true ->
    processFocusDetection faces now s
    = (mkFocus None None false false false None (lastFaceDetection s),
       [mkViolation "multiple_faces" (MsgMultipleFaces (length faces))
                    high]).
Proof.
  intros faces now s Hn H.
  destruct faces as [|face [|face' more]]; cbn in Hn; try lia.
  destruct (focusOk_forms s H) as (t & lf & Hs).
  destruct Hs as [-> | [-> | [-> | [-> | ->]]]]; reflexivity.
Qed.

Lemma multiple_faces_reported_every_tick_witness :
  processFocusDetection
    [mkFace None; mkFace None] 5000
    (mkFocus None (Some 1000) false true true (Some "no_face") 0)
  = (mkFocus None None false false false None
             (lastFaceDetection
                (mkFocus None (Some 1000) false true true (Some "no_face")
                         0)),
     [mkViolation "multiple_faces"
                  (MsgMultipleFaces (length [mkFace None; mkFace None]))
                  high]).
Proof.
  apply multiple_faces_reported_every_tick.
  - cbn. lia.
  - reflexivity.
Defined.

End FocusRuns.

(** ** The gaze rule *)

Section GazeRuns.

Import Focus.

Lemma lt_weaken a p q :
  (p <= q)%Q -> JS.lt a (JS.Fin p) = true -> JS.lt a (JS.Fin q) = true.
Proof.
  intros Hpq. destruct a as [x| | |]; cbn; try discriminate; auto.
  intros H. apply ltb_true in H. apply ltb_true.
  eapply Qlt_le_trans; eassumption.
Qed.

(** X17.  The dead zone of the gaze estimate has no effect.  Whenever the
    estimate is computed, its verdict is exactly the threshold test, an
    X offset below 0.15 together with a Y offset below 0.12: a gaze inside
    the dead zone (0.08 by 0.06) is inside the thresholds already. *)
Theorem gaze_dead_zone_is_redundant :
  forall l g,
    gazeOf l = Some g ->
    exists offsetX offsetY,
      gazeOffsetX g = Some offsetX
      /\ gazeOffsetY g = Some offsetY
      /\ lookingAtScreen g
         = JS.lt offsetX (JS.Fin yawThreshold)
           && JS.lt offsetY (JS.Fin pitchThreshold).
Proof.
  intros l g. unfold gazeOf.
  destruct (at_ l 33) as [leftEye|]; [|discriminate].
  destruct (at_ l 263) as [rightEye|]; [|discriminate].
  destruct (at_ l 1) as [noseTip|]; [|discriminate].
  destruct (at_ l 130) as [leftEyeOuter|]; [|discriminate].
  destruct (at_ l 359) as [rightEyeOuter|]; [|discriminate].
  cbv zeta.
  set (offsetX := JS.div _ _). set (offsetY := JS.div _ _).
  intros H. injection H as <-. exists offsetX, offsetY.
  cbn [gazeOffsetX gazeOffsetY lookingAtScreen].
  split; [reflexivity|]. split; [reflexivity|].
  destruct (JS.lt offsetX (JS.Fin deadZoneX)) eqn:Ex; [|reflexivity].
  destruct (JS.lt offsetY (JS.Fin deadZoneY)) eqn:Ey; [|reflexivity].
  rewrite (lt_weaken offsetX deadZoneX yawThreshold); [|discriminate|exact Ex].
  rewrite (lt_weaken offsetY deadZoneY pitchThreshold);
    [|discriminate|exact Ey].
  reflexivity.
Qed.

Lemma gaze_dead_zone_is_redundant_witness :
  exists offsetX offsetY,
    gazeOffsetX (mkGaze false (Some JS.NaN) (Some JS.NaN)) = Some offsetX
    /\ gazeOffsetY (mkGaze false (Some JS.NaN) (Some JS.NaN)) = Some offsetY
    /\ lookingAtScreen (mkGaze false (Some JS.NaN) (Some JS.NaN))
       = JS.lt offsetX (JS.Fin yawThreshold)
         && JS.lt offsetY (JS.Fin pitchThreshold).
Proof.
  apply (gaze_dead_zone_is_redundant Run.collapsedMesh).
  vm_compute. reflexivity.
Defined.

(** One gaze result and the cooldown. *)
Lemma gaze_result_cases multiFaceLandmarks now g :
  (snd (onGazeResults multiFaceLandmarks now g) = []
   /\ gazeViolationCooldown (fst (onGazeResults multiFaceLandmarks now g))
      = gazeViolationCooldown g)
  \/ (snd (onGazeResults multiFaceLandmarks now g)
      = [mkViolation "focus_lost" MsgGazeAway medium]
      /\ gazeViolationCooldown (fst (onGazeResults multiFaceLandmarks now g))
         = Some now
      /\ cooldownOver now (gazeViolationCooldown g) = true
      /\ 35 <= consecutiveLookingAwayFrames g + 1).
Proof.
  unfold onGazeResults.
  destruct multiFaceLandmarks as [[|l more]|]; try (left; split; reflexivity).
  destruct (negb (lookingAtScreen (analyzeGazeDirection l))).
  - destruct (35 <=? consecutiveLookingAwayFrames g + 1) eqn:E;
      [|left; split; reflexivity].
    destruct (cooldownOver now (gazeViolationCooldown g)) eqn:Ec;
      [|left; split; reflexivity].
    right. apply Z.leb_le in E. repeat split; auto.
  - destruct (0 <? consecutiveLookingAwayFrames g); left; split; reflexivity.
Qed.

(** X18.  Gaze violations keep their cooldown.  Over any sequence of gaze
    results and hands results, with any clock whose readings are not 0,
    two gaze results that emit a violation have clock readings more than
    15000 ms apart, and the first of them comes more than 15000 ms after
    the stored time of the last gaze violation, if that is not 0. *)
Theorem gaze_violations_are_spaced :
  forall events g,
    Forall (fun e => Obs.isGazeResults e = true -> Obs.clockOf e <> 0)
           events ->
    (forall last,
        gazeViolationCooldown g = Some last -> last <> 0 ->
        Run.startsAfter (last + 15001) (Obs.gazeEmissionTimes events g))
    /\ Run.spaced 15001 (Obs.gazeEmissionTimes events g).
Proof.
  induction events as [|e rest IH]; intros g Hall.
  - cbn. auto.
  - inversion Hall as [|e' rest' He Hrest]; subst.
    destruct e as [multiFaceLandmarks now|]; cbn [Obs.gazeEmissionTimes].
    + destruct (gaze_result_cases multiFaceLandmarks now g)
        as [(Hvs & Hc)|(Hvs & Hc & Hover & _)];
        destruct (onGazeResults multiFaceLandmarks now g) as [g' vs];
        cbn [fst snd] in *; subst vs.
      * destruct (IH g' Hrest) as (IH1 & IH2). rewrite Hc in IH1.
        split; assumption.
      * destruct (IH g' Hrest) as (IH1 & IH2).
        assert (Hnow : now <> 0) by (apply He; reflexivity).
        specialize (IH1 now Hc Hnow).
        split.
        -- intros last Hl Hne. rewrite Hl in Hover. cbn in Hover.
           apply Z.eqb_neq in Hne. rewrite Hne in Hover. cbn in Hover.
           apply Z.ltb_lt in Hover. cbn. lia.
        -- cbn [Run.spaced]. split; assumption.
    + apply (IH (Loop.onHandsResults g) Hrest).
Qed.

Lemma gaze_violations_are_spaced_witness :
  Run.startsAfter
    (1000 + 15001)
    (Obs.gazeEmissionTimes
       [Obs.GazeResults (Some [Run.blankMesh]) 9000;
        Obs.GazeResults (Some [Run.blankMesh]) 17000;
        Obs.HandsResults]
       (mkGazeState 34 (Some 1000)))
  /\ Run.spaced
       15001
       (Obs.gazeEmissionTimes
          [Obs.GazeResults (Some [Run.blankMesh]) 9000;
           Obs.GazeResults (Some [Run.blankMesh]) 17000;
           Obs.HandsResults]
          (mkGazeState 34 (Some 1000))).
Proof.
  assert (H : Forall (fun e => Obs.isGazeResults e = true ->
                               Obs.clockOf e <> 0)
                     [Obs.GazeResults (Some [Run.blankMesh]) 9000;
                      Obs.GazeResults (Some [Run.blankMesh]) 17000;
                      Obs.HandsResults])
    by (repeat constructor; cbn; discriminate).
  split.
  - refine (proj1 (gaze_violations_are_spaced _ (mkGazeState 34 (Some 1000))
                                              H)
                  1000 eq_refl _).
    discriminate.
  - exact (proj2 (gaze_violations_are_spaced _ (mkGazeState 34 (Some 1000))
                                             H)).
Defined.

(** X19.  With the hands model delivering its results the gaze rule never
    fires.  The hands callback assigns 0 to the counter of looking-away
    frames on every result, and a detection cycle asks for one gaze result
    and then for one hands result: over any sequence of such cycles, from
    a counter below 34, no gaze violation is emitted, whatever the meshes
    show, and each cycle ends with the counter at 0. *)
Theorem gaze_rule_never_fires_between_hands_results :
  forall cycles g,
    consecutiveLookingAwayFrames g < 34 ->
    snd (Obs.gazeCycles cycles g) = []
    /\ (cycles <> [] ->
        consecutiveLookingAwayFrames (fst (Obs.gazeCycles cycles g)) = 0)
    /\ gazeViolationCooldown (fst (Obs.gazeCycles cycles g))
       = gazeViolationCooldown g.
Proof.
  intros cycles g Hg.
  assert (H : snd (Obs.gazeCycles cycles g) = []
              /\ consecutiveLookingAwayFrames (fst (Obs.gazeCycles cycles g))
                 = match cycles with
                   | [] => consecutiveLookingAwayFrames g
                   | _ :: _ => 0
                   end
              /\ gazeViolationCooldown (fst (Obs.gazeCycles cycles g))
                 = gazeViolationCooldown g).
  { revert g Hg.
    induction cycles as [|[multiFaceLandmarks now] rest IH]; intros g Hg.
    - cbn. auto.
    - cbn [Obs.gazeCycles]. unfold Loop.gazeThenHands.
      destruct (gaze_result_cases multiFaceLandmarks now g)
        as [(Hvs & Hc)|(_ & _ & _ & H35)]; [|lia].
      destruct (onGazeResults multiFaceLandmarks now g) as [g1 vs].
      cbn [fst snd] in Hvs, Hc. subst vs.
      assert (H0 : consecutiveLookingAwayFrames (Loop.onHandsResults g1) < 34)
        by (cbn; lia).
      destruct (IH (Loop.onHandsResults g1) H0) as (IH1 & IH2 & IH3).
      destruct (Obs.gazeCycles rest (Loop.onHandsResults g1)) as [g2 vs'].
      cbn [fst snd] in *. subst vs'.
      split; [reflexivity|]. split.
      + rewrite IH2. destruct rest; reflexivity.
      + rewrite IH3. exact Hc. }
  destruct H as (H1 & H2 & H3).
  split; [exact H1|]. split; [|exact H3].
  intros Hne. rewrite H2. destruct cycles; [contradiction|reflexivity].
Qed.

Lemma gaze_rule_never_fires_between_hands_results_witness :
  snd (Obs.gazeCycles [(Some [Run.blankMesh], 1000);
                       (Some [Run.blankMesh], 4000)]
                      (mkGazeState 0 None))
  = []
  /\ ([(Some [Run.blankMesh], 1000); (Some [Run.blankMesh], 4000)] <> [] ->
      consecutiveLookingAwayFrames
        (fst (Obs.gazeCycles [(Some [Run.blankMesh], 1000);
                              (Some [Run.blankMesh], 4000)]
                             (mkGazeState 0 None)))
      = 0)
  /\ gazeViolationCooldown
       (fst (Obs.gazeCycles [(Some [Run.blankMesh], 1000);
                             (Some [Run.blankMesh], 4000)]
                            (mkGazeState 0 None)))
     = gazeViolationCooldown (mkGazeState 0 None).
Proof.
  apply gaze_rule_never_fires_between_hands_results. cbn. lia.
Defined.

End GazeRuns.

(** ** The detection loop and the session's scores *)

Section LoopAndSession.

(** X20.  The detection loop analyses every third interval.  While the
    system is detecting and has a video element, [n] firings of the
    1000 ms interval call [runAIDetection] exactly [(c + n) / 3] times,
    [c] being the skip counter at the start (0, 1 or 2), and leave the
    counter at [(c + n) mod 3]; a loop that is not detecting calls it
    never and leaves the counter alone. *)
Theorem detection_runs_every_third_interval :
  forall n s,
    0 <= Loop.frameSkipCount s < Loop.maxFrameSkip ->
    (Loop.isDetecting s = true -> Loop.hasVideoElement s = true ->
     snd (Obs.intervalTicks n s)
     = (Loop.frameSkipCount s + Z.of_nat n) / 3
     /\ Loop.frameSkipCount (fst (Obs.intervalTicks n s))
        = (Loop.frameSkipCount s + Z.of_nat n) mod 3)
    /\ (Loop.isDetecting s = false ->
        Obs.intervalTicks n s = (s, 0)).
Proof.
  unfold Loop.maxFrameSkip.
  induction n as [|n IH]; intros s Hc.
  - cbn. split.
    + intros _ _. split.
      * symmetry. apply Z.div_small. lia.
      * rewrite Z.add_0_r. symmetry. apply Z.mod_small. lia.
    + reflexivity.
  - cbn [Obs.intervalTicks]. unfold Loop.intervalTick. split.
    + intros Hd Hv. rewrite Hd, Hv. cbn [negb orb].
      unfold Loop.maxFrameSkip.
      destruct (Loop.frameSkipCount s + 1 <? 3) eqn:E.
      * apply Z.ltb_lt in E.
        destruct (IH (Loop.mkLoop true true (Loop.frameSkipCount s + 1)))
          as (IH1 & _); [cbn; lia|].
        destruct (IH1 eq_refl eq_refl) as (Hr & Hk).
        destruct (Obs.intervalTicks
                    n (Loop.mkLoop true true (Loop.frameSkipCount s + 1)))
          as [s2 runs].
        cbn [fst snd Loop.frameSkipCount] in *.
        replace (Loop.frameSkipCount s + Z.of_nat (S n))
          with (Loop.frameSkipCount s + 1 + Z.of_nat n) by lia.
        split; [lia|exact Hk].
      * apply Z.ltb_ge in E.
        destruct (IH (Loop.mkLoop true true 0)) as (IH1 & _); [cbn; lia|].
        destruct (IH1 eq_refl eq_refl) as (Hr & Hk).
        destruct (Obs.intervalTicks n (Loop.mkLoop true true 0))
          as [s2 runs].
        cbn [fst snd Loop.frameSkipCount] in *.
        replace (Loop.frameSkipCount s + Z.of_nat (S n))
          with (1 * 3 + (0 + Z.of_nat n)) by lia.
        rewrite Z.div_add_l by lia.
        rewrite (Z.add_comm (1 * 3)), Z.mod_add by lia.
        split; [lia|exact Hk].
    + intros Hd. rewrite Hd. cbn [negb orb].
      destruct (IH s Hc) as (_ & IH2). rewrite (IH2 Hd). reflexivity.
Qed.

Lemma detection_runs_every_third_interval_witness :
  snd (Obs.intervalTicks 10 (fst (Loop.startDetection true Loop.initial)))
  = (Loop.frameSkipCount (fst (Loop.startDetection true Loop.initial))
     + Z.of_nat 10) / 3
  /\ Loop.frameSkipCount
       (fst (Obs.intervalTicks
               10 (fst (Loop.startDetection true Loop.initial))))
     = (Loop.frameSkipCount (fst (Loop.startDetection true Loop.initial))
        + Z.of_nat 10) mod 3.
Proof.
  refine (proj1 (detection_runs_every_third_interval
                   10 (fst (Loop.startDetection true Loop.initial)) _)
                eq_refl eq_refl).
  unfold Loop.maxFrameSkip. cbn. lia.
Defined.

Lemma scaled_nonneg confidence n : 0 <= n -> 0 <= Session.scaled confidence n.
Proof.
  intros Hn. unfold Session.scaled.
  destruct confidence as [c|]; [|exact Hn].
  destruct (negb (Qeq_bool c 0) && JS.gtb c 0) eqn:E; [|exact Hn].
  apply andb_true_iff in E. destruct E as [_ E].
  unfold JS.gtb in E. apply negb_true_iff in E.
  assert (Hc : (0 < c)%Q).
  { apply Qnot_le_lt. intros Hle. apply Qle_bool_iff in Hle. congruence. }
  apply round_nonneg. apply Qmult_le_0_compat.
  - change 0%Q with (inject_Z 0). rewrite <- Zle_Qle. exact Hn.
  - apply Q.min_glb; [now apply Qlt_le_weak|discriminate].
Qed.

Lemma penalty_nonneg v confidence :
  0 <= Session.integrityPenalty v confidence
  /\ 0 <= Session.violationPoints v confidence.
Proof.
  unfold Session.integrityPenalty, Session.violationPoints.
  split; apply scaled_nonneg; destruct (severity v); cbn; lia.
Qed.

(** X21.  The session's scores under any stream of violations.  After
    the callback has handled a list of violations, whatever their
    severities and confidence fields, the integrity score is the starting
    score less the total of the penalties, cut off at 0, so that it never
    rises and never leaves the range from 0 to the starting score; the
    violation score is the starting score plus the total of the points and
    never falls; the violation count has grown by the length of the list.
    With the confidence the engine attaches (0.6 in basic mode, 0.9
    otherwise) each violation costs between 2 and 9 integrity points. *)
Theorem session_scores_after_violations :
  forall vs d,
    0 <= Session.integrityScore d ->
    Session.integrityScore (Session.deliver vs d)
    = Z.max 0 (Session.integrityScore d - Obs.totalPenalty vs)
    /\ 0 <= Session.integrityScore (Session.deliver vs d)
       <= Session.integrityScore d
    /\ Session.violationScore (Session.deliver vs d)
       = Session.violationScore d + Obs.totalPoints vs
    /\ Session.violationScore d
       <= Session.violationScore (Session.deliver vs d)
    /\ Session.violationCount (Session.deliver vs d)
       = Session.violationCount d + Z.of_nat (length vs)
    /\ (forall v useBasicDetection,
           2 <= Session.integrityPenalty
                  v (Some (Session.confidenceOf useBasicDetection))
             <= 9).
Proof.
  intros vs d Hd.
  assert (H : Session.integrityScore (Session.deliver vs d)
              = Z.max 0 (Session.integrityScore d - Obs.totalPenalty vs)
              /\ Session.violationScore (Session.deliver vs d)
                 = Session.violationScore d + Obs.totalPoints vs
              /\ Session.violationCount (Session.deliver vs d)
                 = Session.violationCount d + Z.of_nat (length vs)
              /\ 0 <= Obs.totalPenalty vs
              /\ 0 <= Obs.totalPoints vs).
  { revert d Hd. induction vs as [|[v c] rest IH]; intros d Hd.
    - cbn. repeat split; lia.
    - unfold Session.deliver. cbn [fold_left fst snd].
      fold (Session.deliver rest (Session.handleViolation v c d)).
      destruct (penalty_nonneg v c) as (Hp & Hq).
      destruct (IH (Session.handleViolation v c d))
        as (I1 & I2 & I3 & I4 & I5); [cbn; lia|].
      rewrite I1, I2, I3.
      cbn [Session.handleViolation Session.integrityScore
           Session.violationScore Session.violationCount
           Obs.totalPenalty Obs.totalPoints fold_right fst snd length].
      fold (Obs.totalPenalty rest). fold (Obs.totalPoints rest).
      repeat split; lia. }
  destruct H as (H1 & H2 & H3 & H4 & H5).
  split; [exact H1|]. split; [lia|]. split; [exact H2|].
  split; [lia|]. split; [exact H3|].
  intros v useBasicDetection. unfold Session.integrityPenalty.
  destruct (severity v), useBasicDetection; vm_compute;
    split; discriminate.
Qed.

Lemma session_scores_after_violations_witness :
  Session.integrityScore
    (Session.deliver
       [(mkViolation "no_face" MsgNoFace high, Some (9 # 10)%Q);
        (mkViolation "focus_lost" MsgGazeAway medium, Some (9 # 10)%Q)]
       Session.initial)
  = Z.max 0
          (Session.integrityScore Session.initial
           - Obs.totalPenalty
               [(mkViolation "no_face" MsgNoFace high, Some (9 # 10)%Q);
                (mkViolation "focus_lost" MsgGazeAway medium,
                 Some (9 # 10)%Q)]).
Proof.
  refine (proj1 (session_scores_after_violations
                   [(mkViolation "no_face" MsgNoFace high, Some (9 # 10)%Q);
                    (mkViolation "focus_lost" MsgGazeAway medium,
                     Some (9 # 10)%Q)]
                   Session.initial _)).
  cbn. lia.
Defined.

End LoopAndSession.

(** ** Ticks that run to the end *)

Section CompleteTicks.

Import Engine.

Lemma directMobileDetections_total predictions :
  Forall (fun p => class p <> None) predictions ->
  exists ds, directMobileDetections predictions = Some ds.
Proof.
  induction 1 as [|p rest Hp _ (ds & IH)]; [eexists; reflexivity|].
  cbn [directMobileDetections].
  destruct (class p) as [c|]; [|contradiction].
  rewrite IH. eexists. reflexivity.
Qed.

Lemma findPerson_total predictions :
  Forall (fun p => class p <> None) predictions ->
  exists found, findPerson predictions = Some found.
Proof.
  induction 1 as [|p rest Hp _ (found & IH)]; [eexists; reflexivity|].
  cbn [findPerson].
  destruct (class p) as [c|]; [|contradiction].
  destruct (_ && _); [eexists; reflexivity|].
  rewrite IH. eexists. reflexivity.
Qed.

Lemma advancedDetections_total hands predictions :
  Forall (fun p => class p <> None) predictions ->
  exists ds, advancedDetections hands predictions = Some ds.
Proof.
  induction 1 as [|p rest Hp _ (ds & IH)]; [eexists; reflexivity|].
  cbn [advancedDetections]. unfold Scorer.calculateSuspiciousnessScore.
  destruct (class p) as [c|]; [|contradiction].
  destruct (Scorer.extractBoundingBox p) as [[[[bx by_] bw] bh]|];
    rewrite IH; eexists; reflexivity.
Qed.

Lemma lowerClasses_total predictions :
  Forall (fun p => class p <> None) predictions ->
  exists classed,
    lowerClasses predictions = Some classed
    /\ map snd classed = predictions
    /\ Forall (fun e => class (snd e) = None -> False) classed.
Proof.
  induction 1 as [|p rest Hp _ (classed & IH & Hm & Hc)].
  - exists []. repeat split. constructor.
  - cbn [lowerClasses].
    destruct (class p) as [c|] eqn:E; [|contradiction].
    rewrite IH. eexists. split; [reflexivity|]. cbn. rewrite Hm.
    split; [reflexivity|]. constructor; [|exact Hc].
    cbn. rewrite E. discriminate.
Qed.

(** The mobile check on records that all have a class ends normally and
    touches the stored person only. *)
Lemma checkMobile_normal predictions vp e pd pm lp h m cats tr fc em :
  Forall (fun p => class p <> None) predictions ->
  exists ds lp',
    checkMobilePhoneDetections
      predictions (mkEngine vp e pd pm lp h m cats tr fc em)
    = (Returned ds, mkEngine vp e pd pm lp' h m cats tr fc em).
Proof.
  intros H.
  destruct (directMobileDetections_total predictions H) as (direct & Hd).
  destruct (findPerson_total predictions H) as (found & Hf).
  destruct (advancedDetections_total h predictions H) as (advanced & Ha).
  unfold checkMobilePhoneDetections, performAdvancedMobileAnalysis,
    updatePersonContext, bind, ofOption, gets, modify, ret, throw.
  rewrite Hd, Hf.
  destruct found as [person|]; cbn; rewrite Ha; eexists _, _; reflexivity.
Qed.

Lemma scanRecords_installed predictions s categories :
  suspiciousItemsCategories s = Some categories ->
  fst (scanRecords predictions s) = s.
Proof.
  intros H. induction predictions as [|p rest IH]; [reflexivity|].
  cbn [scanRecords]. unfold scanRecord. rewrite H.
  destruct (scanRecords rest s) as [s2 more]. exact IH.
Qed.

(** On a non-empty list the scan leaves a table installed. *)
Lemma scanRecords_installs p rest s :
  suspiciousItemsCategories s = None ->
  fst (scanRecords (p :: rest) s)
  = set_suspiciousItemsCategories
      (Some Scorer.initializeSuspiciousCategories) s.
Proof.
  intros H. cbn [scanRecords]. unfold scanRecord. rewrite H.
  pose proof (scanRecords_installed
                rest
                (set_suspiciousItemsCategories
                   (Some Scorer.initializeSuspiciousCategories) s)
                Scorer.initializeSuspiciousCategories eq_refl) as K.
  destruct (scanRecords rest _) as [s2 more]. exact K.
Qed.

Lemma tracking_normal predictions now vp e pd pm lp h m cats tr fc em :
  Forall (fun p => class p <> None) predictions ->
  exists tr' vs,
    updateObjectTracking predictions now
                         (mkEngine vp e pd pm lp h m cats tr fc em)
    = (Returned tt,
       mkEngine vp e pd pm lp h m cats tr' (fc + 1) (em ++ vs)%list).
Proof.
  intros H. unfold updateObjectTracking, Tracker.updateObjectTracking.
  cbn [objectTracker].
  pose proof (trackLoop_keeps tr predictions now (Tracker.trackedObjects tr))
    as K.
  destruct (Tracker.trackLoop tr predictions now (Tracker.trackedObjects tr))
    as [[c entries] vs].
  destruct K as (_ & _ & Hn). rewrite (Hn H).
  eexists _, vs. reflexivity.
Qed.

Lemma all_persons classed predictions :
  lowerClasses predictions = Some classed ->
  Forall (fun p => option_map JS.toLowerCase (class p) = Some "person")
         predictions ->
  List.filter (fun e => negb (isPerson e)) classed = [].
Proof.
  intros Hl Hp. revert classed Hl.
  induction Hp as [|q more Hq _ IH]; intros classed Hl.
  - injection Hl as <-. reflexivity.
  - cbn [lowerClasses] in Hl.
    destruct (class q) as [c|]; [|discriminate].
    destruct (lowerClasses more) as [tail|]; [|discriminate].
    injection Hl as <-. cbn in Hq. injection Hq as Hq.
    cbn [List.filter]. unfold isPerson at 1. cbn [fst].
    rewrite Hq. cbn. now apply IH.
Qed.

(** The misclassified-object check, when the table is installed or the
    tick shows persons only: it ends normally, after the person-only step
    and the unknown-object step. *)
Lemma checkMisclassified_normal predictions now vp e pd pm lp h pf uf lt cats
      tr fc em :
  Forall (fun p => class p <> None) predictions ->
  (cats <> None
   \/ Forall (fun p => option_map JS.toLowerCase (class p) = Some "person")
             predictions) ->
  exists pf' uf' lt' vs,
    checkMisclassifiedObjects
      predictions now
      (mkEngine vp e pd pm lp h (mkMisclassified pf uf lt) cats tr fc em)
    = (Returned tt,
       mkEngine vp e pd pm lp h (mkMisclassified pf' uf' lt') cats tr fc
                (em ++ vs)%list).
Proof.
  intros Hc Hp.
  destruct (lowerClasses_total predictions Hc) as (classed & Hl & _).
  unfold checkMisclassifiedObjects.
  unfold bind, ofOption, gets, modify, ret, throw.
  rewrite Hl.
  set (persons := List.filter isPerson classed).
  destruct (personOnly_shape
              persons (List.filter (fun e => negb (isPerson e)) classed) now
              vp e pd pm lp h pf uf lt cats tr fc em)
    as (pf1 & lt1 & vs1 & -> & _).
  cbn [suspiciousItemsCategories].
  destruct (List.filter (fun e => negb (isPerson e)) classed)
    as [|other more] eqn:Eo.
  - destruct (unknown_shape [] vp e pd pm lp h pf1 uf lt1 cats tr fc
                            (em ++ vs1)%list)
      as (uf2 & vs2 & -> & _).
    exists pf1, uf2, lt1, (vs1 ++ vs2)%list. now rewrite app_assoc.
  - destruct cats as [categories|].
    + destruct (unknown_shape
                  (List.filter
                     (fun e =>
                        negb (isKnownObject categories (fst e))
                        && JS.oltb (score (snd e)) (6 # 10))
                     (other :: more))
                  vp e pd pm lp h pf1 uf lt1 (Some categories) tr fc
                  (em ++ vs1)%list)
        as (uf2 & vs2 & -> & _).
      exists pf1, uf2, lt1, (vs1 ++ vs2)%list. now rewrite app_assoc.
    + exfalso. destruct Hp as [Hp|Hp]; [congruence|].
      rewrite (all_persons classed predictions Hl Hp) in Eo. discriminate.
Qed.

(** The misclassified-object check followed by the scan: on a non-empty
    list the scan leaves a table installed. *)
Lemma checkOther_normal predictions now vp e pd pm lp h pf uf lt cats tr fc
      em :
  Forall (fun p => class p <> None) predictions ->
  (cats <> None
   \/ Forall (fun p => option_map JS.toLowerCase (class p) = Some "person")
             predictions) ->
  exists objs pf' uf' lt' cats' vs,
    checkOtherSuspiciousObjects
      predictions now
      (mkEngine vp e pd pm lp h (mkMisclassified pf uf lt) cats tr fc em)
    = (Returned objs,
       mkEngine vp e pd pm lp h (mkMisclassified pf' uf' lt') cats' tr fc
                (em ++ vs)%list)
    /\ (cats' = cats
        \/ (cats = None /\ predictions <> []
            /\ cats' = Some Scorer.initializeSuspiciousCategories)).
Proof.
  intros Hc Hp. unfold checkOtherSuspiciousObjects.
  destruct predictions as [|p rest] eqn:Ep.
  - exists [], pf, uf, lt, cats, []. rewrite app_nil_r. split; auto.
  - rewrite <- Ep in *. unfold bind.
    destruct (checkMisclassified_normal predictions now vp e pd pm lp h pf uf
                                        lt cats tr fc em Hc Hp)
      as (pf1 & uf1 & lt1 & vs1 & ->).
    set (s3 := mkEngine vp e pd pm lp h (mkMisclassified pf1 uf1 lt1) cats
                        tr fc (em ++ vs1)%list).
    destruct cats as [categories|] eqn:Ec.
    + pose proof (scanRecords_installed predictions s3 categories eq_refl)
        as K.
      destruct (scanRecords predictions s3) as [s4 found].
      cbn [fst] in K. subst s4.
      exists found, pf1, uf1, lt1, (Some categories), vs1.
      subst s3. split; auto.
    + pose proof (scanRecords_installs p rest s3 eq_refl) as K.
      rewrite Ep. destruct (scanRecords (p :: rest) s3) as [s4 found].
      cbn [fst] in K. subst s4.
      exists found, pf1, uf1, lt1,
        (Some Scorer.initializeSuspiciousCategories), vs1.
      subst s3. split; [reflexivity|].
      right. repeat split. discriminate.
Qed.

(** X22.  When a tick runs to the end.  If every record of the tick has a
    class, the tracked types have plain names and either the category
    table is installed or all records are persons, the five steps of the
    object tick all end normally: the
    frame counter goes up by exactly 1, and the category table is the one
    that was installed before the tick or, when none was and the list is
    not empty, the one the scan installs.  A table once installed stays
    installed. *)
Theorem tick_runs_to_the_end :
  forall predictions now s,
    Forall (fun p => class p <> None) predictions ->
    Forall (fun e => Obs.plainName (fst e) = true)
           (Tracker.trackedObjects (objectTracker s)) ->
    (suspiciousItemsCategories s <> None
     \/ Forall (fun p => option_map JS.toLowerCase (class p) = Some "person")
               predictions) ->
    frameCounter (detectObjectsWithAI predictions now s) = frameCounter s + 1
    /\ (suspiciousItemsCategories (detectObjectsWithAI predictions now s)
        = suspiciousItemsCategories s
        \/ (suspiciousItemsCategories s = None /\ predictions <> []
            /\ suspiciousItemsCategories
                 (detectObjectsWithAI predictions now s)
               = Some Scorer.initializeSuspiciousCategories)).
Proof.
  intros predictions now [vp [t c] pd pm lp h [pf uf lt] cats tr fc em]
         Hc _ Hp.
  cbn [suspiciousItemsCategories frameCounter] in *.
  unfold detectObjectsWithAI, tryCatch, bind, modify.
  destruct (checkMobile_normal predictions vp (mkEnhanced t c) pd pm lp h
                               (mkMisclassified pf uf lt) cats tr fc em Hc)
    as (ds & lp1 & ->).
  destruct (processConsecutive_shape ds now vp t c pd pm lp1 h
                                     (mkMisclassified pf uf lt) cats tr fc em)
    as (vp2 & t2 & c2 & pd2 & pm2 & vs2 & -> & _).
  destruct (checkOther_normal predictions now vp2 (mkEnhanced t2 c2) pd2 pm2
                              lp1 h pf uf lt cats tr fc (em ++ vs2)%list
                              Hc Hp)
    as (objs & pf3 & uf3 & lt3 & cats3 & vs3 & -> & Hcats).
  destruct (other_shape objs vp2 (mkEnhanced t2 c2) pd2 pm2 lp1 h
                        (mkMisclassified pf3 uf3 lt3) cats3 tr fc
                        ((em ++ vs2) ++ vs3)%list)
    as (vs4 & -> & _).
  destruct (tracking_normal predictions now vp2 (mkEnhanced t2 c2) pd2 pm2
                            lp1 h (mkMisclassified pf3 uf3 lt3) cats3 tr fc
                            (((em ++ vs2) ++ vs3) ++ vs4)%list Hc)
    as (tr5 & vs5 & ->).
  cbn [snd frameCounter suspiciousItemsCategories].
  split; [reflexivity|exact Hcats].
Qed.

Lemma tick_runs_to_the_end_witness :
  frameCounter
    (detectObjectsWithAI [Run.record "Person" (9 # 10)] 1000 (initial []))
  = frameCounter (initial []) + 1
  /\ (suspiciousItemsCategories
        (detectObjectsWithAI [Run.record "Person" (9 # 10)] 1000
                             (initial []))
      = suspiciousItemsCategories (initial [])
      \/ (suspiciousItemsCategories (initial []) = None
          /\ [Run.record "Person" (9 # 10)] <> []
          /\ suspiciousItemsCategories
               (detectObjectsWithAI [Run.record "Person" (9 # 10)] 1000
                                    (initial []))
             = Some Scorer.initializeSuspiciousCategories)).
Proof.
  apply tick_runs_to_the_end.
  - repeat constructor. discriminate.
  - repeat constructor.
  - right. repeat constructor.
Defined.

End CompleteTicks.

(** ** The head angle when the eyes coincide *)

Section HeadAngle.

Import Focus.

Lemma level_eyes_width (e : Q) : Qeq_bool (Qabs (e + - e)) 0 = true.
Proof.
  apply Qeq_bool_iff.
  setoid_replace (e + - e)%Q with 0%Q using relation Qeq by ring.
  reflexivity.
Qed.

Lemma level_eyes_offset (n e : Q) :
  (n + - ((e + e) / 2) == n - e)%Q.
Proof. field. Qed.

(** X23.  The division by zero in the head-angle estimate.  For a face
    of at least 468 landmarks whose two eye points have the same x
    coordinate [e], of ordinary size, and whose nose tip has the x
    coordinate [n] (the two mouth corners being present), the face width
    is 0 and the estimate is Infinity when the nose tip is to the right
    of the eyes, -Infinity when it is to the left, both of which count as
    looking away, and NaN when it is on them, which does not.  Binary64
    adds and halves two equal coordinates without error and subtracts
    two different numbers to a non-zero result, so that the source
    divides as is done here. *)
Theorem coincident_eyes_divide_by_zero :
  forall face lm n e ny ly ry leftMouth rightMouth,
    landmarks face = Some lm ->
    (468 <= length lm)%nat ->
    at_ lm 1 = Some (mkLandmark (JS.Fin n) ny) ->
    at_ lm 33 = Some (mkLandmark (JS.Fin e) ly) ->
    at_ lm 263 = Some (mkLandmark (JS.Fin e) ry) ->
    at_ lm 61 = Some leftMouth ->
    at_ lm 291 = Some rightMouth ->
    (Qabs e <= 1000000)%Q ->
    ((e < n)%Q ->
     calculateHeadAngle face = JS.PInf
     /\ JS.gt (JS.abs (calculateHeadAngle face)) (JS.Fin headAngleThreshold)
        = true)
    /\ ((n < e)%Q ->
        calculateHeadAngle face = JS.NInf
        /\ JS.gt (JS.abs (calculateHeadAngle face))
                 (JS.Fin headAngleThreshold)
           = true)
    /\ ((n == e)%Q ->
        calculateHeadAngle face = JS.NaN
        /\ JS.gt (JS.abs (calculateHeadAngle face))
                 (JS.Fin headAngleThreshold)
           = false).
Proof.
  intros face lm n e ny ly ry leftMouth rightMouth Hlm Hlen H1 H33 H263
         H61 H291 _.
  unfold calculateHeadAngle. rewrite Hlm.
  assert (E : (length lm <? 468)%nat = false)
    by (apply Nat.ltb_ge; exact Hlen).
  rewrite E. unfold headAngleOf. rewrite H1, H33, H263, H61, H291.
  cbn [x]. unfold half, JS.sub. cbn [JS.add JS.neg JS.abs].
  change (JS.div (JS.Fin (e + e)) (JS.Fin 2)) with (JS.Fin ((e + e) / 2)).
  cbn [JS.add JS.neg]. unfold JS.div.
  rewrite level_eyes_width. unfold JS.scaleInf.
  pose proof (level_eyes_offset n e) as Ho.
  destruct (Qcompare_spec (n + - ((e + e) / 2)) 0) as [Eo|Eo|Eo];
    rewrite Ho in Eo.
  - assert (Hne : (n == e)%Q).
    { apply (Qplus_inj_r _ _ (- e)).
      setoid_replace (e + - e)%Q with 0%Q using relation Qeq by ring.
      exact Eo. }
    split; [|split].
    + intros H. rewrite Hne in H. exfalso. exact (Qlt_irrefl _ H).
    + intros H. rewrite Hne in H. exfalso. exact (Qlt_irrefl _ H).
    + intros _. split; reflexivity.
  - assert (Hlt : (n < e)%Q).
    { apply (Qplus_lt_l _ _ (- e)).
      setoid_replace (e + - e)%Q with 0%Q using relation Qeq by ring.
      exact Eo. }
    split; [|split].
    + intros H. exfalso. exact (Qlt_irrefl _ (Qlt_trans _ _ _ H Hlt)).
    + intros _. split; reflexivity.
    + intros H. rewrite H in Hlt. exfalso. exact (Qlt_irrefl _ Hlt).
  - assert (Hgt : (e < n)%Q).
    { apply (Qplus_lt_l _ _ (- e)).
      setoid_replace (e + - e)%Q with 0%Q using relation Qeq by ring.
      exact Eo. }
    split; [|split].
    + intros _. split; reflexivity.
    + intros H. exfalso. exact (Qlt_irrefl _ (Qlt_trans _ _ _ H Hgt)).
    + intros H. rewrite H in Hgt. exfalso. exact (Qlt_irrefl _ Hgt).
Qed.

Lemma coincident_eyes_divide_by_zero_witness :
  calculateHeadAngle Obs.profileFace = JS.PInf
  /\ JS.gt (JS.abs (calculateHeadAngle Obs.profileFace))
           (JS.Fin headAngleThreshold)
     = true.
Proof.
  refine (proj1 (coincident_eyes_divide_by_zero
                   Obs.profileFace _ 1 0 (JS.Fin 0) (JS.Fin 0) (JS.Fin 0)
                   (mkLandmark (JS.Fin 0) (JS.Fin 0))
                   (mkLandmark (JS.Fin 0) (JS.Fin 0))
                   eq_refl _ eq_refl eq_refl eq_refl eq_refl eq_refl _) _).
  - apply Nat.leb_le. reflexivity.
  - unfold Qle; simpl; lia.
  - reflexivity.
Defined.

End HeadAngle.
